(** * LinkedIn Connection Assistant: content script, service worker, popup

    A shallow embedding of the extension's JavaScript:
    - [content.js]: the profile extractors, the page-type guard and the
      message listener;
    - the background service worker: [loadApiKey], [sendMessageToTab],
      the two [onMessage] listeners, [handleGenerateMessage],
      [createPrompt], the heartbeat, and the [BackgroundManager] with
      its installation, startup, settings, activity log, icon click and
      tab title;
    - [popup.js]: the [PopupManager] with its form, its generate button
      and its input listeners.

    JavaScript strings are sequences of UTF-16 code units, so they are
    lists of [N]; [js] turns an ASCII literal of the source into one.
    Part I holds the definitions, Part II the theorems. *)

From Stdlib Require Import NArith ZArith QArith Ascii String List Bool Lia.
From stdpp Require Import gmap strings list pretty.

Local Open Scope N_scope.
Local Open Scope list_scope.

(** * Part I: the program *)

(** ** JavaScript strings *)

Module JsString.

Abbreviation jsstring := (list N).

Definition js (s : string) : jsstring :=
  List.map N_of_ascii (list_ascii_of_string s).

(** The double quote, U+0022. *)
Definition dq : jsstring := [34].

(** ECMAScript WhiteSpace and LineTerminator code points, the ones
    [String.prototype.trim] strips. All lie in the BMP. *)
Definition isWhiteSpace (c : N) : bool :=
  (c =? 0x9) || (c =? 0xA) || (c =? 0xB) || (c =? 0xC) || (c =? 0xD)
  || (c =? 0x20) || (c =? 0xA0) || (c =? 0x1680)
  || ((0x2000 <=? c) && (c <=? 0x200A))
  || (c =? 0x2028) || (c =? 0x2029) || (c =? 0x202F) || (c =? 0x205F)
  || (c =? 0x3000) || (c =? 0xFEFF).

Fixpoint trimStart (s : jsstring) : jsstring :=
  match s with
  | [] => []
  | c :: r => if isWhiteSpace c then trimStart r else s
  end.

Definition trimEnd (s : jsstring) : jsstring := rev (trimStart (rev s)).

Definition trim (s : jsstring) : jsstring := trimEnd (trimStart s).

(** [s.substring(0, n)] *)
Definition substring0 (n : nat) (s : jsstring) : jsstring := take n s.

Fixpoint startsWith (s p : jsstring) {struct p} : bool :=
  match p, s with
  | [], _ => true
  | _ :: _, [] => false
  | a :: p', b :: s' => (a =? b) && startsWith s' p'
  end.

(** [s.includes(p)] *)
Fixpoint includes (s p : jsstring) : bool :=
  startsWith s p
  || match s with
     | [] => false
     | _ :: s' => includes s' p
     end.

(** [s.endsWith(p)] *)
Definition endsWith (s p : jsstring) : bool := startsWith (rev s) (rev p).

(** [s.split(' ')[0]]: everything before the first U+0020. *)
Fixpoint split_space_0 (s : jsstring) : jsstring :=
  match s with
  | [] => []
  | c :: r => if c =? 0x20 then [] else c :: split_space_0 r
  end.

(** A string is truthy when it is not empty. *)
Definition nonEmpty (s : jsstring) : bool :=
  match s with
  | [] => false
  | _ :: _ => true
  end.

(** [a === b] on strings. *)
Fixpoint str_eqb (a b : jsstring) : bool :=
  match a, b with
  | [], [] => true
  | x :: a', y :: b' => (x =? y) && str_eqb a' b'
  | _, _ => false
  end.

End JsString.
Export JsString.

(** ** Exceptions and completions *)

(** A thrown [Error]; the code only ever reads its [.message]. *)
Record Exn := Error { errorMessage : jsstring }.

Inductive Res (A : Type) :=
| Ok (a : A)
| Throw (e : Exn).
Arguments Ok {A} a.
Arguments Throw {A} e.

#[global] Instance res_ret : MRet Res := fun A a => Ok a.

#[global] Instance res_bind : MBind Res := fun A B k r =>
  match r with
  | Ok a => k a
  | Throw e => Throw e
  end.

(** What the JavaScript engine decides and the source does not: the
    Unicode case mapping and the wording of its own [TypeError]s. *)
Class Engine := {
  toLowerCase : jsstring -> jsstring;
  (** message of the [TypeError] for reading property [p] of
      [undefined] or [null] *)
  nullishRead : string -> jsstring;
  (** message of the [TypeError] for calling [x.p()] when [x.p] is
      [undefined] *)
  notAFunction : string -> jsstring;
  (** message of the [TypeError] for assigning property [p] of a
      primitive in strict mode *)
  cannotCreateProperty : string -> jsstring;
  (** message of the [TypeError] for an object that has no primitive
      value *)
  cannotConvert : jsstring;
  (** Number::toString *)
  numberToString : Q -> jsstring
}.

(** ** JavaScript values that travel in messages and live in storage *)

Module Js.

(** JSON values and [undefined]. An object is the list of its
    properties; a lookup takes the first binding of a key. *)
#[local] Set Warnings "-register-all".
Inductive JsVal :=
| JUndefined
| JNull
| JBool (b : bool)
| JNum (q : Q)
| JStr (s : jsstring)
| JArr (items : list JsVal)
| JObj (props : list (string * JsVal)).

(** ToBoolean *)
Definition truthy (v : JsVal) : bool :=
  match v with
  | JUndefined | JNull => false
  | JBool b => b
  | JNum q => negb (Qeq_bool q 0)
  | JStr s => nonEmpty s
  | JArr _ | JObj _ => true
  end.

Fixpoint assoc (k : string) (props : list (string * JsVal)) : option JsVal :=
  match props with
  | [] => None
  | (k', v) :: rest => if String.eqb k k' then Some v else assoc k rest
  end.

(** [o.k] for an object [o] (own data properties only). *)
Definition field (k : string) (v : JsVal) : option JsVal :=
  match v with
  | JObj props => assoc k props
  | _ => None
  end.

(** [v?.k] *)
Definition optChain (k : string) (v : JsVal) : JsVal :=
  default JUndefined (field k v).

(** [v === 'lit'] *)
Definition isStr (lit : jsstring) (v : JsVal) : bool :=
  match v with
  | JStr s => str_eqb s lit
  | _ => false
  end.

(** The object has a property [success] that holds a boolean. *)
Definition hasBoolSuccess (v : JsVal) : bool :=
  match field "success" v with
  | Some (JBool _) => true
  | _ => false
  end.

(** [{ success: true }] *)
Definition success : JsVal := JObj [("success"%string, JBool true)].

(** [{ success: false, error: e }] *)
Definition failure (e : jsstring) : JsVal :=
  JObj [("success"%string, JBool false); ("error"%string, JStr e)].

(** A message on the bus: [action] and [data], and the two further
    properties the background reads. A property the sender left out is
    [JUndefined]. *)
Record Request := {
  action : JsVal;
  data : JsVal;
  profileData : JsVal;
  userContext : JsVal
}.

(** The message as a listener reads it. A listener can read the
    properties of any message but [undefined] and [null]. *)
Definition toRequest (m : JsVal) : Request :=
  {| action := optChain "action" m;
     data := optChain "data" m;
     profileData := optChain "profileData" m;
     userContext := optChain "userContext" m |}.

End Js.
Export Js.

(** ** content.js *)

Module Content.

Record Element := { textContent : jsstring }.

(** The page as the script sees it: for a selector, the elements that
    match it, in document order. *)
Definition DOM := jsstring -> list Element.

Definition querySelectorAll (document : DOM) (selector : jsstring)
  : list Element := document selector.

Definition querySelector (document : DOM) (selector : jsstring)
  : option Element := head (document selector).

Section Extractors.

Context `{Engine}.

(** [element.textContent], a [TypeError] when [element] is [null]. *)
Definition getTextContent (element : option Element) : Res jsstring :=
  match element with
  | Some el => Ok (textContent el)
  | None => Throw (Error (nullishRead "textContent"))
  end.

(** The loop of the single-node extractors,
<<
    for (const selector of selectors) {
        const element = document.querySelector(selector);
        if (element && element.textContent.trim()) {
            return found(element.textContent.trim());
        }
    }
    return dflt;
>>
    where [found] is what the extractor does with the trimmed text. *)
Fixpoint firstText (document : DOM) (selectors : list jsstring)
         (found : jsstring -> jsstring) (dflt : jsstring)
  : Res jsstring :=
  match selectors with
  | [] => Ok dflt
  | selector :: rest =>
      let element := querySelector document selector in
      match element with
      | None => firstText document rest found dflt
      | Some _ =>
          text ← getTextContent element;
          if nonEmpty (trim text)
          then text' ← getTextContent element;
               Ok (found (trim text'))
          else firstText document rest found dflt
      end
  end.

Definition nameSelectors : list jsstring :=
  [ js "h1.text-heading-xlarge";
    js ".pv-text-details__left-panel h1";
    js ".pv-top-card--list-bullet h1";
    js ".ph5 h1";
    js "h1.break-words" ].

Definition extractName (document : DOM) : Res jsstring :=
  firstText document nameSelectors (fun t => t) (js "there").

Definition headlineSelectors : list jsstring :=
  [ js ".text-body-medium.break-words";
    js ".pv-text-details__left-panel .text-body-medium";
    js ".pv-top-card .pv-top-card__headline";
    js ".ph5 .text-body-medium" ].

Definition extractHeadline (document : DOM) : Res jsstring :=
  firstText document headlineSelectors (fun t => t) [].

Definition companySelectors : list jsstring :=
  [ js ".pv-text-details__left-panel .pv-entity__secondary-title";
    js ".pv-top-card .pv-entity__secondary-title";
    js ".ph5 .pv-entity__secondary-title";
    js ".experience-section .pv-entity__summary-info .pv-entity__secondary-title";
    js "[data-field=" ++ dq ++ js "experience" ++ dq
      ++ js "] .pv-entity__summary-info .pv-entity__secondary-title" ].

Definition extractCompany (document : DOM) : Res jsstring :=
  firstText document companySelectors (fun t => t) [].

Definition locationSelectors : list jsstring :=
  [ js ".text-body-small.inline.t-black--light";
    js ".pv-text-details__left-panel .text-body-small";
    js ".pv-top-card .pv-top-card__location";
    js ".ph5 .text-body-small" ].

Definition extractLocation (document : DOM) : Res jsstring :=
  firstText document locationSelectors (fun t => t) [].

Definition aboutSelectors : list jsstring :=
  [ js ".pv-shared-text-with-see-more-text .break-words";
    js ".pv-about__summary-text .break-words";
    js "[data-field=" ++ dq ++ js "summary" ++ dq ++ js "] .break-words";
    js ".about-section .pv-shared-text-with-see-more-text" ].

Definition extractAbout (document : DOM) : Res jsstring :=
  firstText document aboutSelectors
            (fun t => substring0 200 t ++ js "...") [].

Definition experienceSelectors : list jsstring :=
  [ js ".experience-section .pv-entity__summary-info";
    js "[data-field=" ++ dq ++ js "experience" ++ dq
      ++ js "] .pv-entity__summary-info";
    js ".pvs-list__item--experience .pvs-entity__summary-info" ].

(** [Array.prototype.join] *)
Fixpoint join (sep : jsstring) (parts : list jsstring) : jsstring :=
  match parts with
  | [] => []
  | p :: rest =>
      match rest with
      | [] => p
      | _ :: _ => p ++ sep ++ join sep rest
      end
  end.

(** [extractExperience]: the first selector with any match decides;
    its first two nodes are trimmed and joined. *)
Fixpoint experienceLoop (document : DOM) (selectors : list jsstring)
  : jsstring :=
  match selectors with
  | [] => []
  | selector :: rest =>
      let elements := querySelectorAll document selector in
      if (0 <? length elements)%nat
      then join (js "; ")
                (List.map (fun el => trim (textContent el))
                          (take 2 elements))
      else experienceLoop document rest
  end.

Definition extractExperience (document : DOM) : Res jsstring :=
  Ok (experienceLoop document experienceSelectors).

(** The keyword table of [extractIndustry], in the order of the object
    literal ([Object.entries] keeps insertion order for these keys). *)
Definition industries : list (jsstring * list jsstring) :=
  [ (js "tech",
     List.map js ["software"; "developer"; "engineer"; "tech";
                  "programming"; "coding"; "javascript"; "python";
                  "react"; "node"]%string);
    (js "marketing",
     List.map js ["marketing"; "digital"; "social media"; "seo";
                  "content"; "brand"; "advertising"]%string);
    (js "sales",
     List.map js ["sales"; "business development"; "account";
                  "revenue"; "client"; "customer"]%string);
    (js "finance",
     List.map js ["finance"; "financial"; "investment"; "banking";
                  "accounting"; "analyst"]%string);
    (js "healthcare",
     List.map js ["healthcare"; "medical"; "doctor"; "nurse";
                  "physician"; "hospital"; "clinic"]%string);
    (js "education",
     List.map js ["education"; "teacher"; "professor"; "academic";
                  "university"; "school"]%string);
    (js "consulting",
     List.map js ["consulting"; "consultant"; "advisory"; "strategy";
                  "management"]%string) ].

(** The categories the classification can name. *)
Definition industryCategories : list jsstring :=
  List.map js ["tech"; "marketing"; "sales"; "finance"; "healthcare";
               "education"; "consulting"; "professional"]%string.

(** [keywords.some(keyword => text.includes(keyword))] *)
Definition someKeyword (text : jsstring) (keywords : list jsstring)
  : bool := existsb (fun keyword => includes text keyword) keywords.

(** The [for ... of Object.entries(industries)] loop of
    [extractIndustry] and its fall-through [return 'professional']. *)
Fixpoint industryLoop (entries : list (jsstring * list jsstring))
         (text : jsstring) : jsstring :=
  match entries with
  | [] => js "professional"
  | (industry, keywords) :: rest =>
      if someKeyword text keywords then industry
      else industryLoop rest text
  end.

(** [`${headline} ${about} ${company}`.toLowerCase()] *)
Definition industryText (document : DOM) : Res jsstring :=
  headline ← extractHeadline document;
  about ← extractAbout document;
  company ← extractCompany document;
  Ok (toLowerCase (headline ++ js " " ++ about ++ js " " ++ company)).

Definition extractIndustry (document : DOM) : Res jsstring :=
  text ← industryText document;
  Ok (industryLoop industries text).

End Extractors.

(** [FirstMatch d sels r]: going through [sels] in order, [r] is the
    trimmed text of the first selector whose first node has text left
    after trimming; [None] when there is no such selector. *)
Inductive FirstMatch (d : DOM) : list jsstring -> option jsstring -> Prop :=
| first_none : FirstMatch d [] None
| first_here selector rest el :
    querySelector d selector = Some el ->
    trim (textContent el) <> [] ->
    FirstMatch d (selector :: rest) (Some (trim (textContent el)))
| first_later selector rest r :
    (forall el, querySelector d selector = Some el ->
                trim (textContent el) = []) ->
    FirstMatch d rest r ->
    FirstMatch d (selector :: rest) r.

(** *** The page-type guard *)

(** [\w] and [[\w-]] of a regular expression without flags. *)
Definition isWordChar (c : N) : bool :=
  ((48 <=? c) && (c <=? 57)) || ((65 <=? c) && (c <=? 90))
  || ((97 <=? c) && (c <=? 122)) || (c =? 95).

Definition isSlugChar (c : N) : bool := isWordChar c || (c =? 45).

(** What [.] does not match. *)
Definition isLineTerminator (c : N) : bool :=
  (c =? 0xA) || (c =? 0xD) || (c =? 0x2028) || (c =? 0x2029).

Fixpoint dropSlug (s : jsstring) : jsstring :=
  match s with
  | [] => []
  | c :: r => if isSlugChar c then dropSlug r else s
  end.

(** The rest of the pattern: an optional slash, an optional query
    (a question mark and any run without line terminators), the end. *)
Definition matchTail (s : jsstring) : bool :=
  let s1 := match s with
            | c :: r => if c =? 47 then r else s
            | [] => s
            end in
  match s1 with
  | [] => true
  | c :: r => (c =? 63) && forallb (fun x => negb (isLineTerminator x)) r
  end.

(** The pattern after [linkedin.com/in/]: a non-empty run of [[\w-]]
    and then [matchTail]. The character class excludes the slash and
    the question mark, so the longest run is the only one that can be
    followed by a match of the rest. *)
Definition matchSlug (s : jsstring) : bool :=
  match s with
  | [] => false
  | c :: _ => isSlugChar c && matchTail (dropSlug s)
  end.

(** [profilePattern.test(url)]: the pattern is not anchored at the
    start, so every position is tried. *)
Fixpoint profilePattern_test (url : jsstring) : bool :=
  (startsWith url (js "linkedin.com/in/") && matchSlug (drop 16 url))
  || match url with
     | [] => false
     | _ :: r => profilePattern_test r
     end.

(** [window.location.href] and the document. *)
Record Page := { href : jsstring; document : DOM }.

(** The address matches the profile pattern and one of the three
    heading selectors finds a node. *)
Definition isProfilePage (page : Page) : bool :=
  profilePattern_test (href page)
  && (bool_decide (is_Some (querySelector (document page)
                                          (js "h1.text-heading-xlarge")))
      || bool_decide (is_Some (querySelector (document page)
                                 (js ".pv-text-details__left-panel h1")))
      || bool_decide (is_Some (querySelector (document page)
                                             (js ".ph5 h1")))).

Section Agent.

Context `{Engine}.

Definition extractProfileData (document : DOM) : Res JsVal :=
  name ← extractName document;
  headline ← extractHeadline document;
  company ← extractCompany document;
  location ← extractLocation document;
  about ← extractAbout document;
  experience ← extractExperience document;
  industry ← extractIndustry document;
  Ok (JObj [ ("name", JStr name); ("headline", JStr headline);
             ("company", JStr company); ("location", JStr location);
             ("about", JStr about); ("experience", JStr experience);
             ("industry", JStr industry) ]%string).

Definition getProfileDataForMessage (page : Page) : JsVal :=
  if negb (isProfilePage page)
  then failure (js "Not a LinkedIn profile page")
  else match extractProfileData (document page) with
       | Ok profileData =>
           JObj [ ("success", JBool true);
                  ("profileData", profileData) ]%string
       | Throw error => failure (errorMessage error)
       end.

(** An instance of [LinkedInConnectionAssistant]: its [settings]. The
    constructor sets them to an empty object and starts [loadSettings],
    which replaces them once storage has answered. *)
Record Assistant := { settings : JsVal }.

(** The script's globals: [isContentScriptReady],
    [window.linkedinAssistant], [window.linkedInAssistantLoaded]. *)
Record ContentState := {
  isContentScriptReady : bool;
  linkedinAssistant : option Assistant;
  linkedInAssistantLoaded : bool
}.

Definition initialState : ContentState :=
  {| isContentScriptReady := false;
     linkedinAssistant := None;
     linkedInAssistantLoaded := false |}.

Definition initializeContentScript (st : ContentState) : ContentState :=
  if isContentScriptReady st then st
  else {| isContentScriptReady := true;
          linkedinAssistant := Some {| settings := JObj [] |};
          linkedInAssistantLoaded := true |}.

(** The [chrome.runtime.onMessage] listener of the content script: the
    state it leaves and the arguments of its [sendResponse] calls, in
    order. *)
Definition onMessage (page : Page) (st : ContentState) (request : Request)
  : ContentState * list JsVal :=
  if isStr (js "ping") (action request)
  then (st, [JObj [("ready"%string, JBool (isContentScriptReady st))]])
  else
    let st1 := if negb (isContentScriptReady st)
               then initializeContentScript st else st in
    match linkedinAssistant st1 with
    | None => (st1, [failure (js "Assistant not initialized")])
    | Some assistant =>
        if isStr (js "getProfileData") (action request)
        then (st1, [getProfileDataForMessage page])
        else if isStr (js "settingsUpdated") (action request)
        then ({| isContentScriptReady := isContentScriptReady st1;
                 linkedinAssistant := Some {| settings := data request |};
                 linkedInAssistantLoaded := linkedInAssistantLoaded st1 |},
              [success])
        else (st1, [failure (js "Unknown action")])
    end.

End Agent.

End Content.

(** ** The background service worker *)

Module Background.

Section Generation.

Context `{Engine}.

(** ToString, as a template literal applies it. An array prints its
    items joined by commas, [undefined] and [null] items as nothing. A
    plain object prints as [[object Object]]; an object with a property
    [toString] of its own, which in a JSON value is never a function,
    has no primitive value. *)
Fixpoint toStr (v : JsVal) : Res jsstring :=
  match v with
  | JUndefined => Ok (js "undefined")
  | JNull => Ok (js "null")
  | JBool b => Ok (if b then js "true" else js "false")
  | JNum q => Ok (numberToString q)
  | JStr s => Ok s
  | JArr items =>
      (fix elements (l : list JsVal) : Res jsstring :=
         match l with
         | [] => Ok []
         | x :: r =>
             first ← match x with
                     | JUndefined | JNull => Ok []
                     | _ => toStr x
                     end;
             others ← match r with
                      | [] => Ok []
                      | _ :: _ => rest ← elements r; Ok (js "," ++ rest)
                      end;
             Ok (first ++ others)
         end) items
  | JObj props =>
      match assoc "toString" props with
      | Some _ => Throw (Error cannotConvert)
      | None => Ok (js "[object Object]")
      end
  end.

(** [v.k]: a [TypeError] on [undefined] and [null], the property of an
    object, [undefined] on the other values (none of the keys read here
    is a property of a string, number, boolean or array). *)
Definition getProp (k : string) (v : JsVal) : Res JsVal :=
  match v with
  | JUndefined | JNull => Throw (Error (nullishRead k))
  | _ => Ok (optChain k v)
  end.

(** [v.split(' ')[0]] *)
Definition splitFirst (v : JsVal) : Res jsstring :=
  match v with
  | JStr s => Ok (split_space_0 s)
  | JUndefined | JNull => Throw (Error (nullishRead "split"))
  | _ => Throw (Error (notAFunction "split"))
  end.

Definition nl : jsstring := [0xA].
Definition bullet : jsstring := [0x2022].
Definition ndash : jsstring := [0x2013].

Definition createPrompt (profileData : JsVal) : Res jsstring :=
  name ← getProp "name" profileData;
  firstName ← splitFirst (if truthy name then name else JStr (js "there"));
  headline ← getProp "headline" profileData;
  company ← getProp "company" profileData;
  industry ← getProp "industry" profileData;
  headlineText ← toStr headline;
  companyText ← toStr company;
  industryText ← toStr industry;
  Ok (nl ++
      js "Write ONE LinkedIn connection message that follows ALL rules:" ++
      nl ++
      nl ++
      bullet ++
      js " Must be 295-300 characters total (hard cap). Count spaces & punctuation." ++
      nl ++
      bullet ++ js " Start with " ++ dq ++ js "Hi " ++ firstName ++
      js "," ++ dq ++ js " using their first name." ++ nl ++
      bullet ++
      js " Mention ONE specific fact about their work, company, or field (headline: " ++
      headlineText ++ js "; company: " ++ companyText ++
      js "; industry: " ++ industryText ++ js ")." ++ nl ++
      bullet ++
      js " Introduce yourself briefly: you are a computer-science graduate and full-stack developer (phrase it naturally, no tech buzzword list)." ++
      nl ++
      bullet ++
      js " State you are currently exploring opportunities and open to hearing about relevant roles." ++
      nl ++
      bullet ++ js " Offer to share your resume if helpful." ++ nl ++
      bullet ++ js " Use plain, respectful English " ++ ndash ++
      js " no slang, hype, buzzwords, or job-begging phrases (e.g., don't say " ++
      dq ++ js "open to work" ++ dq ++ js ")." ++ nl ++
      bullet ++ js " Keep the tone clean, casual, raw, and real " ++
      ndash ++ js " avoid flattery or compliments like " ++ dq ++
      js "impressed by your work" ++ dq ++ js "." ++ nl ++
      bullet ++ js " End with a brief close like " ++ dq ++
      js "Let me know." ++ dq ++ js ", " ++ dq ++
      js "Would be glad to connect." ++ dq ++ js ", or " ++ dq ++
      js "Happy to connect if that works for you." ++ dq ++
      js " Pick any ONE." ++ nl ++
      bullet ++
      js " Aim for natural variety; do not repeat exact sentences each time." ++
      nl ++
      nl ++
      js "Return ONLY the single message text (no extra words)." ++ nl).

(** The body of a [generateContent] answer, as far as the worker reads
    it. Every field is optional in the API's JSON. *)
Record Part := { text : option jsstring }.
Record Content := { parts : option (list Part) }.
Record Candidate := { content : option Content }.
Record PromptFeedback := { blockReason : option jsstring }.
Record ApiError := { api_message : option jsstring }.
Record ApiBody := {
  error : option ApiError;
  candidates : option (list Candidate);
  promptFeedback : option PromptFeedback
}.

(** What [fetch] resolved to: [response.ok], [response.statusText] and
    the completion of [response.json()]. *)
Record Response := {
  ok : bool;
  statusText : jsstring;
  json : Res ApiBody
}.

(** The worker's surroundings for one generation: what [loadApiKey]
    resolves to ([None] for [null]) and how [fetch] completes for a URL
    and a prompt. *)
Record Network := {
  loadApiKey : option jsstring;
  fetch : jsstring -> jsstring -> Res Response
}.

(** [c.content.parts[0].text] for the first candidate [c]. *)
Definition candidateText (c : Candidate) : Res (option jsstring) :=
  match content c with
  | None => Throw (Error (nullishRead "parts"))
  | Some ct =>
      match parts ct with
      | None => Throw (Error (nullishRead "0"))
      | Some [] => Throw (Error (nullishRead "text"))
      | Some (p :: _) => Ok (text p)
      end
  end.

(** Lines 181 to 192: the three-way branch on the parsed body. *)
Definition handleResponseData (responseData : ApiBody) : Res JsVal :=
  match candidates responseData with
  | Some (c :: _) =>
      message ← candidateText c;
      match message with
      | Some m =>
          Ok (JObj [ ("success", JBool true);
                     ("message", JStr (trim m)) ]%string)
      | None => Throw (Error (nullishRead "trim"))
      end
  | _ =>
      match promptFeedback responseData with
      | Some {| blockReason := Some reason |} =>
          if nonEmpty reason
          then Ok (failure (js "Message generation failed because the prompt was blocked. Reason: " ++ reason))
          else Ok (failure (js "Message generation failed. The API returned an empty response."))
      | _ => Ok (failure (js "Message generation failed. The API returned an empty response."))
      end
  end.

(** [`Google Gemini API error: ${errorBody.error?.message || response.statusText}`] *)
Definition apiErrorMessage (errorBody : ApiBody) (r : Response) : jsstring :=
  js "Google Gemini API error: "
  ++ match error errorBody with
     | Some {| api_message := Some m |} =>
         if nonEmpty m then m else statusText r
     | _ => statusText r
     end.

Definition apiUrl (apiKey : jsstring) : jsstring :=
  js "https://generativelanguage.googleapis.com/v1beta/models/gemini-1.5-flash-latest:generateContent?key="
  ++ apiKey.

(** The [try] block of [handleGenerateMessage]. *)
Definition callGemini (net : Network) (apiKey prompt : jsstring)
  : Res JsVal :=
  response ← fetch net (apiUrl apiKey) prompt;
  if negb (ok response)
  then errorBody ← json response;
       Throw (Error (apiErrorMessage errorBody response))
  else responseData ← json response;
       handleResponseData responseData.

(** [handleGenerateMessage(data)]; [Throw] is a rejected promise. *)
Definition handleGenerateMessage (net : Network) (data : JsVal) : Res JsVal :=
  match loadApiKey net with
  | Some (c :: k) =>
      let apiKey := c :: k in
      profileData ← getProp "profileData" data;
      prompt ← createPrompt profileData;
      match callGemini net apiKey prompt with
      | Ok r => Ok r
      | Throw error => Ok (failure (errorMessage error))
      end
  | _ => Ok (failure (js "API Key not loaded. Please check your .env file and reload the extension."))
  end.

End Generation.

(** *** The browser *)

(** The calls the worker and the popup make on the extension API, and
    the [sendResponse] calls of a listener, in the order made. *)
Inductive Call :=
| TabsGet (tabId : N)
| TabsSendMessage (tabId : N) (message : JsVal)
| ExecuteScript (tabId : N) (files : list jsstring)
| SetTimeout (ms : N)
| TabsReload (tabId : N)
| TabsUpdate (tabId : N) (url : jsstring)
| TabsCreate (url : jsstring)
| StorageGet (keys : option (list string))
| StorageSet (items : gmap string JsVal)
| SendResponse (response : JsVal).

(** [chrome.tabs.Tab]; [url] is absent without the permission to see it. *)
Record Tab := { tab_id : N; tab_url : option jsstring }.

(** How the browser completes each call, given the calls made before
    it. [Throw] is a rejected promise. *)
Record Chrome := {
  tabs_get : list Call -> N -> Res (option Tab);
  tabs_sendMessage : list Call -> N -> JsVal -> Res JsVal;
  scripting_executeScript : list Call -> N -> list jsstring -> Res unit;
  (** [Some e] when [chrome.storage.sync.get] rejects *)
  storage_get_fault : list Call -> option Exn;
  (** [Some e] when [chrome.storage.sync.set] rejects, e.g. over quota *)
  storage_set_fault : list Call -> gmap string JsVal -> option Exn;
  (** [new Date().toISOString()] *)
  date_now : list Call -> jsstring;
  (** [chrome.runtime.getURL] *)
  runtime_getURL : jsstring -> jsstring;
  network : Network
}.

Record World := {
  history : list Call;
  storage : gmap string JsVal
}.

(** An [async] function: it runs from a world to a world and completes
    normally or by throwing. *)
Definition Async (A : Type) : Type := World -> World * Res A.

#[global] Instance async_ret : MRet Async := fun A a w => (w, Ok a).

#[global] Instance async_bind : MBind Async := fun A B k m w =>
  match m w with
  | (w', Ok a) => k a w'
  | (w', Throw e) => (w', Throw e)
  end.

Definition throw {A} (e : Exn) : Async A := fun w => (w, Throw e).

Definition tryCatch {A} (body : Async A) (handler : Exn -> Async A)
  : Async A := fun w =>
  match body w with
  | (w', Throw e) => handler e w'
  | (w', Ok a) => (w', Ok a)
  end.

(** Make a call: it joins the history, and the browser answers from
    the history before it. *)
Definition call {A} (c : Call) (answer : list Call -> Res A) : Async A :=
  fun w => ({| history := history w ++ [c]; storage := storage w |},
            answer (history w)).

Definition lift {A} (r : Res A) : Async A := fun w => (w, r).

Section Api.

Variable chrome : Chrome.

Definition chrome_tabs_get (tabId : N) : Async (option Tab) :=
  call (TabsGet tabId) (fun h => tabs_get chrome h tabId).

Definition chrome_tabs_sendMessage (tabId : N) (message : JsVal)
  : Async JsVal :=
  call (TabsSendMessage tabId message)
       (fun h => tabs_sendMessage chrome h tabId message).

Definition chrome_scripting_executeScript (tabId : N) (files : list jsstring)
  : Async unit :=
  call (ExecuteScript tabId files)
       (fun h => scripting_executeScript chrome h tabId files).

(** [await new Promise(resolve => setTimeout(resolve, ms))] *)
Definition sleep (ms : N) : Async unit :=
  call (SetTimeout ms) (fun _ => Ok tt).

Definition chrome_tabs_reload (tabId : N) : Async unit :=
  call (TabsReload tabId) (fun _ => Ok tt).

Definition chrome_tabs_update (tabId : N) (url : jsstring) : Async unit :=
  call (TabsUpdate tabId url) (fun _ => Ok tt).

Definition chrome_tabs_create (url : jsstring) : Async unit :=
  call (TabsCreate url) (fun _ => Ok tt).

Definition sendResponse (response : JsVal) : Async unit :=
  call (SendResponse response) (fun _ => Ok tt).

(** [chrome.storage.sync.get()]: every stored item. *)
Definition chrome_storage_sync_get : Async (gmap string JsVal) :=
  fun w =>
    ({| history := history w ++ [StorageGet None]; storage := storage w |},
     match storage_get_fault chrome (history w) with
     | Some e => Throw e
     | None => Ok (storage w)
     end).

(** [chrome.storage.sync.get(keys)]: the stored items under [keys]. *)
Definition chrome_storage_sync_get_keys (keys : list string)
  : Async (gmap string JsVal) :=
  fun w =>
    ({| history := history w ++ [StorageGet (Some keys)];
        storage := storage w |},
     match storage_get_fault chrome (history w) with
     | Some e => Throw e
     | None => Ok (filter (fun kv => bool_decide (kv.1 ∈ keys)) (storage w))
     end).

(** [chrome.storage.sync.set(items)]: the items given replace or join
    the stored ones; the others stay. *)
Definition chrome_storage_sync_set (items : gmap string JsVal) : Async unit :=
  fun w =>
    match storage_set_fault chrome (history w) items with
    | Some e =>
        ({| history := history w ++ [StorageSet items];
            storage := storage w |}, Throw e)
    | None =>
        ({| history := history w ++ [StorageSet items];
            storage := items ∪ storage w |}, Ok tt)
    end.

Definition now : Async jsstring :=
  fun w => (w, Ok (date_now chrome (history w))).

End Api.

(** *** sendMessageToTab *)

Section Bridge.

Context `{Engine}.
Variable chrome : Chrome.

(** [{ action: 'ping' }] *)
Definition ping : JsVal := JObj [("action"%string, JStr (js "ping"))].

(** [!tab || !tab.url.includes('linkedin.com')] *)
Definition notOnLinkedIn (tab : option Tab) : Res bool :=
  match tab with
  | None => Ok true
  | Some t =>
      match tab_url t with
      | None => Throw (Error (nullishRead "includes"))
      | Some u => Ok (negb (includes u (js "linkedin.com")))
      end
  end.

(** The first inner [try]: the probe and, when it reports ready, the
    delivery. [Some r] is [return r]; [None] falls out of the block.
    A throw of either call lands in [catch (pingError)], which logs
    and falls through as well. *)
Definition probeAndDeliver (tabId : N) (message : JsVal)
  : Async (option JsVal) :=
  tryCatch
    (pingResponse ← chrome_tabs_sendMessage chrome tabId ping;
     if truthy (optChain "ready" pingResponse)
     then r ← chrome_tabs_sendMessage chrome tabId message;
          mret (Some r)
     else mret None)
    (fun pingError => mret None).

(** The second inner [try]: inject, wait, send again. *)
Definition injectAndRetry (tabId : N) (message : JsVal) : Async JsVal :=
  tryCatch
    (_ ← chrome_scripting_executeScript chrome tabId [js "content.js"];
     _ ← sleep 1500;
     chrome_tabs_sendMessage chrome tabId message)
    (fun injectionError =>
       mret (failure (js "Failed to inject content script. Please refresh the page."))).

Definition sendMessageToTab (tabId : N) (message : JsVal) : Async JsVal :=
  tryCatch
    (tab ← chrome_tabs_get chrome tabId;
     refused ← lift (notOnLinkedIn tab);
     if (refused : bool)
     then mret (failure (js "Tab not accessible or not on LinkedIn"))
     else
       returned ← probeAndDeliver tabId message;
       match returned with
       | Some r => mret r
       | None => injectAndRetry tabId message
       end)
    (fun error => mret (failure (errorMessage error))).

End Bridge.

(** *** BackgroundManager *)

Section Manager.

Context `{Engine}.
Variable chrome : Chrome.

Definition defaultSettings (date : jsstring) : gmap string JsVal :=
  {[ "userContext" := JStr [];
     "userRole" := JStr [];
     "settings" := JObj [ ("messageLength", JStr (js "medium"));
                          ("tone", JStr (js "professional"));
                          ("autoGenerate", JBool false) ];
     "statistics" := JObj [ ("messagesGenerated", JNum 0);
                            ("extensionInstalled", JStr date) ] ]}%string.

Definition setDefaultSettings : Async unit :=
  date ← now chrome;
  chrome_storage_sync_set chrome (defaultSettings date).

(** [o.k] for the object a storage read resolved to. *)
Definition item (k : string) (o : gmap string JsVal) : JsVal :=
  default JUndefined (o !! k).

Definition updatedStatistics (date : jsstring) : JsVal :=
  JObj [ ("messagesGenerated", JNum 0);
         ("extensionUpdated", JStr date) ]%string.

Definition handleUpdate (previousVersion : JsVal) : Async unit :=
  currentSettings ← chrome_storage_sync_get chrome;
  if negb (truthy (item "statistics" currentSettings))
  then date ← now chrome;
       chrome_storage_sync_set chrome
         (<["statistics"%string := updatedStatistics date]> currentSettings)
  else mret tt.

Definition verifySettings : Async unit :=
  tryCatch
    (settings ← chrome_storage_sync_get chrome;
     if negb (truthy (item "settings" settings))
     then setDefaultSettings
     else mret tt)
    (fun error => setDefaultSettings).

Definition handleStartup : Async unit :=
  tryCatch verifySettings (fun error => mret tt).

(** [details.reason] and [details.previousVersion] are the arguments. *)
Definition handleInstallation (reason previousVersion : JsVal)
  : Async unit :=
  tryCatch
    (if isStr (js "install") reason
     then _ ← setDefaultSettings;
          chrome_tabs_create (runtime_getURL chrome (js "popup.html"))
     else if isStr (js "update") reason
     then handleUpdate previousVersion
     else mret tt)
    (fun error => mret tt).

Definition getSettings : Async (gmap string JsVal) :=
  chrome_storage_sync_get chrome.

(** Own enumerable properties, as an object spread copies them. *)
Definition ownProps (v : JsVal) : gmap string JsVal :=
  match v with
  | JObj props => list_to_map props
  | JArr items => list_to_map (imap (fun i x => (pretty i, x)) items)
  | JStr s => list_to_map (imap (fun i c => (pretty i, JStr [c])) s)
  | _ => ∅
  end.

(** The object a storage read resolved to, as a value. *)
Definition objectOf (m : gmap string JsVal) : JsVal := JObj (map_to_list m).

Definition saveSettings (newSettings : JsVal) : Async unit :=
  currentSettings ← chrome_storage_sync_get chrome;
  let updatedSettings := ownProps newSettings ∪ currentSettings in
  chrome_storage_sync_set chrome updatedSettings.

Definition generateMessage (profileData userContext : JsVal)
  : Async jsstring :=
  mret (js "Message generation handled by content script").

(** [(x || 0) + 1]: numeric for a number or nothing, a concatenation
    once [x] is a string or converts to one. *)
Definition orZeroPlusOne (x : JsVal) : Res JsVal :=
  match x with
  | JNum q => Ok (if Qeq_bool q 0 then JNum 1 else JNum (q + 1))
  | JBool b => Ok (if b then JNum 2 else JNum 1)
  | JUndefined | JNull => Ok (JNum 1)
  | JStr s => Ok (if nonEmpty s then JStr (s ++ js "1") else JNum 1)
  | JArr _ | JObj _ => s ← toStr x; Ok (JStr (s ++ js "1"))
  end.

Fixpoint putProp (k : string) (v : JsVal) (props : list (string * JsVal))
  : list (string * JsVal) :=
  match props with
  | [] => [(k, v)]
  | (k', v') :: rest =>
      if String.eqb k k' then (k, v) :: rest
      else (k', v') :: putProp k v rest
  end.

(** [o.k = v] in strict code, for a truthy [o], as storage will keep
    it: an object gets the property, an array keeps its items only, a
    primitive makes the assignment throw. *)
Definition assign (k : string) (v : JsVal) (o : JsVal) : Res JsVal :=
  match o with
  | JObj props => Ok (JObj (putProp k v props))
  | JArr items => Ok (JArr items)
  | JUndefined | JNull => Throw (Error (nullishRead k))
  | _ => Throw (Error (cannotCreateProperty k))
  end.

Definition logActivity (activityData : JsVal) : Async unit :=
  tryCatch
    (currentStats ← chrome_storage_sync_get_keys chrome ["statistics"%string];
     let stored := item "statistics" currentStats in
     let stats := if truthy stored then stored else JObj [] in
     type ← lift (getProp "type" activityData);
     stats' ← (if isStr (js "messageGenerated") type
               then counted ← lift (n ← orZeroPlusOne
                                            (optChain "messagesGenerated" stats);
                                    assign "messagesGenerated" n stats);
                    date ← now chrome;
                    lift (assign "lastMessageGenerated" (JStr date) counted)
               else mret stats);
     chrome_storage_sync_set chrome {[ "statistics"%string := stats' ]})
    (fun error => mret tt).

Definition handleMessage (request : Request) : Async unit :=
  tryCatch
    (if isStr (js "getSettings") (action request)
     then settings ← getSettings;
          sendResponse (JObj [ ("success", JBool true);
                               ("data", objectOf settings) ]%string)
     else if isStr (js "saveSettings") (action request)
     then _ ← saveSettings (data request);
          sendResponse success
     else if isStr (js "generateMessage") (action request)
     then message ← generateMessage (profileData request)
                                    (userContext request);
          sendResponse (JObj [ ("success", JBool true);
                               ("message", JStr message) ]%string)
     else if isStr (js "logActivity") (action request)
     then _ ← logActivity (data request);
          sendResponse success
     else if isStr (js "generateGeminiMessage") (action request)
     then mret tt
     else sendResponse (failure (js "Unknown action")))
    (fun error => sendResponse (failure (errorMessage error))).

(** The listener registered at the top of the file: it answers
    [generateGeminiMessage] and nothing else. *)
Definition onMessage (request : Request) : Async unit :=
  if isStr (js "generateGeminiMessage") (action request)
  then match handleGenerateMessage (network chrome) (data request) with
       | Ok r => sendResponse r
       | Throw error => sendResponse (failure (errorMessage error))
       end
  else mret tt.

(** Both listeners receive every message, in the order registered. *)
Definition dispatch (request : Request) : Async unit :=
  _ ← onMessage request;
  handleMessage request.

Definition showGenerateButton : JsVal :=
  JObj [("action"%string, JStr (js "showGenerateButton"))].

Definition handleIconClick (tab : Tab) : Async unit :=
  tryCatch
    (match tab_url tab with
     | Some (c :: u) =>
         if includes (c :: u) (js "linkedin.com")
         then result ← sendMessageToTab chrome (tab_id tab) showGenerateButton;
              ok ← lift (getProp "success" result);
              if negb (truthy ok)
              then chrome_tabs_reload (tab_id tab)
              else mret tt
         else chrome_tabs_update (tab_id tab) (js "https://www.linkedin.com")
     | _ => chrome_tabs_update (tab_id tab) (js "https://www.linkedin.com")
     end)
    (fun error => mret tt).

End Manager.

End Background.

(** ** popup.js *)

Module Popup.

Import Background.

Section ProfileRequest.

Variable chrome : Chrome.

(** [{ action: 'getProfileData' }] *)
Definition getProfileData : JsVal :=
  JObj [("action"%string, JStr (js "getProfileData"))].

(** Lines 152 to 180 of [PopupManager.handleGenerateMessage]: the
    value of [profileResponse], or the error that leaves the block. *)
Definition profileResponse (tabId : N) : Async JsVal :=
  tryCatch
    (chrome_tabs_sendMessage chrome tabId getProfileData)
    (fun msgError =>
       if includes (errorMessage msgError) (js "Receiving end does not exist")
       then
         tryCatch
           (_ ← chrome_scripting_executeScript chrome tabId [js "content.js"];
            _ ← sleep 2000;
            chrome_tabs_sendMessage chrome tabId getProfileData)
           (fun injectErr =>
              throw (Error (js "Connection failed even after injecting content script. Please refresh the LinkedIn page.")))
       else throw msgError).

End ProfileRequest.

End Popup.

(** ** Vocabulary of the statements *)

Module Trace.

Import Content Background.

(** No keyword of a table entry occurs in the text. *)
Definition noKeyword (text : jsstring) (entry : jsstring * list jsstring)
  : Prop := someKeyword text entry.2 = false.

(** Run from [w], [m] makes exactly the calls [calls], in this order,
    and completes as [r]. *)
Definition makes {A} (m : Async A) (w : World) (calls : list Call)
           (r : Res A) : Prop :=
  history (m w).1 = history w ++ calls /\ (m w).2 = r.

(** The arguments of the [sendResponse] calls among [calls]. *)
Definition responses (calls : list Call) : list JsVal :=
  omap (fun c => match c with
                 | SendResponse r => Some r
                 | _ => None
                 end) calls.

Definition isInstall (c : Call) : bool :=
  match c with
  | ExecuteScript _ _ => true
  | _ => false
  end.

(** The number of [chrome.scripting.executeScript] calls. *)
Definition installs (calls : list Call) : nat :=
  length (List.filter isInstall calls).

(** The messages handed to [chrome.tabs.sendMessage], in order. *)
Definition sent (calls : list Call) : list JsVal :=
  omap (fun c => match c with
                 | TabsSendMessage _ m => Some m
                 | _ => None
                 end) calls.

(** The calls that follow the first [executeScript]. *)
Fixpoint afterInstall (calls : list Call) : list Call :=
  match calls with
  | [] => []
  | ExecuteScript _ _ :: rest => rest
  | _ :: rest => afterInstall rest
  end.

(** The call sequences of [sendMessageToTab]: the lookup alone; probe
    and delivery; probe, install and nothing more; probe, install, wait
    and delivery; and the last two again after a delivery that followed
    the probe. *)
Definition bridgeTraces (tabId : N) (message : JsVal) : list (list Call) :=
  let G := TabsGet tabId in
  let P := TabsSendMessage tabId ping in
  let D := TabsSendMessage tabId message in
  let I := ExecuteScript tabId [js "content.js"] in
  let S := SetTimeout 1500 in
  [ [G]; [G; P; D]; [G; P; I]; [G; P; I; S; D];
    [G; P; D; I]; [G; P; D; I; S; D] ].

(** The call sequences of the popup's profile request. *)
Definition popupTraces (tabId : N) : list (list Call) :=
  let D := TabsSendMessage tabId Popup.getProfileData in
  let I := ExecuteScript tabId [js "content.js"] in
  let S := SetTimeout 2000 in
  [ [D]; [D; I]; [D; I; S; D] ].

(** [m] calls [sendResponse] nowhere. *)
Definition Quiet {A} (m : Async A) : Prop :=
  forall w, exists calls,
    history (m w).1 = history w ++ calls /\ responses calls = [].

Definition blockedMessage (reason : jsstring) : jsstring :=
  js "Message generation failed because the prompt was blocked. Reason: "
  ++ reason.

Definition emptyMessage : jsstring :=
  js "Message generation failed. The API returned an empty response.".

(** The body has no candidate: the list is absent or empty. *)
Definition noCandidates (body : ApiBody) : Prop :=
  candidates body = None \/ candidates body = Some [].

(** The body carries the block reason [reason], a non-empty string. *)
Definition blockedFor (body : ApiBody) (reason : jsstring) : Prop :=
  promptFeedback body = Some {| blockReason := Some reason |}
  /\ reason <> [].

(** The body carries no block reason. *)
Definition noBlockReason (body : ApiBody) : Prop :=
  match promptFeedback body with
  | Some {| blockReason := Some (_ :: _) |} => False
  | _ => True
  end.

(** The first candidate of the body carries the text [m]. *)
Definition firstCandidateText (body : ApiBody) (m : jsstring) : Prop :=
  exists c cs ct p ps,
    candidates body = Some (c :: cs) /\ content c = Some ct
    /\ parts ct = Some (p :: ps) /\ text p = Some m.

(** The key is loaded, the prompt is built, and the API answers the
    request with a 2xx status and the JSON body [body]. *)
Definition answeredWith `{Engine} (net : Network) (data : JsVal)
           (body : ApiBody) : Prop :=
  exists key profile prompt response,
    loadApiKey net = Some key /\ key <> []
    /\ getProp "profileData" data = Ok profile
    /\ createPrompt profile = Ok prompt
    /\ fetch net (apiUrl key) prompt = Ok response
    /\ ok response = true
    /\ json response = Ok body.

End Trace.
Export Trace.

(** ** Concrete surroundings for running the program on examples *)

Module Samples.

Import Content Background.

Definition lowerAscii (c : N) : N :=
  if (65 <=? c) && (c <=? 90) then c + 32 else c.

(** An engine for the examples: V8's wording of its errors; the case
    mapping on ASCII letters; integers printed in decimal (the examples
    print no other number). *)
Definition sampleEngine : Engine :=
  {| toLowerCase := List.map lowerAscii;
     nullishRead := fun p =>
       js "Cannot read properties of undefined (reading '" ++ js p ++ js "')";
     notAFunction := fun p => js p ++ js " is not a function";
     cannotCreateProperty := fun p =>
       js "Cannot create property '" ++ js p ++ js "'";
     cannotConvert := js "Cannot convert object to primitive value";
     numberToString := fun q => js (pretty (Qnum q / Z.pos (Qden q))%Z) |}.

(** A page with no node at all. *)
Definition blankPage : Page :=
  {| href := js "https://www.linkedin.com/feed/"; document := fun _ => [] |}.

(** A profile page whose about section reads [Hi]. *)
Definition aboutHiPage : Page :=
  {| href := js "https://www.linkedin.com/in/ada-lovelace/";
     document := fun selector =>
       if str_eqb selector (js ".pv-shared-text-with-see-more-text .break-words")
       then [ {| textContent := js "  Hi " |} ]
       else if str_eqb selector (js "h1.text-heading-xlarge")
       then [ {| textContent := js "Ada Lovelace" |} ]
       else [] |}.

Definition emptyWorld : World := {| history := []; storage := ∅ |}.

Definition noNetwork : Network :=
  {| loadApiKey := None;
     fetch := fun _ _ => Throw (Error (js "Failed to fetch")) |}.

Definition linkedInTab (tabId : N) : Tab :=
  {| tab_id := tabId;
     tab_url := Some (js "https://www.linkedin.com/in/ada-lovelace/") |}.

Definition noReceiver : Exn :=
  Error (js "Could not establish connection. Receiving end does not exist.").

(** A LinkedIn tab whose page never answers a message; [installable]
    says whether [executeScript] resolves (it rejects on a tab that
    shows an error page). *)
Definition silentTab (installable : bool) : Chrome :=
  {| tabs_get := fun _ tabId => Ok (Some (linkedInTab tabId));
     tabs_sendMessage := fun _ _ _ => Throw noReceiver;
     scripting_executeScript := fun _ _ _ =>
       if installable then Ok tt
       else Throw (Error (js "Frame with ID 0 is showing error page"));
     storage_get_fault := fun _ => None;
     storage_set_fault := fun _ _ => None;
     date_now := fun _ => js "2025-01-01T00:00:00.000Z";
     runtime_getURL := fun path => js "chrome-extension://abc/" ++ path;
     network := noNetwork |}.

(** A LinkedIn tab whose script answers the probe with [{ready: true}]
    and then goes away (the page navigates): the delivery that follows
    rejects. A script injected later answers as the content script
    does to an action it does not know. *)
Definition readyThenGone : Chrome :=
  {| tabs_get := fun _ tabId => Ok (Some (linkedInTab tabId));
     tabs_sendMessage := fun h _ m =>
       if isStr (js "ping") (optChain "action" m)
       then Ok (JObj [("ready"%string, JBool true)])
       else if existsb isInstall h then Ok (failure (js "Unknown action"))
       else Throw (Error (js "The message port closed before a response was received."));
     scripting_executeScript := fun _ _ _ => Ok tt;
     storage_get_fault := fun _ => None;
     storage_set_fault := fun _ _ => None;
     date_now := fun _ => js "2025-01-01T00:00:00.000Z";
     runtime_getURL := fun path => js "chrome-extension://abc/" ++ path;
     network := noNetwork |}.

(** [{name: "Ada", headline: "Engineer"}] *)
Definition adaProfile : JsVal :=
  JObj [ ("name", JStr (js "Ada")); ("headline", JStr (js "Engineer")) ]%string.

(** The [data] of the popup's [generateGeminiMessage] request. *)
Definition adaData : JsVal :=
  JObj [ ("profileData", adaProfile);
         ("userContext", JStr (js "CS grad"));
         ("userRole", JStr (js "developer")) ]%string.

(** A network where the key is loaded and the API answers every
    request with status 200 and [body]. *)
Definition apiAnswers (body : ApiBody) : Network :=
  {| loadApiKey := Some (js "test-key");
     fetch := fun _ _ =>
       Ok {| ok := true; statusText := js "OK"; json := Ok body |} |}.

(** [{promptFeedback: {blockReason: "SAFETY"}}] *)
Definition blockedBody : ApiBody :=
  {| error := None;
     candidates := None;
     promptFeedback := Some {| blockReason := Some (js "SAFETY") |} |}.

(** [{candidates: [{finishReason: "SAFETY"}]}]: a candidate without
    [content]. *)
Definition candidateWithoutContent : ApiBody :=
  {| error := None;
     candidates := Some [ {| content := None |} ];
     promptFeedback := None |}.

(** A document from an older version: no [statistics], and a field
    the extension does not know. *)
Definition legacyStore : gmap string JsVal :=
  {[ "userContext" := JStr (js "CS grad");
     "userRole" := JStr (js "developer");
     "theme" := JStr (js "dark") ]}%string.

(** A document whose [statistics] is present and [null]. *)
Definition nullStatisticsStore : gmap string JsVal :=
  {[ "userContext" := JStr (js "CS grad");
     "statistics" := JNull ]}%string.

Definition worldWith (store : gmap string JsVal) : World :=
  {| history := []; storage := store |}.

(** A LinkedIn tab with a running content script on [page]: every
    message is answered by the script's listener. *)
Definition liveTab (page : Page) : Chrome :=
  {| tabs_get := fun _ tabId => Ok (Some (linkedInTab tabId));
     tabs_sendMessage := fun _ _ m =>
       match (@Content.onMessage sampleEngine page
                (@initializeContentScript initialState) (toRequest m)).2 with
       | r :: _ => Ok r
       | [] => Throw noReceiver
       end;
     scripting_executeScript := fun _ _ _ => Ok tt;
     storage_get_fault := fun _ => None;
     storage_set_fault := fun _ _ => None;
     date_now := fun _ => js "2025-01-01T00:00:00.000Z";
     runtime_getURL := fun path => js "chrome-extension://abc/" ++ path;
     network := noNetwork |}.

End Samples.

(** ** Regular expressions *)

(** The regular expressions the source uses, with the standard
    meaning of a match: which strings a pattern generates. *)
Module Regex.

Import Content.

Inductive Regex :=
| Eps
| Class (f : N -> bool)
| Seq (r1 r2 : Regex)
| Alt (r1 r2 : Regex)
| Star (r : Regex).

Definition Lit (c : N) : Regex := Class (N.eqb c).

(** [r?] and [r+] *)
Definition Opt (r : Regex) : Regex := Alt r Eps.
Definition Plus (r : Regex) : Regex := Seq r (Star r).

Fixpoint Str (s : jsstring) : Regex :=
  match s with
  | [] => Eps
  | c :: rest => Seq (Lit c) (Str rest)
  end.

Inductive Matches : Regex -> jsstring -> Prop :=
| m_eps : Matches Eps []
| m_class f c : f c = true -> Matches (Class f) [c]
| m_seq r1 r2 s1 s2 :
    Matches r1 s1 -> Matches r2 s2 -> Matches (Seq r1 r2) (s1 ++ s2)
| m_alt_l r1 r2 s : Matches r1 s -> Matches (Alt r1 r2) s
| m_alt_r r1 r2 s : Matches r2 s -> Matches (Alt r1 r2) s
| m_star_nil r : Matches (Star r) []
| m_star_cons r s1 s2 :
    Matches r s1 -> Matches (Star r) s2 -> Matches (Star r) (s1 ++ s2).

(** [.] without the [s] flag *)
Definition Dot : Regex := Class (fun c => negb (isLineTerminator c)).

(** The end of the pattern of [isProfilePage]: an optional slash and
    an optional query. *)
Definition tailPattern : Regex :=
  Seq (Opt (Lit 47)) (Opt (Seq (Lit 63) (Star Dot))).

(** The pattern of [isProfilePage], piece by piece: the literal
    [linkedin.com/in/], one or more of [[\w-]], and the end. *)
Definition profilePattern : Regex :=
  Seq (Str (js "linkedin.com/in/"))
      (Seq (Plus (Class isSlugChar)) tailPattern).

(** [/r$/.test(s)]: the pattern may start anywhere and must reach the
    end of [s]. *)
Definition testToEnd (r : Regex) (s : jsstring) : Prop :=
  exists before matched, s = before ++ matched /\ Matches r matched.

End Regex.

(** ** A content script over its lifetime *)

Module Session.

Import Content.

Section Inbox.

Context `{Engine}.

(** The listener run on the messages of [inbox] in turn, each with the
    page as it is when the message arrives: the state left and every
    answer sent, in order. *)
Fixpoint deliverAll (st : ContentState) (inbox : list (Page * Request))
  : ContentState * list JsVal :=
  match inbox with
  | [] => (st, [])
  | (page, request) :: rest =>
      let (st1, answers1) := onMessage page st request in
      let (st2, answers2) := deliverAll st1 rest in
      (st2, answers1 ++ answers2)
  end.

End Inbox.

(** The state is as [initializeContentScript] leaves or finds it: a
    ready script has its assistant. *)
Definition consistent (st : ContentState) : Prop :=
  isContentScriptReady st = true -> is_Some (linkedinAssistant st).

(** The three headings [isProfilePage] looks for. *)
Definition headingSelectors : list jsstring :=
  [ js "h1.text-heading-xlarge";
    js ".pv-text-details__left-panel h1";
    js ".ph5 h1" ].

(** Two documents that show the same first two nodes to every
    selector. *)
Definition sameFirstTwo (d d' : DOM) : Prop :=
  forall selector, take 2 (d selector) = take 2 (d' selector).

(** [page] with every node after the second replaced by one other
    node. *)
Definition otherTail (page : Page) : Page :=
  {| href := href page;
     document := fun selector =>
       match document page selector with
       | a :: b :: _ => [a; b; {| textContent := js "Grace Hopper" |}]
       | nodes => nodes
       end |}.

(** A profile page with three experience entries. *)
Definition threeJobsPage : Page :=
  {| href := js "https://www.linkedin.com/in/ada-lovelace/";
     document := fun selector =>
       if str_eqb selector (js "h1.text-heading-xlarge")
       then [ {| textContent := js "Ada Lovelace" |} ]
       else if str_eqb selector
                 (js ".experience-section .pv-entity__summary-info")
       then [ {| textContent := js " Analyst " |};
              {| textContent := js "Translator" |};
              {| textContent := js "Tutor" |} ]
       else [] |}.

(** A profile page whose first experience selector finds one blank
    node and whose third finds a node with text. *)
Definition blankExperiencePage : Page :=
  {| href := js "https://www.linkedin.com/in/ada-lovelace/";
     document := fun selector =>
       if str_eqb selector (js ".experience-section .pv-entity__summary-info")
       then [ {| textContent := js "   " |} ]
       else if str_eqb selector
                 (js ".pvs-list__item--experience .pvs-entity__summary-info")
       then [ {| textContent := js "Analyst at Babbage & Co" |} ]
       else [] |}.

(** The tab [tabId] of the browser holds a content script in state
    [st] on [page]: every message to the tab is answered, with what
    the script's listener sends. *)
Definition hostsScript `{Engine} (chrome : Background.Chrome) (tabId : N)
           (page : Page) (st : ContentState) : Prop :=
  forall h m, exists r,
    Background.tabs_sendMessage chrome h tabId m = Ok r
    /\ (onMessage page st (toRequest m)).2 = [r].

End Session.

(** ** Storage that works *)

Module Store.

Import Background.

(** The browser completes every storage read and write. *)
Definition faultless (chrome : Chrome) : Prop :=
  (forall h, storage_get_fault chrome h = None)
  /\ (forall h items, storage_set_fault chrome h items = None).

(** The number of [chrome.storage.sync.set] calls. *)
Definition writes (calls : list Call) : nat :=
  length (List.filter (fun c => match c with
                                | StorageSet _ => true
                                | _ => false
                                end) calls).

Section Repeated.

Context `{Engine}.

(** [n] activities in a row, each awaited. *)
Definition logActivities (chrome : Chrome) (activityData : JsVal) (n : nat)
           (w : World) : World :=
  Nat.iter n (fun w' => (logActivity chrome activityData w').1) w.

(** [stats.messagesGenerated] of the stored statistics. *)
Definition messagesGenerated (w : World) : JsVal :=
  optChain "messagesGenerated" (item "statistics" (storage w)).

End Repeated.

End Store.

(** ** More surroundings for the examples *)

Module Cases.

Import Content Background.

(** The key is loaded and the API refuses every request: the status
    text is [status], the body parses as [body] or fails to parse. *)
Definition apiRefuses (status : jsstring) (body : Res ApiBody) : Network :=
  {| loadApiKey := Some (js "test-key");
     fetch := fun _ _ =>
       Ok {| ok := false; statusText := status; json := body |} |}.

(** [{error: {message: "API key not valid"}}] *)
Definition invalidKeyBody : ApiBody :=
  {| error := Some {| api_message := Some (js "API key not valid") |};
     candidates := None;
     promptFeedback := None |}.

(** The [data] of a request for the same profile from another user,
    with fields the prompt does not name. *)
Definition adaDataElsewhere : JsVal :=
  JObj [ ("profileData",
          JObj [ ("name", JStr (js "Ada"));
                 ("headline", JStr (js "Engineer"));
                 ("location", JStr (js "London"));
                 ("about", JStr (js "Notes on the Analytical Engine...")) ]);
         ("userContext", JStr (js "Recruiter"));
         ("userRole", JStr (js "hiring manager")) ]%string.

(** A browser whose worker reaches the network [net]; its tabs are
    LinkedIn tabs that answer no message. *)
Definition workerWith (net : Network) : Chrome :=
  {| tabs_get := fun _ tabId => Ok (Some (Samples.linkedInTab tabId));
     tabs_sendMessage := fun _ _ _ => Throw Samples.noReceiver;
     scripting_executeScript := fun _ _ _ => Ok tt;
     storage_get_fault := fun _ => None;
     storage_set_fault := fun _ _ => None;
     date_now := fun _ => js "2025-01-01T00:00:00.000Z";
     runtime_getURL := fun path => js "chrome-extension://abc/" ++ path;
     network := net |}.

(** A tab on another site. *)
Definition newsTab (tabId : N) : Tab :=
  {| tab_id := tabId; tab_url := Some (js "https://news.example.org/") |}.

(** A browser whose tabs are all on another site. *)
Definition elsewhere : Chrome :=
  {| tabs_get := fun _ tabId => Ok (Some (newsTab tabId));
     tabs_sendMessage := fun _ _ _ => Throw Samples.noReceiver;
     scripting_executeScript := fun _ _ _ => Ok tt;
     storage_get_fault := fun _ => None;
     storage_set_fault := fun _ _ => None;
     date_now := fun _ => js "2025-01-01T00:00:00.000Z";
     runtime_getURL := fun path => js "chrome-extension://abc/" ++ path;
     network := Samples.noNetwork |}.

(** [{ action: 'generateGeminiMessage' }], the data left out. *)
Definition generateWithoutData : JsVal :=
  JObj [("action"%string, JStr (js "generateGeminiMessage"))].

End Cases.

(** ** The service worker: the API key *)

Module Env.

Import Content.

(** [GEMINI_API_KEY=] *)
Definition keyPrefix : jsstring := js "GEMINI_API_KEY=".

(** The run up to the next line terminator: what a greedy [.+] takes. *)
Fixpoint takeLine (s : jsstring) : jsstring :=
  match s with
  | [] => []
  | c :: rest => if isLineTerminator c then [] else c :: takeLine rest
  end.

(** [text.match(...)] for the pattern of [loadApiKey], which has the
    [m] flag: the leftmost place at the start of the text or after a
    line terminator where [GEMINI_API_KEY=] stands and at least one
    character follows on the line. The result is the first group, the
    rest of that line; [None] is [null]. [atLineStart] says whether the
    circumflex matches before [text]. *)
Fixpoint matchKey (atLineStart : bool) (text : jsstring)
  : option jsstring :=
  match text with
  | [] => None
  | c :: rest =>
      if atLineStart && startsWith text keyPrefix
         && nonEmpty (takeLine (drop 15 text))
      then Some (takeLine (drop 15 text))
      else matchKey (isLineTerminator c) rest
  end.

(** What [fetch] of the [.env] file resolved to: [response.ok] and the
    completion of [response.text()]. *)
Record EnvFile := { env_ok : bool; env_text : Res jsstring }.

(** [loadApiKey()], from the value of [geminiApiKey] ([None] is
    [null]) and the completion of the [fetch]: the new value of
    [geminiApiKey] and what the function resolves to. The [fetch] is
    only made when no key is cached. *)
Definition loadApiKey (geminiApiKey : option jsstring)
           (fetched : Res EnvFile) : option jsstring * option jsstring :=
  match geminiApiKey with
  | Some (c :: k) => (geminiApiKey, Some (c :: k))
  | _ =>
      match fetched with
      | Throw error => (geminiApiKey, None)
      | Ok response =>
          if negb (env_ok response) then (geminiApiKey, None)
          else match env_text response with
               | Throw error => (geminiApiKey, None)
               | Ok text =>
                   match matchKey true text with
                   | Some group =>
                       if nonEmpty group
                       then (Some (trim group), Some (trim group))
                       else (geminiApiKey, None)
                   | None => (geminiApiKey, None)
                   end
               end
      end
  end.

(** Whether a call of [loadApiKey] fetches. *)
Definition fetches (geminiApiKey : option jsstring) : bool :=
  match geminiApiKey with
  | Some (_ :: _) => false
  | _ => true
  end.

(** Calls of [loadApiKey] in a row, each with the completion its
    [fetch] would have: the value of [geminiApiKey] at the end. *)
Definition loadAll (geminiApiKey : option jsstring)
           (fetches : list (Res EnvFile)) : option jsstring :=
  fold_left (fun cache fetched => (loadApiKey cache fetched).1)
            fetches geminiApiKey.

(** The circumflex matches after [before]: nothing comes before and
    the text starts a line, or [before] ends in a line terminator. *)
Definition startsLine (atLineStart : bool) (before : jsstring) : Prop :=
  (before = [] /\ atLineStart = true)
  \/ exists b c, before = b ++ [c] /\ isLineTerminator c = true.

(** The dollar matches before [after]. *)
Definition endsLine (after : jsstring) : Prop :=
  after = [] \/ exists c a, after = c :: a /\ isLineTerminator c = true.

(** [key] stands on a line of [text] as the pattern wants it: after
    [before], where a line starts, comes [GEMINI_API_KEY=], then [key],
    not empty and free of line terminators, then the end of the line. *)
Definition KeyLineFrom (atLineStart : bool)
           (text before key after : jsstring) : Prop :=
  text = before ++ keyPrefix ++ key ++ after
  /\ startsLine atLineStart before
  /\ key <> []
  /\ forallb (fun c => negb (isLineTerminator c)) key = true
  /\ endsLine after.

Definition KeyLine (text before key after : jsstring) : Prop :=
  KeyLineFrom true text before key after.

(** A network whose key is what [loadApiKey] resolved to. *)
Definition networkWith (key : option jsstring)
           (fetch : jsstring -> jsstring -> Res Background.Response)
  : Background.Network :=
  {| Background.loadApiKey := key; Background.fetch := fetch |}.

End Env.

(** ** The service worker: the heartbeat *)

Module KeepAlive.

(** The interval timers of the worker: the ids of those set and not
    cleared, and the id the next [setInterval] returns. Ids are
    positive, as the HTML standard has them. *)
Record Timers := {
  active : list positive;
  next : positive
}.

(** The worker's [keepAliveInterval] ([None] for [undefined] and
    [null]) and its timers. *)
Record Worker := {
  keepAliveInterval : option positive;
  timers : Timers
}.

Definition setInterval (t : Timers) : positive * Timers :=
  (next t, {| active := next t :: active t; next := Pos.succ (next t) |}).

Definition clearInterval (id : positive) (t : Timers) : Timers :=
  {| active := List.filter (fun i => negb (Pos.eqb i id)) (active t);
     next := next t |}.

Definition keepServiceWorkerAlive (w : Worker) : Worker :=
  match keepAliveInterval w with
  | Some _ => w
  | None =>
      let (id, t) := setInterval (timers w) in
      {| keepAliveInterval := Some id; timers := t |}
  end.

Definition stopKeepAlive (w : Worker) : Worker :=
  match keepAliveInterval w with
  | Some id =>
      {| keepAliveInterval := None; timers := clearInterval id (timers w) |}
  | None => w
  end.

(** What wakes the two functions: a message to the manager's listener
    and the [onSuspend] event. *)
Inductive Event := Message | Suspend.

Definition handle (w : Worker) (e : Event) : Worker :=
  match e with
  | Message => keepServiceWorkerAlive w
  | Suspend => stopKeepAlive w
  end.

Definition run (w : Worker) (events : list Event) : Worker :=
  fold_left handle events w.

(** A worker that has just started: no interval held or set. *)
Definition started (first : positive) : Worker :=
  {| keepAliveInterval := None;
     timers := {| active := []; next := first |} |}.

End KeepAlive.

(** ** The service worker: the action title *)

Module Title.

Import Background.

Definition onLinkedInTitle : jsstring :=
  js "LinkedIn Connection Assistant - Generate personalized messages".

Definition elsewhereTitle : jsstring :=
  js "LinkedIn Connection Assistant - Works on LinkedIn.com".

(** [handleTabUpdate(tabId, changeInfo, tab)]: the titles handed to
    [chrome.action.setTitle], in order; the tab they are set for is
    [tabId]. A [TypeError] on a missing [changeInfo] is caught inside. *)
Definition handleTabUpdate (tabId : N) (changeInfo : JsVal) (tab : Tab)
  : list jsstring :=
  match changeInfo with
  | JUndefined | JNull => []
  | _ =>
      if isStr (js "complete") (optChain "status" changeInfo)
      then match tab_url tab with
           | Some (c :: u) =>
               if includes (c :: u) (js "linkedin.com")
               then [onLinkedInTitle]
               else [elsewhereTitle]
           | _ => []
           end
      else []
  end.

End Title.

(** ** popup.js: the PopupManager *)

Module PopupUi.

Import Content Background.

(** The parts of the popup's page that the manager reads and writes:
    the values of the three text areas, [generateButton.disabled], the
    loading state of the two buttons (the spinner shown in place of the
    label; the save button is disabled exactly while it loads),
    [messageActions.style.display], and the calls of [showStatus],
    message and type, in order, of which the last is on display. *)
Record Ui := {
  userContextValue : jsstring;
  userRoleValue : jsstring;
  messagePreviewValue : jsstring;
  generateDisabled : bool;
  generateLoading : bool;
  saveLoading : bool;
  messageActionsDisplay : jsstring;
  statuses : list (jsstring * jsstring)
}.

(** What surrounds the popup: the browser, the first tab of
    [chrome.tabs.query({active: true, currentWindow: true})] when there
    is one, and how [chrome.runtime.sendMessage] completes. *)
Record Surroundings := {
  browser : Chrome;
  tabs_query : list Call -> Res (option Tab);
  runtime_sendMessage : list Call -> JsVal -> Res JsVal
}.

Record PopupState := { ui : Ui; world : World }.

(** A method of the manager: it runs from a state of the page and the
    browser to another and completes normally or by throwing. *)
Definition Pop (A : Type) : Type := PopupState -> PopupState * Res A.

#[global] Instance pop_ret : MRet Pop := fun A a s => (s, Ok a).

#[global] Instance pop_bind : MBind Pop := fun A B k m s =>
  match m s with
  | (s', Ok a) => k a s'
  | (s', Throw e) => (s', Throw e)
  end.

Definition attempt {A} (body : Pop A) (handler : Exn -> Pop A) : Pop A :=
  fun s =>
    match body s with
    | (s', Throw e) => handler e s'
    | (s', Ok a) => (s', Ok a)
    end.

(** [try { body } finally { last }] where [last] completes normally. *)
Definition finally {A} (body : Pop A) (last : Pop unit) : Pop A :=
  fun s =>
    match body s with
    | (s', r) => ((last s').1, r)
    end.

(** A call on the extension API from the popup. *)
Definition api {A} (m : Async A) : Pop A :=
  fun s =>
    match m (world s) with
    | (w', r) => ({| ui := ui s; world := w' |}, r)
    end.

Definition raise {A} (r : Res A) : Pop A := fun s => (s, r).

Definition getUi : Pop Ui := fun s => (s, Ok (ui s)).

Definition modify (f : Ui -> Ui) : Pop unit :=
  fun s => ({| ui := f (ui s); world := world s |}, Ok tt).

Definition setPreview (v : jsstring) (u : Ui) : Ui :=
  {| userContextValue := userContextValue u;
     userRoleValue := userRoleValue u;
     messagePreviewValue := v;
     generateDisabled := generateDisabled u;
     generateLoading := generateLoading u;
     saveLoading := saveLoading u;
     messageActionsDisplay := messageActionsDisplay u;
     statuses := statuses u |}.

Definition setGenerateDisabled (b : bool) (u : Ui) : Ui :=
  {| userContextValue := userContextValue u;
     userRoleValue := userRoleValue u;
     messagePreviewValue := messagePreviewValue u;
     generateDisabled := b;
     generateLoading := generateLoading u;
     saveLoading := saveLoading u;
     messageActionsDisplay := messageActionsDisplay u;
     statuses := statuses u |}.

Definition setGenerateSpinner (b : bool) (u : Ui) : Ui :=
  {| userContextValue := userContextValue u;
     userRoleValue := userRoleValue u;
     messagePreviewValue := messagePreviewValue u;
     generateDisabled := generateDisabled u;
     generateLoading := b;
     saveLoading := saveLoading u;
     messageActionsDisplay := messageActionsDisplay u;
     statuses := statuses u |}.

Definition setSaveLoading (b : bool) (u : Ui) : Ui :=
  {| userContextValue := userContextValue u;
     userRoleValue := userRoleValue u;
     messagePreviewValue := messagePreviewValue u;
     generateDisabled := generateDisabled u;
     generateLoading := generateLoading u;
     saveLoading := b;
     messageActionsDisplay := messageActionsDisplay u;
     statuses := statuses u |}.

Definition setActionsDisplay (v : jsstring) (u : Ui) : Ui :=
  {| userContextValue := userContextValue u;
     userRoleValue := userRoleValue u;
     messagePreviewValue := messagePreviewValue u;
     generateDisabled := generateDisabled u;
     generateLoading := generateLoading u;
     saveLoading := saveLoading u;
     messageActionsDisplay := v;
     statuses := statuses u |}.

Definition addStatus (message type : jsstring) (u : Ui) : Ui :=
  {| userContextValue := userContextValue u;
     userRoleValue := userRoleValue u;
     messagePreviewValue := messagePreviewValue u;
     generateDisabled := generateDisabled u;
     generateLoading := generateLoading u;
     saveLoading := saveLoading u;
     messageActionsDisplay := messageActionsDisplay u;
     statuses := statuses u ++ [(message, type)] |}.

Definition setFields (context role : option jsstring) (u : Ui) : Ui :=
  {| userContextValue := default (userContextValue u) context;
     userRoleValue := default (userRoleValue u) role;
     messagePreviewValue := messagePreviewValue u;
     generateDisabled := generateDisabled u;
     generateLoading := generateLoading u;
     saveLoading := saveLoading u;
     messageActionsDisplay := messageActionsDisplay u;
     statuses := statuses u |}.

Definition fillPlaceholder : jsstring :=
  js "Please fill in your professional context and role above...".

Definition navigatePlaceholder : jsstring :=
  js "Navigate to a LinkedIn profile page to generate personalized messages...".

Definition clickPlaceholder : jsstring :=
  js "Click " ++ dq ++ js "Generate Message" ++ dq
  ++ js " to create a personalized LinkedIn connection message...".

Definition sorryText : jsstring :=
  js "Sorry, an error occurred. Please try again or check the extension logs.".

Definition couldNotConnectText : jsstring :=
  js "Could not connect to the LinkedIn page. This can happen if the page was open before the extension was installed or updated. Please refresh the page and try again.".

(** The status of a saved form, as the file has it. *)
Definition savedStatus : jsstring :=
  js "Settings saved successfully! " ++ [0xF0; 0x178; 0x17D; 0x2030].

Section Manager.

Context `{Engine}.
Variable env : Surroundings.

Definition showStatus (message type : jsstring) : Pop unit :=
  modify (addStatus message type).

(** [const [tab] = await chrome.tabs.query(...)] *)
Definition queryActiveTab : Pop (option Tab) :=
  fun s => (s, tabs_query env (history (world s))).

Definition checkCurrentTab : Pop bool :=
  attempt
    (tab ← queryActiveTab;
     match tab with
     | Some t =>
         match tab_url t with
         | Some (c :: u) => mret (profilePattern_test (c :: u))
         | _ => mret false
         end
     | None => mret false
     end)
    (fun error => mret false).

(** What [checkCurrentTab] resolves to in state [s]. *)
Definition activeTabIsProfile (s : PopupState) : bool :=
  match tabs_query env (history (world s)) with
  | Ok (Some t) =>
      match tab_url t with
      | Some (c :: u) => profilePattern_test (c :: u)
      | _ => false
      end
  | _ => false
  end.

Definition updateUI : Pop unit :=
  u ← getUi;
  let userContext := trim (userContextValue u) in
  let userRole := trim (userRoleValue u) in
  isLinkedInProfile ← checkCurrentTab;
  let canGenerate :=
    nonEmpty userContext && nonEmpty userRole && isLinkedInProfile in
  _ ← modify (setGenerateDisabled (negb canGenerate));
  if negb (nonEmpty userContext) || negb (nonEmpty userRole)
  then _ ← modify (setPreview fillPlaceholder);
       modify (setActionsDisplay (js "none"))
  else if negb isLinkedInProfile
  then _ ← modify (setPreview navigatePlaceholder);
       modify (setActionsDisplay (js "none"))
  else modify (setPreview clickPlaceholder).

(** The value a text area takes when [v] is assigned to it: [null]
    becomes the empty string, anything else its string. *)
Definition asValue (v : JsVal) : Res jsstring :=
  match v with
  | JNull => Ok []
  | _ => toStr v
  end.

Definition loadSettings : Pop unit :=
  attempt
    (result ← api (chrome_storage_sync_get_keys (browser env)
                     ["userContext"; "userRole"; "settings"]%string);
     context ← (if truthy (item "userContext" result)
                then v ← raise (asValue (item "userContext" result));
                     mret (Some v)
                else mret None);
     _ ← modify (setFields context None);
     role ← (if truthy (item "userRole" result)
             then v ← raise (asValue (item "userRole" result));
                  mret (Some v)
             else mret None);
     _ ← modify (setFields None role);
     updateUI)
    (fun error => showStatus (js "Error loading settings") (js "error")).

Definition sendMessageToBackground (message : JsVal) : Pop JsVal :=
  attempt
    (fun s => (s, runtime_sendMessage env (history (world s)) message))
    (fun error =>
       _ ← (if includes (errorMessage error)
                        (js "Receiving end does not exist")
            then showStatus
                   (js "Extension needs to be reloaded. Please refresh this popup.")
                   (js "error")
            else showStatus
                   (js "Communication error with extension background.")
                   (js "error"));
       mret JNull).

Definition setGenerateLoading (loading : bool) : Pop unit :=
  if loading
  then _ ← modify (setGenerateSpinner true);
       modify (setGenerateDisabled true)
  else _ ← modify (setGenerateSpinner false);
       u ← getUi;
       if negb (nonEmpty (messagePreviewValue u))
          || includes (messagePreviewValue u)
                      (js "Click " ++ dq ++ js "Generate Message" ++ dq)
          || includes (messagePreviewValue u) (js "Please fill in")
          || includes (messagePreviewValue u) (js "Navigate to a LinkedIn")
       then updateUI
       else modify (setGenerateDisabled false).

(** The message to the worker, lines 187 to 194. *)
Definition generateRequest (profileResponse : JsVal)
           (userContext userRole : jsstring) : JsVal :=
  JObj [ ("action", JStr (js "generateGeminiMessage"));
         ("data",
          JObj [ ("profileData", optChain "profileData" profileResponse);
                 ("userContext", JStr userContext);
                 ("userRole", JStr userRole) ]) ]%string.

(** [v?.error || fallback], as [showStatus] puts it on the page. *)
Definition errorOr (fallback : jsstring) (v : JsVal) : Res jsstring :=
  if truthy (optChain "error" v) then toStr (optChain "error" v)
  else Ok fallback.

(** The [try] block of [handleGenerateMessage]. The check after 100 ms
    that the preview kept its text changes nothing unless the page was
    edited in between, and is left out. *)
Definition generateBody : Pop unit :=
  _ ← setGenerateLoading true;
  _ ← modify (setActionsDisplay (js "none"));
  _ ← modify (setPreview []);
  u ← getUi;
  let userContext := trim (userContextValue u) in
  let userRole := trim (userRoleValue u) in
  if negb (nonEmpty userContext) || negb (nonEmpty userRole)
  then showStatus (js "Please fill in your context and role.") (js "error")
  else
    tab ← queryActiveTab;
    match tab with
    | None => showStatus (js "Could not access the current tab.") (js "error")
    | Some t =>
        if tab_id t =? 0
        then showStatus (js "Could not access the current tab.") (js "error")
        else
          profileResponse ← api (Popup.profileResponse (browser env)
                                   (tab_id t));
          if negb (truthy profileResponse)
             || negb (truthy (optChain "success" profileResponse))
          then text ← raise (errorOr (js "Could not get profile data. Please ensure you are on a LinkedIn profile page and refresh.") profileResponse);
               showStatus text (js "error")
          else
            geminiResponse ← sendMessageToBackground
                               (generateRequest profileResponse
                                                userContext userRole);
            if truthy geminiResponse
               && truthy (optChain "success" geminiResponse)
            then text ← raise (asValue (optChain "message" geminiResponse));
                 _ ← modify (setPreview text);
                 _ ← modify (setActionsDisplay (js "flex"));
                 showStatus (js "Message generated successfully!")
                            (js "success")
            else text ← raise (errorOr (js "Failed to generate message from API.")
                                       geminiResponse);
                 _ ← showStatus text (js "error");
                 modify (setPreview sorryText)
    end.

Definition handleGenerateMessage : Pop unit :=
  finally
    (attempt generateBody
       (fun error =>
          if includes (errorMessage error) (js "Receiving end does not exist")
          then _ ← showStatus
                     (js "Connection failed. Please refresh the LinkedIn page.")
                     (js "error");
               modify (setPreview couldNotConnectText)
          else showStatus (js "An unexpected error occurred: "
                           ++ errorMessage error) (js "error")))
    (setGenerateLoading false).

Definition handleRegenerateMessage : Pop unit := handleGenerateMessage.

Definition setLoading (loading : bool) : Pop unit :=
  modify (setSaveLoading loading).

(** [{ userContext, userRole, timestamp }] *)
Definition settingsItems (userContext userRole date : jsstring)
  : gmap string JsVal :=
  {[ "userContext" := JStr userContext;
     "userRole" := JStr userRole;
     "timestamp" := JStr date ]}%string.

Definition settingsUpdated (userContext userRole date : jsstring) : JsVal :=
  JObj [ ("action", JStr (js "settingsUpdated"));
         ("data", JObj [ ("userContext", JStr userContext);
                         ("userRole", JStr userRole);
                         ("timestamp", JStr date) ]) ]%string.

Definition handleFormSubmit : Pop unit :=
  finally
    (attempt
       (_ ← setLoading true;
        u ← getUi;
        let userContext := trim (userContextValue u) in
        let userRole := trim (userRoleValue u) in
        if negb (nonEmpty userContext) || negb (nonEmpty userRole)
        then showStatus (js "Please fill in all required fields") (js "error")
        else
          date ← api (now (browser env));
          _ ← api (chrome_storage_sync_set (browser env)
                     (settingsItems userContext userRole date));
          _ ← showStatus savedStatus (js "success");
          _ ← updateUI;
          attempt
            (tab ← queryActiveTab;
             match tab with
             | Some t =>
                 match tab_url t with
                 | Some (c :: url) =>
                     if includes (c :: url) (js "linkedin.com")
                     then attempt
                            (_ ← api (chrome_tabs_sendMessage (browser env)
                                        (tab_id t)
                                        (settingsUpdated userContext userRole
                                                         date));
                             mret tt)
                            (fun contentError => mret tt)
                     else mret tt
                 | _ => mret tt
                 end
             | None => mret tt
             end)
            (fun tabError => mret tt))
       (fun error =>
          showStatus (js "Error saving settings. Please try again.")
                     (js "error")))
    (setLoading false).

(** The calls by which [handleFormSubmit] tells the content script
    of the saved settings, from state [s] after the write of [items]:
    one message when the active tab is on LinkedIn, none otherwise. *)
Definition notice (s : PopupState) (items : gmap string JsVal)
           (message : JsVal) : list Call :=
  match tabs_query env (history (world s) ++ [StorageSet items]) with
  | Ok (Some t) =>
      match tab_url t with
      | Some (c :: url) =>
          if includes (c :: url) (js "linkedin.com")
          then [TabsSendMessage (tab_id t) message]
          else []
      | _ => []
      end
  | _ => []
  end.

End Manager.

(** The popup as it opens: empty fields, nothing shown. *)
Definition opened : Ui :=
  {| userContextValue := [];
     userRoleValue := [];
     messagePreviewValue := [];
     generateDisabled := false;
     generateLoading := false;
     saveLoading := false;
     messageActionsDisplay := [];
     statuses := [] |}.

(** The texts [updateUI] writes into the preview. *)
Definition placeholders : list jsstring :=
  [fillPlaceholder; navigatePlaceholder; clickPlaceholder].

(** The test of [setGenerateLoading(false)]: the preview holds nothing
    worth keeping. *)
Definition replaceable (preview : jsstring) : bool :=
  negb (nonEmpty preview)
  || includes preview (js "Click " ++ dq ++ js "Generate Message" ++ dq)
  || includes preview (js "Please fill in")
  || includes preview (js "Navigate to a LinkedIn").



(** The message and type on display. *)
Definition shown (u : Ui) : option (jsstring * jsstring) := last (statuses u).

(** *** The input listeners *)

(** The timers of the popup's page: the ids of the timeouts set and
    neither cleared nor run, and the next id. *)
Record Timeouts := {
  pending : list positive;
  nextTimeout : positive
}.

Definition setTimeout (t : Timeouts) : positive * Timeouts :=
  (nextTimeout t,
   {| pending := pending t ++ [nextTimeout t];
      nextTimeout := Pos.succ (nextTimeout t) |}).

(** [clearTimeout(id)]; the id [undefined] clears nothing. *)
Definition clearTimeout (id : option positive) (t : Timeouts) : Timeouts :=
  match id with
  | Some i =>
      {| pending := List.filter (fun j => negb (Pos.eqb j i)) (pending t);
         nextTimeout := nextTimeout t |}
  | None => t
  end.

(** One [input] event: the listener calls [debounce], which makes a
    function with a [timeout] variable of its own, not yet set, and
    calls that function once. *)
Definition onInput (t : Timeouts) : Timeouts :=
  let timeout : option positive := None in
  let t1 := clearTimeout timeout t in
  (setTimeout t1).2.

Definition onInputs (n : nat) (t : Timeouts) : Timeouts :=
  Nat.iter n onInput t.

End PopupUi.

(** ** The three parts on one machine *)

Module Demo.

Import Content Background PopupUi.


(** A browser whose LinkedIn tabs hold a running content script on
    [page] and whose worker reaches [net]. *)
Definition machine (page : Page) (net : Network) : Chrome :=
  {| tabs_get := fun _ tabId => Ok (Some (Samples.linkedInTab tabId));
     tabs_sendMessage := tabs_sendMessage (Samples.liveTab page);
     scripting_executeScript := fun _ _ _ => Ok tt;
     storage_get_fault := fun _ => None;
     storage_set_fault := fun _ _ => None;
     date_now := fun _ => js "2025-01-01T00:00:00.000Z";
     runtime_getURL := fun path => js "chrome-extension://abc/" ++ path;
     network := net |}.

(** The popup over that browser: the active tab is tab 7, and a
    message to the worker is answered by the worker's listener. *)
Definition surroundings (page : Page) (net : Network) : Surroundings :=
  {| browser := machine page net;
     tabs_query := fun _ => Ok (Some (Samples.linkedInTab 7));
     runtime_sendMessage := fun _ message =>
       Ok match @Background.handleGenerateMessage Samples.sampleEngine net
                  (optChain "data" message) with
          | Ok r => r
          | Throw error => failure (errorMessage error)
          end |}.

(** The popup with its two fields filled in. *)
Definition filled : Ui :=
  {| userContextValue := js "CS grad ";
     userRoleValue := js "developer";
     messagePreviewValue := [];
     generateDisabled := false;
     generateLoading := false;
     saveLoading := false;
     messageActionsDisplay := [];
     statuses := [] |}.

Definition start (u : Ui) : PopupState :=
  {| ui := u; world := Samples.emptyWorld |}.

End Demo.

(** * Part II: what the program guarantees *)

(** ** Strings *)

Lemma startsWith_prefix (p s : jsstring) :
  startsWith s p = true <-> exists b, s = p ++ b.
Proof.
  revert s. induction p as [|a p IH]; intros s; simpl.
  - split; [intros _; by exists s | done].
  - destruct s as [|b s]; simpl.
    + split; [done | intros [t Ht]; discriminate].
    + rewrite andb_true_iff, N.eqb_eq, IH. split.
      * intros [-> [t ->]]. by exists t.
      * intros [t Ht]. injection Ht as -> ->. eauto.
Qed.

(** [includes] finds exactly the occurrences of [p] inside [s]. *)
Lemma includes_infix (s p : jsstring) :
  includes s p = true <-> exists a b, s = a ++ p ++ b.
Proof.
  induction s as [|c s IH]; simpl.
  - rewrite orb_false_r, startsWith_prefix. split.
    + intros [b Hb]. by exists [], b.
    + intros [a [b Hab]]. destruct a; [by exists b | discriminate].
  - rewrite orb_true_iff, startsWith_prefix, IH. split.
    + intros [[b Hb] | [a [b ->]]]; [by exists [], b | by exists (c :: a), b].
    + intros [a [b Hab]]. destruct a as [|x a].
      * left. by exists b.
      * right. injection Hab as -> ->. eauto.
Qed.

Lemma str_eqb_eq (a b : jsstring) : str_eqb a b = true <-> a = b.
Proof.
  revert b. induction a as [|x a IH]; intros [|y b]; simpl; try done.
  rewrite andb_true_iff, N.eqb_eq, IH. split.
  - by intros [-> ->].
  - intros Hab. by injection Hab.
Qed.

(** ** content.js: the extractors *)

Section ExtractorFacts.

Import Content.

Context `{Engine}.

Lemma FirstMatch_functional d sels r1 r2 :
  FirstMatch d sels r1 -> FirstMatch d sels r2 -> r1 = r2.
Proof.
  intros H1. revert r2.
  induction H1 as [|s rest el Hq Hne|s rest r Hall _ IH]; intros r2 H2.
  - by inversion H2.
  - inversion H2 as [|s' rest' el' Hq' Hne'|s' rest' r' Hall' Hr']; subst.
    + congruence.
    + exfalso. apply Hne. eauto.
  - inversion H2 as [|s' rest' el' Hq' Hne'|s' rest' r' Hall' Hr']; subst.
    + exfalso. apply Hne'. eauto.
    + by apply IH.
Qed.

Lemma FirstMatch_None d sels :
  FirstMatch d sels None <->
  forall selector el, In selector sels -> querySelector d selector = Some el ->
                      trim (textContent el) = [].
Proof.
  induction sels as [|s rest IH].
  - split; [intros _ ? ? [] | intros _; constructor].
  - split.
    + intros Hm.
      inversion Hm as [| |s' rest' r' Hall' Hr']; subst.
      destruct IH as [IH _].
      intros selector el [<- | Hin] Hq; [eauto|].
      by apply (IH Hr' selector el).
    + intros Hall. apply first_later.
      * intros el Hq. apply (Hall s el); [by left | done].
      * apply IH. intros selector el Hin. apply Hall. by right.
Qed.

Lemma FirstMatch_Some_nonempty d sels t :
  FirstMatch d sels (Some t) -> t <> [].
Proof.
  intros Hm. remember (Some t) as r eqn:Er.
  induction Hm as [|s rest el Hq Hne|s rest r Hall Hr IH];
    [done | by injection Er as <- | by apply IH].
Qed.

(** The loop never throws and returns what [FirstMatch] describes. *)
Lemma firstText_FirstMatch d sels found dflt :
  exists r, FirstMatch d sels r
            /\ firstText d sels found dflt
               = Ok (match r with Some t => found t | None => dflt end).
Proof.
  induction sels as [|s rest [r [Hr Heq]]]; simpl.
  - exists None. split; [constructor | done].
  - destruct (querySelector d s) as [el|] eqn:Hq; simpl.
    + destruct (trim (textContent el)) as [|c t] eqn:Ht; simpl.
      * exists r. split; [|done]. apply first_later; [|done].
        intros el' Hq'. congruence.
      * exists (Some (c :: t)). split; [|done]. rewrite <- Ht.
        apply first_here; [done|]. by rewrite Ht.
    + exists r. split; [|done]. apply first_later; [|done].
      intros el' Hq'. congruence.
Qed.

End ExtractorFacts.

(** ** content.js: the industry table *)

Section IndustryFacts.

Import Content.

Lemma someKeyword_false text keywords :
  someKeyword text keywords = false <->
  forall keyword, In keyword keywords -> includes text keyword = false.
Proof.
  unfold someKeyword. induction keywords as [|k ks IH]; simpl.
  - split; [intros _ ? [] | done].
  - rewrite orb_false_iff, IH. split.
    + intros [Hk Hks] keyword [<- | Hin]; eauto.
    + intros Hall. split; [apply Hall; by left|].
      intros keyword Hin. apply Hall. by right.
Qed.

(** The loop returns the name of the first entry with a keyword in the
    text, or [professional] when no entry has one. *)
Lemma industryLoop_cases entries text :
  (exists pre industry keywords post,
      entries = pre ++ (industry, keywords) :: post
      /\ Forall (noKeyword text) pre
      /\ someKeyword text keywords = true
      /\ industryLoop entries text = industry)
  \/ (Forall (noKeyword text) entries
      /\ industryLoop entries text = js "professional").
Proof.
  induction entries as [|[industry keywords] rest IH]; simpl.
  - right. by split.
  - destruct (someKeyword text keywords) eqn:Hk.
    + left. exists [], industry, keywords, rest. by repeat split.
    + destruct IH as [(pre & i & ks & post & -> & Hpre & Hks & Hi) | [Hall Hp]].
      * left. exists ((industry, keywords) :: pre), i, ks, post.
        repeat split; try done. by constructor.
      * right. split; [by constructor | done].
Qed.

Lemma split_at_key_unique (pre pre' post post' : list (jsstring * list jsstring))
      i ks ks' :
  NoDup (List.map fst (pre ++ (i, ks) :: post)) ->
  pre ++ (i, ks) :: post = pre' ++ (i, ks') :: post' ->
  pre = pre' /\ ks = ks' /\ post = post'.
Proof.
  revert pre'. induction pre as [|[j kj] pre IH]; intros pre' Hnd Heq.
  - destruct pre' as [|[j' kj'] pre']; simpl in *.
    + by injection Heq as -> ->.
    + injection Heq as <- <- ->. exfalso.
      apply NoDup_cons in Hnd as [Hnotin _]. apply Hnotin.
      rewrite list_elem_of_In, List.map_app. apply in_or_app. right. by left.
  - destruct pre' as [|[j' kj'] pre']; simpl in *.
    + injection Heq as -> -> <-. exfalso.
      apply NoDup_cons in Hnd as [Hnotin _]. apply Hnotin.
      rewrite list_elem_of_In, List.map_app. apply in_or_app. right. by left.
    + injection Heq as <- <- Heq. apply NoDup_cons in Hnd as [_ Hnd].
      destruct (IH pre' Hnd Heq) as (-> & -> & ->). done.
Qed.

Lemma industries_names_distinct :
  NoDup (List.map fst industries ++ [js "professional"]).
Proof.
  apply (bool_decide_unpack _). by vm_compute.
Qed.

Lemma industryLoop_first pre industry keywords post text :
  Forall (noKeyword text) pre ->
  someKeyword text keywords = true ->
  industryLoop (pre ++ (industry, keywords) :: post) text = industry.
Proof.
  intros Hpre Hk. induction Hpre as [|[j kj] pre Hj _ IH]; simpl.
  - by rewrite Hk.
  - unfold noKeyword in Hj. simpl in Hj. by rewrite Hj.
Qed.

Lemma industries_key_is_not_default pre industry keywords post :
  industries = pre ++ (industry, keywords) :: post ->
  industry <> js "professional".
Proof.
  intros Heq ->. pose proof industries_names_distinct as Hnd.
  rewrite Heq, List.map_app in Hnd. simpl in Hnd.
  rewrite <- app_assoc in Hnd. apply NoDup_app in Hnd as (_ & _ & Hnd).
  simpl in Hnd. apply NoDup_cons in Hnd as [Hnotin _]. apply Hnotin.
  apply elem_of_app. right. by apply list_elem_of_singleton.
Qed.

Lemma industryLoop_category text :
  In (industryLoop industries text) industryCategories.
Proof.
  assert (Hnames : industryCategories
                   = List.map fst industries ++ [js "professional"])
    by reflexivity.
  rewrite Hnames. apply in_or_app.
  destruct (industryLoop_cases industries text)
    as [(pre & i & ks & post & Heq & _ & _ & ->) | [_ ->]].
  - left. rewrite Heq, List.map_app. apply in_or_app. right. by left.
  - right. by left.
Qed.

(** C4. Industry classification, for every lowercased text: the result
    is one of the eight categories; the table is tried in its declared
    order and the first entry with a keyword in the text wins;
    [professional] comes out exactly when no keyword of any entry
    occurs in the text; [extractIndustry] is that function of the text
    alone, so equal texts give equal results; and on every page it
    returns, without throwing, one of the eight categories. *)
Theorem extractIndustry_first_keyword_wins `{Engine} (text : jsstring) :
  In (industryLoop industries text) industryCategories
  /\ (forall pre industry keywords post,
        industries = pre ++ (industry, keywords) :: post ->
        (industryLoop industries text = industry
         <-> someKeyword text keywords = true
             /\ Forall (noKeyword text) pre))
  /\ (industryLoop industries text = js "professional"
      <-> forall industry keywords keyword,
            In (industry, keywords) industries ->
            In keyword keywords -> includes text keyword = false)
  /\ (forall d : DOM,
        industryText d = Ok text ->
        extractIndustry d = Ok (industryLoop industries text))
  /\ (forall d : DOM,
        exists category,
          extractIndustry d = Ok category
          /\ In category industryCategories).
Proof.
  pose proof industries_names_distinct as Hnd.
  apply NoDup_app in Hnd as (Hnd & _ & _).
  pose proof (industryLoop_cases industries text) as Hcases.
  split; [|split; [|split; [|split]]].
  - apply industryLoop_category.
  - intros pre industry keywords post Hsplit. split.
    + intros Hres.
      destruct Hcases
        as [(pre' & i & ks & post' & Heq & Hpre & Hk & Hi) | [_ Hp]].
      * assert (Hii : i = industry) by congruence. clear Hi Hres. subst i.
        rewrite Hsplit in Hnd, Heq.
        destruct (split_at_key_unique _ _ _ _ _ _ _ Hnd Heq) as (-> & -> & _).
        done.
      * rewrite Hp in Hres. symmetry in Hres.
        by apply industries_key_is_not_default in Hsplit.
    + intros [Hk Hpre]. rewrite Hsplit. by apply industryLoop_first.
  - split.
    + intros Hres industry keywords keyword Hin.
      destruct Hcases as [(pre & i & ks & post & Heq & _ & _ & Hi) | [Hall _]].
      * rewrite Hi in Hres. by apply industries_key_is_not_default in Heq.
      * rewrite Forall_forall in Hall.
        apply list_elem_of_In, Hall in Hin.
        by apply someKeyword_false.
    + intros Hall.
      destruct Hcases as [(pre & i & ks & post & Heq & _ & Hk & _) | [_ Hp]];
        [|done].
      exfalso. assert (Hno : someKeyword text ks = false).
      { apply someKeyword_false. intros keyword. apply (Hall i ks keyword).
        rewrite Heq. apply in_or_app. right. by left. }
      congruence.
  - intros d Hd. unfold extractIndustry. by rewrite Hd.
  - intros d. unfold extractIndustry, industryText, extractHeadline,
      extractAbout, extractCompany.
    destruct (firstText_FirstMatch d headlineSelectors (fun t => t) [])
      as [r1 [_ ->]].
    destruct (firstText_FirstMatch d aboutSelectors
                (fun t => substring0 200 t ++ js "...") [])
      as [r2 [_ ->]].
    destruct (firstText_FirstMatch d companySelectors (fun t => t) [])
      as [r3 [_ ->]].
    simpl. eexists. split; [reflexivity|]. apply industryLoop_category.
Qed.

End IndustryFacts.

(** ** content.js: the field extractors *)

Section ExtractorTheorems.

Import Content.

Context `{Engine}.

Lemma endsWith_suffix (p q : jsstring) : endsWith (p ++ q) q = true.
Proof.
  unfold endsWith. rewrite rev_app_distr. apply startsWith_prefix. eauto.
Qed.

(** C7 (amended). When no selector of the name list finds a node with
    text left after trimming, [extractName] returns [there]; it never
    throws. The name, headline, company and location extractors return
    the trimmed text of the first selector of their list whose first
    node has such text, else their default ([there] for the name, the
    empty string for the others). The about extractor returns that text
    cut to 200 code units with three dots appended, else the empty
    string. *)
Theorem extractors_first_nonempty_text (d : DOM) :
  ((forall selector el,
       In selector nameSelectors -> querySelector d selector = Some el ->
       trim (textContent el) = []) ->
   extractName d = Ok (js "there"))
  /\ (exists r, FirstMatch d nameSelectors r
                /\ extractName d = Ok (default (js "there") r))
  /\ (exists r, FirstMatch d headlineSelectors r
                /\ extractHeadline d = Ok (default [] r))
  /\ (exists r, FirstMatch d companySelectors r
                /\ extractCompany d = Ok (default [] r))
  /\ (exists r, FirstMatch d locationSelectors r
                /\ extractLocation d = Ok (default [] r))
  /\ (exists r, FirstMatch d aboutSelectors r
                /\ extractAbout d
                   = Ok (match r with
                         | Some t => substring0 200 t ++ js "..."
                         | None => []
                         end)).
Proof.
  assert (Hplain : forall sels dflt,
             exists r, FirstMatch d sels r
                       /\ firstText d sels (fun t => t) dflt
                          = Ok (default dflt r)).
  { intros sels dflt.
    destruct (firstText_FirstMatch d sels (fun t => t) dflt) as [r [Hr Heq]].
    exists r. split; [done|]. rewrite Heq. by destruct r. }
  split; [|split; [|split; [|split; [|split]]]]; try apply Hplain.
  - intros Hnone. apply FirstMatch_None in Hnone.
    destruct (Hplain nameSelectors (js "there")) as [r [Hr Heq]].
    by rewrite (FirstMatch_functional _ _ _ _ Hr Hnone) in Heq.
  - apply firstText_FirstMatch.
Qed.

(** C10. [extractAbout] never throws. When a selector of the about
    list finds text, the result is the first 200 code units of the
    trimmed text followed by three dots: at most 203 code units, ending
    in the dots. When none does, the result is the empty string. So an
    about field that is not empty ends in three dots and is no longer
    than 203. *)
Theorem extractAbout_truncates (d : DOM) :
  (exists r, FirstMatch d aboutSelectors r
             /\ match r with
                | Some t =>
                    extractAbout d = Ok (take 200 t ++ js "...")
                    /\ t <> []
                | None => extractAbout d = Ok []
                end)
  /\ (exists about, extractAbout d = Ok about
                    /\ (about <> [] ->
                        (length about <= 203)%nat
                        /\ endsWith about (js "...") = true
                        /\ exists t, about = take 200 t ++ js "...")).
Proof.
  destruct (firstText_FirstMatch d aboutSelectors
              (fun t => substring0 200 t ++ js "...") [])
    as [r [Hr Heq]].
  fold (extractAbout d) in Heq. split.
  - exists r. split; [done|]. destruct r as [t|]; [|done].
    split; [done|]. by apply (FirstMatch_Some_nonempty d aboutSelectors).
  - destruct r as [t|].
    + exists (take 200 t ++ js "..."). split; [done|]. intros _.
      split; [|split].
      * rewrite length_app, length_take.
        change (length (js "...")) with 3%nat. lia.
      * apply endsWith_suffix.
      * by exists t.
    + exists []. by split.
Qed.

End ExtractorTheorems.

(** The name falls back to [there] on a page without any node. *)
Lemma extractName_blank_page :
  (forall selector el,
      In selector Content.nameSelectors ->
      Content.querySelector (Content.document Samples.blankPage) selector
      = Some el ->
      trim (Content.textContent el) = [])
  /\ @Content.extractName Samples.sampleEngine
       (Content.document Samples.blankPage) = Ok (js "there").
Proof.
  assert (Hnone : forall selector el,
             In selector Content.nameSelectors ->
             Content.querySelector (Content.document Samples.blankPage) selector
             = Some el ->
             trim (Content.textContent el) = []) by (intros ? ? _ Hq; discriminate Hq).
  split; [exact Hnone|].
  exact (proj1 (@extractors_first_nonempty_text Samples.sampleEngine
                  (Content.document Samples.blankPage)) Hnone).
Defined.

(** C7 as stated fails for the about field: where the first about
    selector finds the text [Hi], the extractor returns [Hi...], which
    is not the text matched. *)
Lemma extractAbout_is_not_the_matched_text :
  Content.FirstMatch (Content.document Samples.aboutHiPage)
                     Content.aboutSelectors (Some (js "Hi"))
  /\ @Content.extractAbout Samples.sampleEngine
       (Content.document Samples.aboutHiPage) = Ok (js "Hi...")
  /\ @Content.extractAbout Samples.sampleEngine
       (Content.document Samples.aboutHiPage) <> Ok (js "Hi").
Proof.
  split; [|split; [reflexivity | discriminate]].
  apply (Content.first_here _ _ _ {| Content.textContent := js "  Hi " |});
    [reflexivity | discriminate].
Qed.

(** On that page the about field is the truncated text. *)
Lemma extractAbout_hi_page :
  exists about,
    @Content.extractAbout Samples.sampleEngine
      (Content.document Samples.aboutHiPage) = Ok about
    /\ (about <> [] ->
        (length about <= 203)%nat
        /\ endsWith about (js "...") = true
        /\ exists t, about = take 200 t ++ js "...").
Proof.
  exact (proj2 (@extractAbout_truncates Samples.sampleEngine
                  (Content.document Samples.aboutHiPage))).
Defined.

(** ** content.js: the message listener *)

Section ListenerTheorems.

Import Content.

Context `{Engine}.

Lemma isStr_true lit v : isStr lit v = true <-> v = JStr lit.
Proof.
  destruct v; simpl; try (split; [done | discriminate]).
  rewrite str_eqb_eq. split; [by intros -> | by intros [= ->]].
Qed.

Lemma initializeContentScript_ready st :
  isContentScriptReady st = false ->
  initializeContentScript st
  = {| isContentScriptReady := true;
       linkedinAssistant := Some {| settings := JObj [] |};
       linkedInAssistantLoaded := true |}.
Proof. intros Hst. unfold initializeContentScript. by rewrite Hst. Qed.

Lemma getProfileDataForMessage_success page :
  hasBoolSuccess (getProfileDataForMessage page) = true.
Proof.
  unfold getProfileDataForMessage.
  destruct (isProfilePage page); simpl; [|done].
  by destruct (extractProfileData (document page)).
Qed.

(** C9. A ping is answered with the ready flag as it stands and leaves
    the script's state as it was: on a script that is not ready the
    answer is [{ready: false}] and nothing is initialized. Any other
    message to a script that is not ready initializes it first: after
    the listener the flag is set and an assistant exists, the one just
    constructed unless the message itself replaced its settings. *)
Theorem ping_does_not_initialize (page : Page) (st : ContentState)
        (request : Request) :
  (action request = JStr (js "ping") ->
   onMessage page st request
   = (st, [JObj [("ready"%string, JBool (isContentScriptReady st))]]))
  /\ (action request = JStr (js "ping") ->
      isContentScriptReady st = false ->
      onMessage page st request
      = (st, [JObj [("ready"%string, JBool false)]]))
  /\ (action request <> JStr (js "ping") ->
      isContentScriptReady st = false ->
      exists assistant,
        (onMessage page st request).1
        = {| isContentScriptReady := true;
             linkedinAssistant := Some assistant;
             linkedInAssistantLoaded := true |}
        /\ (action request <> JStr (js "settingsUpdated") ->
            (onMessage page st request).1 = initializeContentScript st))
  /\ (action request <> JStr (js "ping") ->
      isContentScriptReady st = true ->
      isContentScriptReady (onMessage page st request).1 = true
      /\ linkedInAssistantLoaded (onMessage page st request).1
         = linkedInAssistantLoaded st).
Proof.
  unfold onMessage. split; [|split; [|split]].
  - intros Hping. apply isStr_true in Hping. by rewrite Hping.
  - intros Hping Hst. apply isStr_true in Hping. by rewrite Hping, Hst.
  - intros Hother Hst.
    destruct (isStr (js "ping") (action request)) eqn:Hp;
      [by apply isStr_true in Hp|].
    rewrite Hst. simpl. rewrite (initializeContentScript_ready st Hst). simpl.
    destruct (isStr (js "getProfileData") (action request)); simpl; [eauto|].
    destruct (isStr (js "settingsUpdated") (action request)) eqn:Hs; simpl;
      [|eauto].
    apply isStr_true in Hs. eexists. split; [done|]. by intros [].
  - intros Hother Hst.
    destruct (isStr (js "ping") (action request)) eqn:Hp;
      [by apply isStr_true in Hp|].
    rewrite Hst. simpl. destruct (linkedinAssistant st); simpl; [|done].
    destruct (isStr (js "getProfileData") (action request)); simpl; [done|].
    by destruct (isStr (js "settingsUpdated") (action request)).
Qed.

(** The content script answers every message once. The answer to a
    ping is [{ready: ...}], which has no [success]; every other answer
    has a boolean [success]; and with an assistant in place, an action
    that is none of [ping], [getProfileData], [settingsUpdated] gets
    [{success: false, error: 'Unknown action'}]. *)
Lemma content_answers_once (page : Page) (st : ContentState)
      (request : Request) :
  exists r,
    (onMessage page st request).2 = [r]
    /\ (action request = JStr (js "ping") ->
        r = JObj [("ready"%string, JBool (isContentScriptReady st))]
        /\ hasBoolSuccess r = false)
    /\ (action request <> JStr (js "ping") -> hasBoolSuccess r = true)
    /\ (action request <> JStr (js "ping") ->
        action request <> JStr (js "getProfileData") ->
        action request <> JStr (js "settingsUpdated") ->
        (isContentScriptReady st = true -> is_Some (linkedinAssistant st)) ->
        r = failure (js "Unknown action")).
Proof.
  unfold onMessage.
  destruct (isStr (js "ping") (action request)) eqn:Hp.
  { apply isStr_true in Hp. eexists. split; [done|]. by repeat split. }
  assert (Hnp : action request <> JStr (js "ping")).
  { intros Heq. apply isStr_true in Heq. congruence. }
  destruct (isContentScriptReady st) eqn:Hst; simpl.
  - destruct (linkedinAssistant st) as [a|] eqn:Ha; simpl.
    + destruct (isStr (js "getProfileData") (action request)) eqn:Hg; simpl.
      { apply isStr_true in Hg. eexists. split; [done|].
        split; [done|]. split; [|done].
        intros _. apply getProfileDataForMessage_success. }
      destruct (isStr (js "settingsUpdated") (action request)) eqn:Hs; simpl.
      { apply isStr_true in Hs. eexists. split; [done|]. by repeat split. }
      eexists. split; [done|]. by repeat split.
    + eexists. split; [done|]. split; [done|]. split; [done|].
      intros _ _ _ Hwf. by destruct (Hwf eq_refl).
  - rewrite (initializeContentScript_ready st Hst). simpl.
    destruct (isStr (js "getProfileData") (action request)) eqn:Hg; simpl.
    { apply isStr_true in Hg. eexists. split; [done|].
      split; [done|]. split; [|done].
      intros _. apply getProfileDataForMessage_success. }
    destruct (isStr (js "settingsUpdated") (action request)) eqn:Hs; simpl.
    { apply isStr_true in Hs. eexists. split; [done|]. by repeat split. }
    eexists. split; [done|]. by repeat split.
Qed.

End ListenerTheorems.

(** A fresh script answers a ping with [{ready: false}] and stays
    uninitialized. *)
Lemma fresh_script_answers_ping_unready :
  @Content.onMessage Samples.sampleEngine Samples.blankPage
     Content.initialState (toRequest Background.ping)
  = (Content.initialState, [JObj [("ready"%string, JBool false)]]).
Proof.
  apply (proj1 (proj2 (@ping_does_not_initialize Samples.sampleEngine
                         Samples.blankPage Content.initialState
                         (toRequest Background.ping))));
    reflexivity.
Defined.

(** ** sendMessageToTab and the popup's profile request *)

Section BridgeTheorems.

Import Background Popup.

Context `{Engine}.
Variable chrome : Chrome.

Lemma makes_intro {A} (m : Async A) w w' calls r :
  m w = (w', r) -> history w' = history w ++ calls -> makes m w calls r.
Proof. intros Hm Hh. unfold makes. by rewrite Hm. Qed.

Ltac run_bridge :=
  unfold sendMessageToTab, probeAndDeliver, injectAndRetry, profileResponse,
    tryCatch, throw, mbind, async_bind, mret, async_ret, chrome_tabs_get,
    chrome_tabs_sendMessage, chrome_scripting_executeScript, sleep, call,
    lift, notOnLinkedIn, makes;
  simpl.

(** Case analysis on the innermost scrutinee. *)
Ltac step :=
  match goal with
  | |- context [match ?x with _ => _ end] =>
      lazymatch x with
      | context [match _ with _ => _ end] => fail
      | _ => destruct x; simpl
      end
  end.

(** Whatever the browser answers, [sendMessageToTab] completes
    normally, leaves storage alone, and its calls are one of the six
    sequences of [bridgeTraces]. *)
Lemma sendMessageToTab_traces (tabId : N) (message : JsVal) (w : World) :
  exists calls r,
    makes (sendMessageToTab chrome tabId message) w calls (Ok r)
    /\ In calls (bridgeTraces tabId message).
Proof.
  run_bridge. repeat step.
  all: rewrite <- ?app_assoc; simpl.
  all: eexists _, _; (split; [split; reflexivity|]).
  all: simpl; tauto.
Qed.

Lemma profileResponse_traces (tabId : N) (w : World) :
  exists calls r,
    makes (profileResponse chrome tabId) w calls r
    /\ In calls (popupTraces tabId).
Proof.
  run_bridge. repeat step.
  all: rewrite <- ?app_assoc; simpl.
  all: eexists _, _; (split; [split; reflexivity|]).
  all: simpl; tauto.
Qed.

(** On a LinkedIn tab whose script reports ready and answers the
    delivery, the calls are the lookup, the probe and the delivery, and
    the answer goes back unchanged. *)
Lemma ready_probe_then_delivery (tabId : N) (message : JsVal) (w : World)
      tab u pong r :
  tabs_get chrome (history w) tabId = Ok (Some tab) ->
  tab_url tab = Some u ->
  includes u (js "linkedin.com") = true ->
  tabs_sendMessage chrome (history w ++ [TabsGet tabId]) tabId ping = Ok pong ->
  truthy (optChain "ready" pong) = true ->
  tabs_sendMessage chrome
    (history w ++ [TabsGet tabId; TabsSendMessage tabId ping]) tabId message
  = Ok r ->
  makes (sendMessageToTab chrome tabId message) w
        [TabsGet tabId; TabsSendMessage tabId ping;
         TabsSendMessage tabId message] (Ok r)
  /\ installs [TabsGet tabId; TabsSendMessage tabId ping;
               TabsSendMessage tabId message] = 0%nat.
Proof.
  intros Hget Hurl Hin Hping Hready Hsend. run_bridge.
  rewrite Hget, Hurl, Hin. simpl. rewrite Hping, Hready. simpl.
  rewrite <- ?app_assoc. simpl. rewrite Hsend. simpl.
  rewrite <- ?app_assoc. by simpl.
Qed.

(** Whenever the script reports ready and the delivery that follows
    rejects, [sendMessageToTab] goes on to inject the script. *)
Lemma ready_probe_rejected_delivery (tabId : N) (message : JsVal) (w : World)
      tab u pong e :
  tabs_get chrome (history w) tabId = Ok (Some tab) ->
  tab_url tab = Some u ->
  includes u (js "linkedin.com") = true ->
  tabs_sendMessage chrome (history w ++ [TabsGet tabId]) tabId ping = Ok pong ->
  truthy (optChain "ready" pong) = true ->
  tabs_sendMessage chrome
    (history w ++ [TabsGet tabId; TabsSendMessage tabId ping]) tabId message
  = Throw e ->
  exists calls r,
    makes (sendMessageToTab chrome tabId message) w
          ([TabsGet tabId; TabsSendMessage tabId ping;
            TabsSendMessage tabId message;
            ExecuteScript tabId [js "content.js"]] ++ calls) (Ok r)
    /\ installs ([TabsGet tabId; TabsSendMessage tabId ping;
                  TabsSendMessage tabId message;
                  ExecuteScript tabId [js "content.js"]] ++ calls) = 1%nat.
Proof.
  intros Hget Hurl Hin Hping Hready Hsend. run_bridge.
  rewrite Hget, Hurl, Hin. simpl. rewrite Hping, Hready. simpl.
  rewrite <- ?app_assoc. simpl. rewrite Hsend. simpl.
  rewrite <- ?app_assoc. simpl.
  destruct (scripting_executeScript chrome _ tabId _) as [[]|e1]; simpl.
  - clear Hsend.
    match goal with
    | |- context [tabs_sendMessage chrome ?h tabId message] =>
        destruct (tabs_sendMessage chrome h tabId message) as [r|e2]
    end; simpl.
    + exists [SetTimeout 1500; TabsSendMessage tabId message], r.
      split; [split; reflexivity | reflexivity].
    + exists [SetTimeout 1500; TabsSendMessage tabId message].
      eexists. split; [split; reflexivity | reflexivity].
  - exists []. eexists. split; [split; reflexivity | reflexivity].
Qed.

(** C1 (amended). No request loops: [sendMessageToTab] injects at most
    once, sends the probe and then the message at most twice, at most
    once after the injection; the popup's profile request injects at
    most once and sends at most twice. On a LinkedIn tab that rejects
    every message, [sendMessageToTab] probes, injects exactly once and
    reports the failure; it delivers exactly once after the injection
    when the injection resolved, and not at all when it rejected. *)
Theorem bridge_one_install_one_retry (tabId : N) (message : JsVal)
        (w : World) :
  (exists calls r,
      makes (sendMessageToTab chrome tabId message) w calls (Ok r)
      /\ In calls (bridgeTraces tabId message)
      /\ (installs calls <= 1)%nat
      /\ (length (sent (afterInstall calls)) <= 1)%nat
      /\ (sent calls = []
          \/ exists deliveries,
               sent calls = ping :: deliveries
               /\ Forall (eq message) deliveries
               /\ (length deliveries <= 2)%nat))
  /\ (exists calls r,
         makes (profileResponse chrome tabId) w calls r
         /\ In calls (popupTraces tabId)
         /\ (installs calls <= 1)%nat
         /\ Forall (eq getProfileData) (sent calls)
         /\ (length (sent calls) <= 2)%nat)
  /\ (forall tab u,
         tabs_get chrome (history w) tabId = Ok (Some tab) ->
         tab_url tab = Some u ->
         includes u (js "linkedin.com") = true ->
         (forall h m, exists e, tabs_sendMessage chrome h tabId m = Throw e) ->
         exists calls,
           makes (sendMessageToTab chrome tabId message) w calls
                 (Ok (failure (js "Failed to inject content script. Please refresh the page.")))
           /\ installs calls = 1%nat
           /\ calls
              = [TabsGet tabId; TabsSendMessage tabId ping;
                 ExecuteScript tabId [js "content.js"]]
                ++ match scripting_executeScript chrome
                           (history w ++ [TabsGet tabId;
                                          TabsSendMessage tabId ping])
                           tabId [js "content.js"] with
                   | Ok _ => [SetTimeout 1500; TabsSendMessage tabId message]
                   | Throw _ => []
                   end).
Proof.
  split; [|split].
  - destruct (sendMessageToTab_traces tabId message w)
      as (calls & r & Hmakes & Hin).
    exists calls, r. split; [done|]. split; [done|].
    simpl in Hin.
    destruct Hin as [<-|[<-|[<-|[<-|[<-|[<-|[]]]]]]];
      (split; [vm_compute; lia|]); (split; [vm_compute; lia|]);
      first [ left; reflexivity
            | right; eexists; split; [reflexivity|];
              split; [repeat constructor | simpl; lia] ].
  - destruct (profileResponse_traces tabId w) as (calls & r & Hmakes & Hin).
    exists calls, r. split; [done|]. split; [done|].
    simpl in Hin.
    destruct Hin as [<-|[<-|[<-|[]]]];
      (split; [vm_compute; lia|]);
      (split; [repeat constructor | vm_compute; lia]).
  - intros tab u Hget Hurl Hin Hsilent. run_bridge.
    rewrite Hget, Hurl, Hin. simpl.
    destruct (Hsilent (history w ++ [TabsGet tabId]) ping) as [e ->]. simpl.
    rewrite <- ?app_assoc. simpl.
    destruct (scripting_executeScript chrome _ tabId _) as [[]|e'] eqn:Hi;
      simpl.
    + match goal with
      | |- context [tabs_sendMessage chrome ?h tabId message] =>
          destruct (Hsilent h message) as [e2 ->]
      end.
      simpl. eexists. split; [split; reflexivity|]. done.
    + eexists. split; [split; reflexivity|]. done.
Qed.

End BridgeTheorems.

(** On a silent tab that accepts the injection: probe, one injection,
    the wait, one delivery, the failure. *)
Lemma silent_tab_one_install_one_retry :
  exists calls,
    makes (@Background.sendMessageToTab Samples.sampleEngine
             (Samples.silentTab true) 1 Background.showGenerateButton)
          Samples.emptyWorld calls
          (Ok (failure (js "Failed to inject content script. Please refresh the page.")))
    /\ installs calls = 1%nat
    /\ calls
       = [Background.TabsGet 1;
          Background.TabsSendMessage 1 Background.ping;
          Background.ExecuteScript 1 [js "content.js"]]
         ++ [Background.SetTimeout 1500;
             Background.TabsSendMessage 1 Background.showGenerateButton].
Proof.
  apply (proj2 (proj2 (@bridge_one_install_one_retry Samples.sampleEngine
                         (Samples.silentTab true) 1
                         Background.showGenerateButton Samples.emptyWorld))
           (Samples.linkedInTab 1)
           (js "https://www.linkedin.com/in/ada-lovelace/")).
  - reflexivity.
  - reflexivity.
  - reflexivity.
  - intros h m. by exists Samples.noReceiver.
Defined.

(** C1 as stated fails when the injection itself rejects: on a silent
    tab that refuses the injection there is one injection and no
    delivery after it, not one. *)
Lemma silent_tab_failed_install_no_retry :
  makes (@Background.sendMessageToTab Samples.sampleEngine
           (Samples.silentTab false) 1 Background.showGenerateButton)
        Samples.emptyWorld
        [Background.TabsGet 1;
         Background.TabsSendMessage 1 Background.ping;
         Background.ExecuteScript 1 [js "content.js"]]
        (Ok (failure (js "Failed to inject content script. Please refresh the page.")))
  /\ installs [Background.TabsGet 1;
               Background.TabsSendMessage 1 Background.ping;
               Background.ExecuteScript 1 [js "content.js"]] = 1%nat
  /\ length (sent (afterInstall
                     [Background.TabsGet 1;
                      Background.TabsSendMessage 1 Background.ping;
                      Background.ExecuteScript 1 [js "content.js"]])) = 0%nat.
Proof. repeat split; reflexivity. Qed.

(** C6, at the input where the code departs from it: the probe is
    answered [{ready: true}], the delivery that follows rejects, and
    [sendMessageToTab] goes on to inject the script and deliver again:
    one installation, where the claim has none. *)
Theorem ready_probe_failed_delivery_installs :
  makes (@Background.sendMessageToTab Samples.sampleEngine
           Samples.readyThenGone 1 Background.showGenerateButton)
        Samples.emptyWorld
        [Background.TabsGet 1;
         Background.TabsSendMessage 1 Background.ping;
         Background.TabsSendMessage 1 Background.showGenerateButton;
         Background.ExecuteScript 1 [js "content.js"];
         Background.SetTimeout 1500;
         Background.TabsSendMessage 1 Background.showGenerateButton]
        (Ok (failure (js "Unknown action")))
  /\ installs [Background.TabsGet 1;
               Background.TabsSendMessage 1 Background.ping;
               Background.TabsSendMessage 1 Background.showGenerateButton;
               Background.ExecuteScript 1 [js "content.js"];
               Background.SetTimeout 1500;
               Background.TabsSendMessage 1 Background.showGenerateButton]
     = 1%nat.
Proof. repeat split; reflexivity. Qed.

(** ** The generation client *)

Section GenerationTheorems.

Import Background.

Context `{Engine}.

Lemma handleResponseData_has_success body r :
  handleResponseData body = Ok r -> hasBoolSuccess r = true.
Proof.
  unfold handleResponseData.
  destruct (candidates body) as [[|c cs]|].
  2: { destruct (candidateText c) as [[m|]|e]; simpl; [|done..].
       by intros [= <-]. }
  all: destruct (promptFeedback body) as [[[reason|]]|];
    try destruct (nonEmpty reason); simpl; by intros [= <-].
Qed.

(** Every result of [handleGenerateMessage] carries a boolean
    [success]. *)
Lemma handleGenerateMessage_has_success net data r :
  handleGenerateMessage net data = Ok r -> hasBoolSuccess r = true.
Proof.
  unfold handleGenerateMessage.
  destruct (loadApiKey net) as [[|c k]|]; try by intros [= <-].
  destruct (getProp "profileData" data) as [profile|e]; simpl; [|done].
  destruct (createPrompt profile) as [prompt|e]; simpl; [|done].
  destruct (callGemini net (c :: k) prompt) as [v|e] eqn:Hcall;
    [|by intros [= <-]].
  intros [= <-]. revert Hcall. unfold callGemini.
  destruct (fetch net _ prompt) as [response|e]; simpl; [|done].
  destruct (ok response); simpl.
  - destruct (json response) as [body|e]; simpl; [|done].
    apply handleResponseData_has_success.
  - by destruct (json response).
Qed.

(** With the request answered, the result is that of the three-way
    branch, a throw inside it turned into a failure. *)
Lemma handleGenerateMessage_answered net data body :
  answeredWith net data body ->
  handleGenerateMessage net data
  = Ok (match handleResponseData body with
        | Ok r => r
        | Throw error => failure (errorMessage error)
        end).
Proof.
  intros (key & profile & prompt & response
          & Hkey & Hne & Hprofile & Hprompt & Hfetch & Hok & Hjson).
  unfold handleGenerateMessage. rewrite Hkey.
  destruct key as [|c k]; [done|].
  rewrite Hprofile. simpl. rewrite Hprompt. simpl.
  unfold callGemini. rewrite Hfetch. simpl. rewrite Hok. simpl.
  rewrite Hjson. simpl. by destruct (handleResponseData body).
Qed.

(** C3 (amended). Once the API has answered with a body: a body with a
    non-empty block reason and no candidate gives the blocked error
    carrying that reason, not the empty-response error; a body whose
    first candidate carries text gives success with that text trimmed;
    a body with no candidate and no block reason gives the
    empty-response error. *)
Theorem generation_three_way (net : Network) (data : JsVal)
        (body : ApiBody) :
  answeredWith net data body ->
  (forall reason,
      noCandidates body -> blockedFor body reason ->
      handleGenerateMessage net data = Ok (failure (blockedMessage reason))
      /\ handleGenerateMessage net data <> Ok (failure emptyMessage))
  /\ (forall m,
         firstCandidateText body m ->
         handleGenerateMessage net data
         = Ok (JObj [ ("success", JBool true);
                      ("message", JStr (trim m)) ]%string))
  /\ (noCandidates body -> noBlockReason body ->
      handleGenerateMessage net data = Ok (failure emptyMessage)).
Proof.
  intros Hanswered. rewrite (handleGenerateMessage_answered _ _ _ Hanswered).
  unfold handleResponseData, noCandidates, blockedFor, noBlockReason,
    firstCandidateText.
  split; [|split].
  - intros reason Hnone [Hfeedback Hreason].
    assert (Hblocked : (if nonEmpty reason
                        then Ok (failure (blockedMessage reason))
                        else Ok (failure emptyMessage))
                       = Ok (failure (blockedMessage reason)))
      by (by destruct reason).
    assert (Hdiffer : Ok (failure (blockedMessage reason))
                      <> Ok (failure emptyMessage)).
    { by intros [= Heq]. }
    destruct Hnone as [-> | ->]; rewrite Hfeedback;
      fold (blockedMessage reason); fold emptyMessage;
      rewrite Hblocked; done.
  - intros m (c & cs & ct & p & ps & -> & Hc & Hp & Hm).
    unfold candidateText. rewrite Hc, Hp. simpl. by rewrite Hm.
  - intros Hnone Hfeedback.
    destruct Hnone as [-> | ->];
      destruct (promptFeedback body) as [[[[|x reason]|]]|]; done.
Qed.

End GenerationTheorems.

(** A blocked prompt is reported as blocked, with the reason. *)
Lemma blocked_prompt_reports_reason :
  @answeredWith Samples.sampleEngine (Samples.apiAnswers Samples.blockedBody)
                Samples.adaData Samples.blockedBody
  /\ @Background.handleGenerateMessage Samples.sampleEngine
       (Samples.apiAnswers Samples.blockedBody) Samples.adaData
     = Ok (failure (blockedMessage (js "SAFETY"))).
Proof.
  assert (Hanswered : @answeredWith Samples.sampleEngine
                        (Samples.apiAnswers Samples.blockedBody)
                        Samples.adaData Samples.blockedBody).
  { do 4 eexists. repeat split; try reflexivity. discriminate. }
  split; [exact Hanswered|].
  apply (proj1 (@generation_three_way Samples.sampleEngine _ _ _ Hanswered)).
  - by left.
  - split; [reflexivity | discriminate].
Defined.

(** C3 as stated fails for a body whose candidate has no content (the
    API sends such candidates when it stops for safety): there is a
    candidate, and the result is a failure carrying the engine's
    [TypeError] message instead of a success. *)
Lemma candidate_without_content_fails :
  Background.candidates Samples.candidateWithoutContent
  = Some [ {| Background.content := None |} ]
  /\ @answeredWith Samples.sampleEngine
       (Samples.apiAnswers Samples.candidateWithoutContent)
       Samples.adaData Samples.candidateWithoutContent
  /\ @Background.handleGenerateMessage Samples.sampleEngine
       (Samples.apiAnswers Samples.candidateWithoutContent) Samples.adaData
     = Ok (failure (js "Cannot read properties of undefined (reading 'parts')")).
Proof.
  split; [reflexivity|]. split; [|reflexivity].
  do 4 eexists. repeat split; try reflexivity. discriminate.
Qed.

(** ** The prompt *)

(** C8. For the profile [{name: "Ada", headline: "Engineer"}], sent
    with the context [CS grad] and the role [developer], the prompt is
    built, whatever the engine, and it contains [Hi Ada,] (inside
    double quotes) and the headline [Engineer]. *)
Theorem prompt_greets_Ada `{Engine} :
  exists prompt,
    (profileData ← Background.getProp "profileData" Samples.adaData;
     Background.createPrompt profileData) = Ok prompt
    /\ Background.createPrompt Samples.adaProfile = Ok prompt
    /\ includes prompt (js "Hi Ada,") = true
    /\ includes prompt (dq ++ js "Hi Ada," ++ dq) = true
    /\ includes prompt (js "Engineer") = true
    /\ includes prompt (js "(headline: Engineer; company: undefined; industry: undefined)") = true.
Proof.
  eexists. split; [reflexivity|]. split; [reflexivity|].
  repeat split; by vm_compute.
Qed.

(** ** Settings *)

Section SettingsTheorems.

Import Background.

Variable chrome : Chrome.

Lemma insert_union_self (k : string) (v : JsVal) (m : gmap string JsVal) :
  <[k := v]> m ∪ m = <[k := v]> m.
Proof. by rewrite <- insert_union_l, map_union_idemp. Qed.

(** What [handleUpdate] leaves in storage: the store as it was, or the
    store with [statistics] set to the defaults. *)
Lemma handleUpdate_storage previousVersion w :
  storage (handleUpdate chrome previousVersion w).1
  = if truthy (item "statistics" (storage w)) then storage w
    else match storage_get_fault chrome (history w),
               storage_set_fault chrome (history w ++ [StorageGet None])
                 (<["statistics"%string :=
                      updatedStatistics
                        (date_now chrome (history w ++ [StorageGet None]))]>
                    (storage w)) with
         | None, None =>
             <["statistics"%string :=
                 updatedStatistics
                   (date_now chrome (history w ++ [StorageGet None]))]>
               (storage w)
         | _, _ => storage w
         end.
Proof.
  unfold handleUpdate, mbind, async_bind, chrome_storage_sync_get,
    chrome_storage_sync_set, now, mret, async_ret.
  simpl. destruct (storage_get_fault chrome (history w)); simpl.
  { by destruct (truthy _). }
  destruct (truthy (item "statistics" (storage w))); simpl; [done|].
  destruct (storage_set_fault chrome _ _); simpl; [done|].
  apply insert_union_self.
Qed.

(** C5 (amended). The version-update migration touches no key but
    [statistics]; a [statistics] value that is truthy, as every object
    is, stays as it is, and then the whole document is left verbatim,
    unknown fields included; a [statistics] that is absent, or present
    but falsy, becomes the defaults with [messagesGenerated: 0] when
    storage accepts the read and the write. *)
Theorem handleUpdate_additive (previousVersion : JsVal) (w : World) :
  (forall k, k <> "statistics"%string ->
             storage (handleUpdate chrome previousVersion w).1 !! k
             = storage w !! k)
  /\ (truthy (item "statistics" (storage w)) = true ->
      storage (handleUpdate chrome previousVersion w).1 = storage w)
  /\ (forall props,
         storage w !! "statistics"%string = Some (JObj props) ->
         storage (handleUpdate chrome previousVersion w).1 = storage w)
  /\ (truthy (item "statistics" (storage w)) = false ->
      storage_get_fault chrome (history w) = None ->
      storage_set_fault chrome (history w ++ [StorageGet None])
        (<["statistics"%string :=
             updatedStatistics
               (date_now chrome (history w ++ [StorageGet None]))]>
           (storage w)) = None ->
      storage (handleUpdate chrome previousVersion w).1 !! "statistics"%string
      = Some (JObj [ ("messagesGenerated", JNum 0);
                     ("extensionUpdated",
                      JStr (date_now chrome
                              (history w ++ [StorageGet None]))) ]%string)).
Proof.
  rewrite handleUpdate_storage. split; [|split; [|split]].
  - intros k Hk. destruct (truthy _); [done|].
    destruct (storage_get_fault _ _); [done|].
    destruct (storage_set_fault _ _ _); [done|].
    by rewrite lookup_insert_ne.
  - by intros ->.
  - intros props Hprops. unfold item. by rewrite Hprops.
  - intros -> -> ->. by rewrite lookup_insert_eq.
Qed.

End SettingsTheorems.

(** Updating over a legacy document adds [statistics] and keeps the
    context and the unknown field. *)
Lemma legacy_document_gains_statistics :
  Background.storage
    (@Background.handleUpdate (Samples.silentTab true) (JStr (js "1.0.0"))
       (Samples.worldWith Samples.legacyStore)).1 !! "theme"%string
  = Samples.legacyStore !! "theme"%string
  /\ Background.storage
       (@Background.handleUpdate (Samples.silentTab true) (JStr (js "1.0.0"))
          (Samples.worldWith Samples.legacyStore)).1 !! "statistics"%string
     = Some (JObj [ ("messagesGenerated", JNum 0);
                    ("extensionUpdated", JStr (js "2025-01-01T00:00:00.000Z"))
                  ]%string).
Proof.
  split.
  - apply (proj1 (handleUpdate_additive (Samples.silentTab true)
                    (JStr (js "1.0.0"))
                    (Samples.worldWith Samples.legacyStore))).
    discriminate.
  - apply (proj2 (proj2 (proj2
             (handleUpdate_additive (Samples.silentTab true)
                (JStr (js "1.0.0"))
                (Samples.worldWith Samples.legacyStore)))));
      reflexivity.
Defined.

(** C5 as stated fails for a [statistics] that is present and falsy:
    the stored [null] is overwritten by the defaults. *)
Lemma null_statistics_is_overwritten :
  Samples.nullStatisticsStore !! "statistics"%string = Some JNull
  /\ Background.storage
       (@Background.handleUpdate (Samples.silentTab true) (JStr (js "1.0.0"))
          (Samples.worldWith Samples.nullStatisticsStore)).1
     !! "statistics"%string
     = Some (JObj [ ("messagesGenerated", JNum 0);
                    ("extensionUpdated", JStr (js "2025-01-01T00:00:00.000Z"))
                  ]%string).
Proof.
  split; [reflexivity|].
  rewrite handleUpdate_storage. by vm_compute.
Qed.

(** ** The coordinator's dispatch *)

Section DispatchTheorems.

Import Background.

Context `{Engine}.
Variable chrome : Chrome.

Ltac actions_differ :=
  match goal with
  | H1 : action ?r = _, H2 : action ?r = _ |- _ =>
      rewrite H1 in H2; vm_compute in H2; discriminate H2
  end.

Lemma responses_app c1 c2 : responses (c1 ++ c2) = responses c1 ++ responses c2.
Proof. apply omap_app. Qed.

Lemma quiet_ret {A} (a : A) : Quiet (mret a).
Proof. intros w. exists []. by rewrite app_nil_r. Qed.

Lemma quiet_lift {A} (r : Res A) : Quiet (lift r).
Proof. intros w. exists []. by rewrite app_nil_r. Qed.

Lemma quiet_now : Quiet (now chrome).
Proof. intros w. exists []. by rewrite app_nil_r. Qed.

Lemma quiet_bind {A B} (m : Async A) (k : A -> Async B) :
  Quiet m -> (forall a, Quiet (k a)) -> Quiet (m ≫= k).
Proof.
  intros Hm Hk w. unfold mbind, async_bind.
  destruct (Hm w) as [c1 [H1 R1]].
  destruct (m w) as [w1 [a|e]] eqn:Hmw; simpl in *.
  - destruct (Hk a w1) as [c2 [H2 R2]]. exists (c1 ++ c2).
    rewrite H2, H1, app_assoc. split; [done|].
    by rewrite responses_app, R1, R2.
  - by exists c1.
Qed.

Lemma quiet_tryCatch {A} (m : Async A) (h : Exn -> Async A) :
  Quiet m -> (forall e, Quiet (h e)) -> Quiet (tryCatch m h).
Proof.
  intros Hm Hh w. unfold tryCatch.
  destruct (Hm w) as [c1 [H1 R1]].
  destruct (m w) as [w1 [a|e]] eqn:Hmw; simpl in *.
  - by exists c1.
  - destruct (Hh e w1) as [c2 [H2 R2]]. exists (c1 ++ c2).
    rewrite H2, H1, app_assoc. split; [done|].
    by rewrite responses_app, R1, R2.
Qed.

Lemma quiet_get : Quiet (chrome_storage_sync_get chrome).
Proof. intros w. by exists [StorageGet None]. Qed.

Lemma quiet_get_keys keys : Quiet (chrome_storage_sync_get_keys chrome keys).
Proof. intros w. by exists [StorageGet (Some keys)]. Qed.

Lemma quiet_set items : Quiet (chrome_storage_sync_set chrome items).
Proof.
  intros w. exists [StorageSet items]. unfold chrome_storage_sync_set.
  by destruct (storage_set_fault chrome (history w) items).
Qed.

Lemma quiet_saveSettings newSettings : Quiet (saveSettings chrome newSettings).
Proof.
  unfold saveSettings. apply quiet_bind; [apply quiet_get|].
  intros currentSettings. apply quiet_set.
Qed.

Lemma quiet_logActivity activityData : Quiet (logActivity chrome activityData).
Proof.
  unfold logActivity. apply quiet_tryCatch; [|intros; apply quiet_ret].
  apply quiet_bind; [apply quiet_get_keys|]. intros currentStats. simpl.
  apply quiet_bind; [apply quiet_lift|]. intros type.
  apply quiet_bind; [|intros; apply quiet_set].
  destruct (isStr _ type); [|apply quiet_ret].
  apply quiet_bind; [apply quiet_lift|]. intros counted.
  apply quiet_bind; [apply quiet_now|]. intros date. apply quiet_lift.
Qed.

(** A [try] block that runs a quiet step and then answers, with a
    [catch] that answers the failure, answers exactly once. *)
Lemma responds_once {A} (m : Async A) (k : A -> JsVal) (w : World) :
  Quiet m ->
  (forall a, hasBoolSuccess (k a) = true) ->
  exists calls v,
    makes (tryCatch (a ← m; sendResponse (k a))
                    (fun error => sendResponse (failure (errorMessage error))))
          w calls (Ok tt)
    /\ responses calls = [v]
    /\ hasBoolSuccess v = true.
Proof.
  intros Hm Hk. unfold makes, tryCatch, mbind, async_bind, sendResponse, call.
  destruct (Hm w) as [c1 [H1 R1]].
  destruct (m w) as [w1 [a|e]] eqn:Hmw; simpl in *.
  - exists (c1 ++ [SendResponse (k a)]), (k a).
    rewrite H1, app_assoc, responses_app, R1. by repeat split.
  - exists (c1 ++ [SendResponse (failure (errorMessage e))]),
           (failure (errorMessage e)).
    rewrite H1, app_assoc, responses_app, R1. by repeat split.
Qed.

(** [BackgroundManager.handleMessage] on its own: it completes, and it
    answers once, with a boolean [success], every action except
    [generateGeminiMessage], which it leaves to the other listener. An
    action outside its [switch] gets the unknown-action failure. *)
Lemma handleMessage_answers (request : Request) (w : World) :
  exists calls,
    makes (handleMessage chrome request) w calls (Ok tt)
    /\ (action request = JStr (js "generateGeminiMessage") ->
        responses calls = [])
    /\ (action request <> JStr (js "generateGeminiMessage") ->
        exists v, responses calls = [v] /\ hasBoolSuccess v = true
                  /\ (action request <> JStr (js "getSettings") ->
                      action request <> JStr (js "saveSettings") ->
                      action request <> JStr (js "generateMessage") ->
                      action request <> JStr (js "logActivity") ->
                      v = failure (js "Unknown action"))).
Proof.
  unfold handleMessage.
  destruct (isStr (js "getSettings") (action request)) eqn:H1.
  { apply isStr_true in H1.
    destruct (responds_once (getSettings chrome)
                (fun settings => JObj [ ("success", JBool true);
                                        ("data", objectOf settings) ]%string)
                w quiet_get (fun _ => eq_refl))
      as (calls & v & Hmakes & Hr & Hv).
    exists calls. split; [done|]. split; [intros Heq; actions_differ|].
    intros _. exists v. repeat split; done. }
  destruct (isStr (js "saveSettings") (action request)) eqn:H2.
  { apply isStr_true in H2.
    destruct (responds_once (saveSettings chrome (data request))
                (fun _ => success)
                w (quiet_saveSettings _) (fun _ => eq_refl))
      as (calls & v & Hmakes & Hr & Hv).
    exists calls. split; [done|]. split; [intros Heq; actions_differ|].
    intros _. exists v. repeat split; done. }
  destruct (isStr (js "generateMessage") (action request)) eqn:H3.
  { apply isStr_true in H3.
    destruct (responds_once
                (generateMessage (profileData request) (userContext request))
                (fun message => JObj [ ("success", JBool true);
                                       ("message", JStr message) ]%string)
                w (quiet_ret _) (fun _ => eq_refl))
      as (calls & v & Hmakes & Hr & Hv).
    exists calls. split; [done|]. split; [intros Heq; actions_differ|].
    intros _. exists v. repeat split; done. }
  destruct (isStr (js "logActivity") (action request)) eqn:H4.
  { apply isStr_true in H4.
    destruct (responds_once (logActivity chrome (data request))
                (fun _ => success)
                w (quiet_logActivity _) (fun _ => eq_refl))
      as (calls & v & Hmakes & Hr & Hv).
    exists calls. split; [done|]. split; [intros Heq; actions_differ|].
    intros _. exists v. repeat split; done. }
  destruct (isStr (js "generateGeminiMessage") (action request)) eqn:H5.
  { apply isStr_true in H5. exists []. unfold makes. simpl.
    rewrite app_nil_r. repeat split; try done. }
  exists [SendResponse (failure (js "Unknown action"))].
  split; [by unfold makes|]. split.
  - intros Heq. apply isStr_true in Heq. congruence.
  - intros _. by exists (failure (js "Unknown action")).
Qed.

(** The top-level listener: one answer to [generateGeminiMessage],
    with a boolean [success]; none to anything else. *)
Lemma onMessage_answers (request : Request) (w : World) :
  exists calls,
    makes (onMessage chrome request) w calls (Ok tt)
    /\ (action request <> JStr (js "generateGeminiMessage") -> calls = [])
    /\ (action request = JStr (js "generateGeminiMessage") ->
        exists v, calls = [SendResponse v] /\ hasBoolSuccess v = true).
Proof.
  unfold onMessage.
  destruct (isStr (js "generateGeminiMessage") (action request)) eqn:H5.
  - destruct (handleGenerateMessage (network chrome) (data request))
      as [r|e] eqn:Hgen.
    + exists [SendResponse r]. split; [by unfold makes|].
      split; [intros Hne; apply isStr_true in H5; congruence|].
      intros _. exists r. split; [done|].
      by apply (handleGenerateMessage_has_success _ _ _ Hgen).
    + exists [SendResponse (failure (errorMessage e))].
      split; [by unfold makes|].
      split; [intros Hne; apply isStr_true in H5; congruence|].
      intros _. by eexists.
  - exists []. split; [unfold makes; simpl; by rewrite app_nil_r|].
    split; [done|]. intros Heq. apply isStr_true in Heq. congruence.
Qed.

(** C2 (amended). Every message is answered exactly once in each
    context. The content script answers a ping with [{ready: ...}],
    which carries no [success]; every other answer of the content
    script, and every answer of the background (its two listeners taken
    together), carries a boolean [success]. An action the context does
    not handle gets [{success: false, error: 'Unknown action'}]: in the
    content script every action but [ping], [getProfileData] and
    [settingsUpdated]; in the background every action but
    [getSettings], [saveSettings], [generateMessage], [logActivity] and
    [generateGeminiMessage]. [BackgroundManager.handleMessage] taken
    alone answers every action once except [generateGeminiMessage],
    which it leaves to the top-level listener. *)
Theorem every_message_answered_once (page : Content.Page)
        (st : Content.ContentState) (request : Request) (w : World) :
  (exists r,
      (Content.onMessage page st request).2 = [r]
      /\ (action request = JStr (js "ping") ->
          r = JObj [("ready"%string,
                     JBool (Content.isContentScriptReady st))]
          /\ hasBoolSuccess r = false)
      /\ (action request <> JStr (js "ping") -> hasBoolSuccess r = true)
      /\ (action request <> JStr (js "ping") ->
          action request <> JStr (js "getProfileData") ->
          action request <> JStr (js "settingsUpdated") ->
          (Content.isContentScriptReady st = true ->
           is_Some (Content.linkedinAssistant st)) ->
          r = failure (js "Unknown action")))
  /\ (exists calls v,
         makes (dispatch chrome request) w calls (Ok tt)
         /\ responses calls = [v]
         /\ hasBoolSuccess v = true
         /\ (action request <> JStr (js "getSettings") ->
             action request <> JStr (js "saveSettings") ->
             action request <> JStr (js "generateMessage") ->
             action request <> JStr (js "logActivity") ->
             action request <> JStr (js "generateGeminiMessage") ->
             v = failure (js "Unknown action")))
  /\ (exists calls,
         makes (handleMessage chrome request) w calls (Ok tt)
         /\ (action request = JStr (js "generateGeminiMessage") ->
             responses calls = [])
         /\ (action request <> JStr (js "generateGeminiMessage") ->
             exists v, responses calls = [v] /\ hasBoolSuccess v = true)).
Proof.
  split; [apply content_answers_once|]. split.
  2: { destruct (handleMessage_answers request w)
         as (calls & Hmakes & Hgen & Hother).
       exists calls. split; [done|]. split; [done|].
       intros Hne. destruct (Hother Hne) as (v & Hr & Hv & _). by exists v. }
  unfold dispatch, makes, mbind, async_bind.
  destruct (onMessage_answers request w) as (c1 & [Hh1 Hr1] & Hother & Hgen).
  destruct (onMessage chrome request w) as [w1 r1] eqn:Hw1.
  simpl in Hh1, Hr1. subst r1.
  destruct (handleMessage_answers request w1)
    as (c2 & [Hh2 Hr2] & Hgen2 & Hother2).
  destruct (handleMessage chrome request w1) as [w2 r2] eqn:Hw2.
  simpl in Hh2, Hr2. subst r2. simpl.
  exists (c1 ++ c2). rewrite Hh2, Hh1, app_assoc, responses_app.
  destruct (isStr (js "generateGeminiMessage") (action request)) eqn:Hg.
  - assert (Heq : action request = JStr (js "generateGeminiMessage"))
      by (by apply isStr_true).
    destruct (Hgen Heq) as (v & -> & Hv). rewrite (Hgen2 Heq).
    exists v. repeat split; done.
  - assert (Hne : action request <> JStr (js "generateGeminiMessage")).
    { intros Heq. apply isStr_true in Heq. congruence. }
    rewrite (Hother Hne). destruct (Hother2 Hne) as (v & -> & Hv & Hunknown).
    exists v. repeat split; try done. intros. by apply Hunknown.
Qed.

End DispatchTheorems.

(** The background answers [saveSettings] once, with a [success]. *)
Lemma saveSettings_answered_once :
  exists calls v,
    makes (@Background.dispatch Samples.sampleEngine (Samples.silentTab true)
             (toRequest (JObj [("action"%string, JStr (js "saveSettings"))])))
          Samples.emptyWorld calls (Ok tt)
    /\ responses calls = [v]
    /\ hasBoolSuccess v = true.
Proof.
  destruct (proj1 (proj2 (@every_message_answered_once Samples.sampleEngine
                            (Samples.silentTab true) Samples.blankPage
                            Content.initialState
                            (toRequest (JObj [("action"%string,
                                               JStr (js "saveSettings"))]))
                            Samples.emptyWorld)))
    as (calls & v & Hmakes & Hr & Hv & _).
  exists calls, v. exact (conj Hmakes (conj Hr Hv)).
Defined.

(** C2 as stated fails for [ping]: the content script's answer to it
    is [{ready: false}] on a fresh script, an object with no [success]
    property. *)
Lemma ping_answer_has_no_success :
  @Content.onMessage Samples.sampleEngine Samples.blankPage
     Content.initialState (toRequest Background.ping)
  = (Content.initialState, [JObj [("ready"%string, JBool false)]])
  /\ hasBoolSuccess (JObj [("ready"%string, JBool false)]) = false
  /\ field "success" (JObj [("ready"%string, JBool false)]) = None.
Proof. repeat split; reflexivity. Qed.

(** ** Checks on small inputs *)

Example trim_strips_both_ends :
  trim ([0xA0; 9] ++ js "Ada  Lovelace " ++ [0xFEFF; 10]) = js "Ada  Lovelace".
Proof. reflexivity. Qed.

Example trim_blank_is_empty : trim (js "   ") = [].
Proof. reflexivity. Qed.

Example includes_keyword :
  includes (js "senior software engineer") (js "engineer") = true
  /\ includes (js "painter") (js "engineer") = false.
Proof. split; reflexivity. Qed.

Example first_name_of_full_name : split_space_0 (js "Ada Lovelace") = js "Ada".
Proof. reflexivity. Qed.

Example profile_urls :
  Content.profilePattern_test (js "https://www.linkedin.com/in/ada-lovelace/") = true
  /\ Content.profilePattern_test (js "https://www.linkedin.com/in/ada_1?trk=x") = true
  /\ Content.profilePattern_test (js "https://www.linkedin.com/in/ada/details/") = false
  /\ Content.profilePattern_test (js "https://www.linkedin.com/feed/") = false.
Proof. repeat split; reflexivity. Qed.

Example headline_decides_industry :
  Content.industryLoop Content.industries (js "marketing engineer  acme") = js "tech"
  /\ Content.industryLoop Content.industries (js "brand manager  acme") = js "marketing"
  /\ Content.industryLoop Content.industries (js "gardener  acme") = js "professional".
Proof. repeat split; reflexivity. Qed.

Example profile_of_sample_page :
  @Content.getProfileDataForMessage Samples.sampleEngine Samples.aboutHiPage
  = JObj [ ("success", JBool true);
           ("profileData",
            JObj [ ("name", JStr (js "Ada Lovelace"));
                   ("headline", JStr []);
                   ("company", JStr []);
                   ("location", JStr []);
                   ("about", JStr (js "Hi..."));
                   ("experience", JStr []);
                   ("industry", JStr (js "professional")) ]) ]%string.
Proof. reflexivity. Qed.

(** ** Startup is not a migration *)

(** [verifySettings], which runs at startup and not on a version
    update, is not additive: a document without [settings] is reset to
    the defaults, the stored context included. *)
Remark verifySettings_resets_context :
  Samples.legacyStore !! "userContext"%string = Some (JStr (js "CS grad"))
  /\ Background.storage
       (Background.verifySettings (Samples.silentTab true)
          (Samples.worldWith Samples.legacyStore)).1 !! "userContext"%string
     = Some (JStr [])
  /\ Background.storage
       (Background.verifySettings (Samples.silentTab true)
          (Samples.worldWith Samples.legacyStore)).1 !! "theme"%string
     = Some (JStr (js "dark")).
Proof. repeat split; by vm_compute. Qed.

(** ** The worker against a running content script *)

(** The script answers the probe and the delivery, so there is no
    injection; it does not know [showGenerateButton], so the icon click
    ends in a reload of the tab. *)
Example icon_click_on_live_tab :
  Background.history
    (@Background.handleIconClick Samples.sampleEngine
       (Samples.liveTab Samples.aboutHiPage) (Samples.linkedInTab 7)
       Samples.emptyWorld).1
  = [ Background.TabsGet 7;
      Background.TabsSendMessage 7 Background.ping;
      Background.TabsSendMessage 7 Background.showGenerateButton;
      Background.TabsReload 7 ].
Proof. by vm_compute. Qed.

Example logActivity_counts_from_nothing :
  Background.storage
    (@Background.logActivity Samples.sampleEngine (Samples.silentTab true)
       (JObj [("type"%string, JStr (js "messageGenerated"))])
       Samples.emptyWorld).1 !! "statistics"%string
  = Some (JObj [ ("messagesGenerated", JNum 1);
                 ("lastMessageGenerated",
                  JStr (js "2025-01-01T00:00:00.000Z")) ]%string).
Proof. by vm_compute. Qed.

Example saveSettings_merges :
  Background.storage
    (Background.saveSettings (Samples.silentTab true)
       (JObj [("userRole"%string, JStr (js "engineer"))])
       (Samples.worldWith Samples.legacyStore)).1 !! "userRole"%string
  = Some (JStr (js "engineer"))
  /\ Background.storage
       (Background.saveSettings (Samples.silentTab true)
          (JObj [("userRole"%string, JStr (js "engineer"))])
          (Samples.worldWith Samples.legacyStore)).1 !! "theme"%string
     = Some (JStr (js "dark")).
Proof. split; by vm_compute. Qed.

(** ** content.js: the address pattern *)

Section PatternFacts.

Import Content Regex.

Lemma Matches_Seq r1 r2 s :
  Matches (Seq r1 r2) s
  <-> exists s1 s2, s = s1 ++ s2 /\ Matches r1 s1 /\ Matches r2 s2.
Proof.
  split.
  - intros Hm. inversion Hm as [| |r1' r2' s1 s2 H1 H2| | | |]; subst. eauto.
  - intros (s1 & s2 & -> & H1 & H2). by constructor.
Qed.

Lemma Matches_Lit c s : Matches (Lit c) s <-> s = [c].
Proof.
  split.
  - intros Hm. inversion Hm as [|f x Hx| | | | |]; subst.
    apply N.eqb_eq in Hx. by subst.
  - intros ->. constructor. apply N.eqb_refl.
Qed.

Lemma Matches_Str p s : Matches (Str p) s <-> s = p.
Proof.
  revert s. induction p as [|c p IH]; intros s; simpl.
  - split; [intros Hm; by inversion Hm | intros ->; constructor].
  - split.
    + intros Hm. inversion Hm as [| |r1 r2 s1 s2 H1 H2| | | |]; subst.
      apply Matches_Lit in H1. apply IH in H2. by subst.
    + intros ->. apply (m_seq _ _ [c] p); [by apply Matches_Lit | by apply IH].
Qed.

Lemma Matches_Star_Class f s :
  Matches (Star (Class f)) s <-> forallb f s = true.
Proof.
  split.
  - intros Hm. remember (Star (Class f)) as r eqn:Er.
    induction Hm as [| | | | | r|r s1 s2 H1 _ H2 IH]; try discriminate.
    + done.
    + injection Er as ->. inversion H1 as [|g x Hx| | | | |]; subst.
      simpl. rewrite Hx. by apply IH.
  - induction s as [|c s IH]; simpl.
    + intros _. constructor.
    + rewrite andb_true_iff. intros [Hc Hs].
      apply (m_star_cons _ [c] s); [by constructor | by apply IH].
Qed.

Lemma Matches_Opt r s : Matches (Opt r) s <-> Matches r s \/ s = [].
Proof.
  split.
  - intros Hm. inversion Hm as [| | |r1 r2 s' H1|r1 r2 s' H2| |]; subst.
    + by left.
    + right. by inversion H2.
  - intros [Hm | ->]; [by apply m_alt_l | apply m_alt_r; constructor].
Qed.

Lemma Matches_query s :
  Matches (Opt (Seq (Lit 63) (Star Dot))) s
  <-> s = [] \/ exists q, s = 63 :: q
                          /\ forallb (fun x => negb (isLineTerminator x)) q = true.
Proof.
  rewrite Matches_Opt. split.
  - intros [Hm | ->]; [|by left]. right.
    inversion Hm as [| |r1 r2 s1 s2 H1 H2| | | |]; subst.
    apply Matches_Lit in H1. subst. apply Matches_Star_Class in H2. eauto.
  - intros [-> | [q [-> Hq]]]; [by right | left].
    apply (m_seq _ _ [63] q); [by apply Matches_Lit|].
    by apply Matches_Star_Class.
Qed.

Lemma Matches_tail s : Matches tailPattern s <-> matchTail s = true.
Proof.
  unfold tailPattern. split.
  - intros Hm. inversion Hm as [| |r1 r2 s1 s2 H1 H2| | | |]; subst.
    apply Matches_Opt in H1. apply Matches_query in H2.
    destruct H1 as [H1 | ->].
    + apply Matches_Lit in H1. subst.
      destruct H2 as [-> | [q [-> Hq]]]; simpl; auto.
    + destruct H2 as [-> | [q [-> Hq]]]; simpl; auto.
  - unfold matchTail. destruct s as [|c s]; simpl.
    + intros _. apply (m_seq _ _ [] []);
        [apply Matches_Opt; by right | apply Matches_query; by left].
    + destruct (c =? 47) eqn:Hc.
      * apply N.eqb_eq in Hc. subst. intros Hs.
        apply (m_seq _ _ [47] s); [apply Matches_Opt; left; by apply Matches_Lit|].
        apply Matches_query. destruct s as [|x q]; [by left|]. right.
        apply andb_true_iff in Hs as [Hx Hq]. apply N.eqb_eq in Hx. subst.
        eauto.
      * rewrite andb_true_iff. intros [Hx Hq]. apply N.eqb_eq in Hx. subst.
        apply (m_seq _ _ [] (63 :: s)); [apply Matches_Opt; by right|].
        apply Matches_query. eauto.
Qed.

Lemma dropSlug_app slug rest :
  forallb isSlugChar slug = true -> dropSlug (slug ++ rest) = dropSlug rest.
Proof.
  induction slug as [|c slug IH]; simpl; [done|].
  rewrite andb_true_iff. intros [-> Hs]. by apply IH.
Qed.

Lemma dropSlug_split s :
  exists slug, s = slug ++ dropSlug s /\ forallb isSlugChar slug = true.
Proof.
  induction s as [|c s [slug [Hs Hslug]]]; simpl.
  - by exists [].
  - destruct (isSlugChar c) eqn:Hc.
    + exists (c :: slug). simpl. rewrite Hc, Hslug. split; [|done]. by f_equal.
    + by exists [].
Qed.

Lemma matchTail_dropSlug s : matchTail s = true -> dropSlug s = s.
Proof.
  destruct s as [|c s]; simpl; [done|].
  unfold matchTail. destruct (c =? 47) eqn:Hc.
  - apply N.eqb_eq in Hc. by subst.
  - rewrite andb_true_iff. intros [Hx _]. apply N.eqb_eq in Hx. by subst.
Qed.

Lemma Matches_slug m :
  Matches (Seq (Plus (Class isSlugChar)) tailPattern) m <-> matchSlug m = true.
Proof.
  split.
  - intros Hm. inversion Hm as [| |r1 r2 s1 s2 H1 H2| | | |]; subst.
    inversion H1 as [| |r1 r2 t1 t2 Hc Hs| | | |]; subst.
    inversion Hc as [|f c Hc'| | | | |]; subst.
    apply Matches_Star_Class in Hs. apply Matches_tail in H2.
    simpl. rewrite Hc'. simpl.
    rewrite dropSlug_app by done. by rewrite matchTail_dropSlug.
  - destruct m as [|c m]; [done|]. unfold matchSlug.
    rewrite andb_true_iff. intros [Hc Ht].
    simpl in Ht. rewrite Hc in Ht.
    destruct (dropSlug_split m) as [slug [Hm Hslug]].
    rewrite Hm at 1.
    change (c :: slug ++ dropSlug m) with (([c] ++ slug) ++ dropSlug m).
    apply m_seq; [|by apply Matches_tail].
    apply m_seq; [by constructor | by apply Matches_Star_Class].
Qed.

Lemma Matches_profilePattern m :
  Matches profilePattern m
  <-> startsWith m (js "linkedin.com/in/") = true
      /\ matchSlug (drop 16 m) = true.
Proof.
  unfold profilePattern. fold tailPattern. split.
  - intros Hm. apply Matches_Seq in Hm as (s1 & s2 & -> & H1 & H2).
    apply Matches_Str in H1. subst. apply Matches_slug in H2.
    split; [apply startsWith_prefix; eauto | done].
  - intros [Hp Hs]. apply startsWith_prefix in Hp as [b ->].
    apply m_seq; [by apply Matches_Str | by apply Matches_slug].
Qed.

End PatternFacts.

Lemma profilePattern_test_testToEnd (url : jsstring) :
  Content.profilePattern_test url = true
  <-> Regex.testToEnd Regex.profilePattern url.
Proof.
  unfold Regex.testToEnd. induction url as [|c url IH].
  - split; [done|].
    intros (pre & m & Heq & Hm). symmetry in Heq.
    apply app_eq_nil in Heq as [-> ->].
    by apply Matches_profilePattern in Hm as [Hm _].
  - change (Content.profilePattern_test (c :: url))
      with ((startsWith (c :: url) (js "linkedin.com/in/")
             && Content.matchSlug (drop 16 (c :: url)))
            || Content.profilePattern_test url).
    rewrite orb_true_iff, andb_true_iff, IH. split.
    + intros [Hm | (pre & m & -> & Hm)].
      * exists [], (c :: url). split; [done|].
        by apply Matches_profilePattern.
      * by exists (c :: pre), m.
    + intros (pre & m & Heq & Hm). destruct pre as [|x pre].
      * left. simpl in Heq. subst m.
        by apply Matches_profilePattern in Hm.
      * right. injection Heq as -> ->. eauto.
Qed.

(** X1. The matcher [profilePattern_test] decides the regular
    expression of [isProfilePage]: it answers [true] exactly on the
    addresses with a suffix the pattern generates. The pattern is not
    tied to the start of the address, so whatever is put in front of a
    matching address matches too; and a match ends the address, so
    nothing but a slash and a query can follow the slug. *)
Theorem profilePattern_test_decides_the_pattern (url : jsstring) :
  (Content.profilePattern_test url = true
   <-> Regex.testToEnd Regex.profilePattern url)
  /\ (forall before,
        Content.profilePattern_test url = true ->
        Content.profilePattern_test (before ++ url) = true)
  /\ (Content.profilePattern_test url = true ->
      exists before slug rest,
        url = before ++ js "linkedin.com/in/" ++ slug ++ rest
        /\ slug <> []
        /\ forallb Content.isSlugChar slug = true
        /\ Content.matchTail rest = true).
Proof.
  split; [apply profilePattern_test_testToEnd|]. split.
  - intros before Hm. apply profilePattern_test_testToEnd.
    apply profilePattern_test_testToEnd in Hm as (pre & m & -> & Hm).
    exists (before ++ pre), m. by rewrite app_assoc.
  - intros Hm.
    apply profilePattern_test_testToEnd in Hm as (pre & m & -> & Hm).
    apply Matches_profilePattern in Hm as [Hp Hs].
    apply startsWith_prefix in Hp as [b ->].
    change (drop 16 (js "linkedin.com/in/" ++ b)) with b in Hs.
    destruct b as [|c b]; [done|].
    unfold Content.matchSlug in Hs. apply andb_true_iff in Hs as [Hc Ht].
    destruct (dropSlug_split (c :: b)) as [slug [Hb Hslug]].
    exists pre, slug, (Content.dropSlug (c :: b)).
    split; [by rewrite <- Hb|]. split; [|done].
    intros ->. simpl in Hb. simpl in Hb, Ht. rewrite Hc in Hb.
    rewrite Hc in Ht. rewrite <- Hb in Ht. simpl in Ht.
    unfold Content.matchTail in Ht.
    destruct (c =? 47) eqn:H47.
    + apply N.eqb_eq in H47. by subst.
    + apply andb_true_iff in Ht as [H63 _]. apply N.eqb_eq in H63. by subst.
Qed.

(** ** Trimming *)

Lemma trimStart_suffix s :
  exists ws, s = ws ++ trimStart s /\ forallb isWhiteSpace ws = true.
Proof.
  induction s as [|c s [ws [Hs Hws]]]; simpl.
  - by exists [].
  - destruct (isWhiteSpace c) eqn:Hc.
    + exists (c :: ws). simpl. rewrite Hc, Hws. split; [|done]. by f_equal.
    + by exists [].
Qed.

Lemma trimStart_head s c :
  head (trimStart s) = Some c -> isWhiteSpace c = false.
Proof.
  induction s as [|x s IH]; simpl; [done|].
  destruct (isWhiteSpace x) eqn:Hx; [done|].
  simpl. by intros [= <-].
Qed.

Lemma trimStart_fixed s :
  (forall c, head s = Some c -> isWhiteSpace c = false) -> trimStart s = s.
Proof.
  destruct s as [|x s]; simpl; [done|].
  intros Hh. by rewrite (Hh x).
Qed.

Lemma head_app_nonempty (a b : jsstring) : a <> [] -> head (a ++ b) = head a.
Proof. by destruct a. Qed.

(** What [trim] returns has no white space at either end. *)
Lemma trim_ends s :
  (forall c, head (trim s) = Some c -> isWhiteSpace c = false)
  /\ (forall c, head (rev (trim s)) = Some c -> isWhiteSpace c = false).
Proof.
  unfold trim, trimEnd.
  destruct (trimStart_suffix (rev (trimStart s))) as [ws [Hrev _]].
  split.
  - intros c Hc. apply (trimStart_head s).
    rewrite <- (rev_involutive (trimStart s)), Hrev, rev_app_distr.
    destruct (rev (trimStart (rev (trimStart s)))) eqn:Hu; [done|].
    rewrite head_app_nonempty by done. by rewrite <- Hc.
  - intros c. rewrite rev_involutive. apply trimStart_head.
Qed.

Lemma trim_idempotent s : trim (trim s) = trim s.
Proof.
  destruct (trim_ends s) as [Hhead Hlast].
  unfold trim at 1. rewrite (trimStart_fixed (trim s)) by done.
  unfold trimEnd. rewrite (trimStart_fixed (rev (trim s))) by done.
  apply rev_involutive.
Qed.

Lemma split_space_0_nonempty s c :
  head s = Some c -> isWhiteSpace c = false -> split_space_0 s <> [].
Proof.
  destruct s as [|x s]; simpl; [done|].
  intros [= ->] Hc. destruct (c =? 32) eqn:H32; [|done].
  apply N.eqb_eq in H32. by subst.
Qed.

Lemma split_space_0_no_space s : Forall (fun c => c <> 32) (split_space_0 s).
Proof.
  induction s as [|x s IH]; simpl; [constructor|].
  destruct (x =? 32) eqn:Hx; [constructor|].
  constructor; [by apply N.eqb_neq | done].
Qed.

(** ** content.js: what a profile holds *)

Section ProfileFacts.

Import Content Session.

Context `{Engine}.

Lemma FirstMatch_Some_trim d sels t :
  FirstMatch d sels (Some t) -> exists el, t = trim (textContent el).
Proof.
  intros Hm. remember (Some t) as r eqn:Er.
  induction Hm as [|s rest el Hq Hne|s rest r Hall Hr IH];
    [done | injection Er as <-; eauto | by apply IH].
Qed.

(** A plain extractor returns its default or a trimmed, non-empty
    text. *)
Lemma firstText_plain d sels dflt :
  exists t, firstText d sels (fun t => t) dflt = Ok t
            /\ (t = dflt \/ (t <> [] /\ trim t = t)).
Proof.
  destruct (firstText_FirstMatch d sels (fun t => t) dflt) as [r [Hr ->]].
  destruct r as [t|]; [|by eauto].
  exists t. split; [done|]. right.
  split; [by apply (FirstMatch_Some_nonempty d sels)|].
  destruct (FirstMatch_Some_trim d sels t Hr) as [el ->].
  apply trim_idempotent.
Qed.

Lemma extractName_shape d :
  exists name, extractName d = Ok name /\ name <> [] /\ trim name = name.
Proof.
  destruct (firstText_plain d nameSelectors (js "there")) as [t [Ht Hs]].
  exists t. split; [done|].
  destruct Hs as [-> | [Hne Htrim]]; [by vm_compute | done].
Qed.

Lemma extractProfileData_total d :
  exists name headline company location about experience industry,
    extractProfileData d
    = Ok (JObj [ ("name", JStr name); ("headline", JStr headline);
                 ("company", JStr company); ("location", JStr location);
                 ("about", JStr about); ("experience", JStr experience);
                 ("industry", JStr industry) ]%string)
    /\ extractName d = Ok name /\ extractHeadline d = Ok headline
    /\ extractCompany d = Ok company /\ extractLocation d = Ok location
    /\ extractAbout d = Ok about /\ extractExperience d = Ok experience
    /\ extractIndustry d = Ok industry.
Proof.
  unfold extractProfileData, extractIndustry, industryText.
  destruct (firstText_FirstMatch d nameSelectors (fun t => t) (js "there"))
    as [rn [_ Hn]].
  destruct (firstText_FirstMatch d headlineSelectors (fun t => t) [])
    as [rh [_ Hh]].
  destruct (firstText_FirstMatch d companySelectors (fun t => t) [])
    as [rc [_ Hc]].
  destruct (firstText_FirstMatch d locationSelectors (fun t => t) [])
    as [rl [_ Hl]].
  destruct (firstText_FirstMatch d aboutSelectors
              (fun t => substring0 200 t ++ js "...") [])
    as [ra [_ Ha]].
  unfold extractName, extractHeadline, extractCompany, extractLocation,
    extractAbout, extractExperience.
  rewrite Hn, Hh, Hc, Hl, Ha. simpl.
  by repeat eexists.
Qed.

Lemma isProfilePage_iff page :
  isProfilePage page = true
  <-> Regex.testToEnd Regex.profilePattern (href page)
      /\ exists selector,
           In selector headingSelectors
           /\ is_Some (querySelector (document page) selector).
Proof.
  unfold isProfilePage.
  rewrite andb_true_iff, !orb_true_iff, !bool_decide_eq_true,
    profilePattern_test_testToEnd.
  split; intros [Hurl Hh]; (split; [done|]).
  - destruct Hh as [[Hh | Hh] | Hh]; eexists; (split; [|exact Hh]);
      simpl; tauto.
  - destruct Hh as [selector [[<- | [<- | [<- | []]]] Hh]]; tauto.
Qed.

End ProfileFacts.

(** X2. The answer to a profile request. The page counts as a profile
    exactly when its address matches the pattern and one of the three
    heading selectors finds a node. On any other page the answer is the
    failure [Not a LinkedIn profile page]. On a profile page the answer
    is always a success that carries the seven fields, each a string:
    extraction never throws, so the [catch] of
    [getProfileDataForMessage] is never entered. *)
Theorem getProfileDataForMessage_answer `{Engine} (page : Content.Page) :
  (Content.isProfilePage page = true
   <-> Regex.testToEnd Regex.profilePattern (Content.href page)
       /\ exists selector,
            In selector Session.headingSelectors
            /\ is_Some (Content.querySelector (Content.document page) selector))
  /\ (Content.isProfilePage page = false ->
      Content.getProfileDataForMessage page
      = failure (js "Not a LinkedIn profile page"))
  /\ (Content.isProfilePage page = true ->
      exists name headline company location about experience industry,
        Content.getProfileDataForMessage page
        = JObj [ ("success", JBool true);
                 ("profileData",
                  JObj [ ("name", JStr name); ("headline", JStr headline);
                         ("company", JStr company);
                         ("location", JStr location);
                         ("about", JStr about);
                         ("experience", JStr experience);
                         ("industry", JStr industry) ]) ]%string
        /\ Content.extractProfileData (Content.document page)
           = Ok (JObj [ ("name", JStr name); ("headline", JStr headline);
                        ("company", JStr company);
                        ("location", JStr location);
                        ("about", JStr about);
                        ("experience", JStr experience);
                        ("industry", JStr industry) ]%string)).
Proof.
  split; [apply isProfilePage_iff|]. unfold Content.getProfileDataForMessage.
  split.
  - by intros ->.
  - intros ->. simpl.
    destruct (extractProfileData_total (Content.document page))
      as (n & h & c & l & a & e & i & -> & _).
    by repeat eexists.
Qed.

(** On the sample profile page the answer carries the extracted
    fields. *)
Lemma sample_profile_page_answer :
  exists name headline company location about experience industry,
    @Content.getProfileDataForMessage Samples.sampleEngine Samples.aboutHiPage
    = JObj [ ("success", JBool true);
             ("profileData",
              JObj [ ("name", JStr name); ("headline", JStr headline);
                     ("company", JStr company);
                     ("location", JStr location);
                     ("about", JStr about);
                     ("experience", JStr experience);
                     ("industry", JStr industry) ]) ]%string
    /\ @Content.extractProfileData Samples.sampleEngine
         (Content.document Samples.aboutHiPage)
       = Ok (JObj [ ("name", JStr name); ("headline", JStr headline);
                    ("company", JStr company);
                    ("location", JStr location);
                    ("about", JStr about);
                    ("experience", JStr experience);
                    ("industry", JStr industry) ]%string).
Proof.
  apply (proj2 (proj2 (@getProfileDataForMessage_answer Samples.sampleEngine
                         Samples.aboutHiPage))).
  reflexivity.
Defined.

(** X3. The text fields of a profile are trimmed: the name, headline,
    company and location come out with no white space at either end, so
    trimming them again changes nothing; and the name is never empty,
    whatever the page. *)
Theorem extracted_fields_are_trimmed `{Engine} (d : Content.DOM) :
  exists name headline company location,
    Content.extractName d = Ok name
    /\ Content.extractHeadline d = Ok headline
    /\ Content.extractCompany d = Ok company
    /\ Content.extractLocation d = Ok location
    /\ name <> []
    /\ trim name = name /\ trim headline = headline
    /\ trim company = company /\ trim location = location
    /\ (forall c, head name = Some c -> isWhiteSpace c = false)
    /\ (forall c, last name = Some c -> isWhiteSpace c = false).
Proof.
  destruct (extractName_shape d) as (name & Hn & Hne & Htn).
  destruct (firstText_plain d Content.headlineSelectors []) as (h & Hh & Hth).
  destruct (firstText_plain d Content.companySelectors []) as (c & Hc & Htc).
  destruct (firstText_plain d Content.locationSelectors []) as (l & Hl & Htl).
  exists name, h, c, l.
  assert (Hdflt : forall t : jsstring,
             t = [] \/ (t <> [] /\ trim t = t) -> trim t = t).
  { intros t [-> | [_ Ht]]; [reflexivity | done]. }
  repeat (split; [by auto|]).
  destruct (trim_ends name) as [Hhead Hlast]. rewrite Htn in Hhead, Hlast.
  split; [done|]. intros x Hx. apply Hlast.
  apply last_Some in Hx as [l' ->]. by rewrite rev_app_distr.
Qed.

(** ** content.js: how much of the page is read *)

Section FrameFacts.

Import Content Session.

Context `{Engine}.

Lemma head_take_2 {A} (l : list A) : head (take 2 l) = head l.
Proof. by destruct l as [|a [|b l]]. Qed.

Lemma sameFirstTwo_querySelector d d' selector :
  sameFirstTwo d d' -> querySelector d selector = querySelector d' selector.
Proof.
  intros Hsame. unfold querySelector.
  by rewrite <- (head_take_2 (d selector)), Hsame, head_take_2.
Qed.

Lemma firstText_frame d d' sels found dflt :
  sameFirstTwo d d' ->
  firstText d sels found dflt = firstText d' sels found dflt.
Proof.
  intros Hsame. induction sels as [|s rest IH]; simpl; [done|].
  by rewrite (sameFirstTwo_querySelector d d' s Hsame), IH.
Qed.

Lemma experienceLoop_frame d d' sels :
  sameFirstTwo d d' -> experienceLoop d sels = experienceLoop d' sels.
Proof.
  intros Hsame. induction sels as [|s rest IH]; simpl; [done|].
  unfold querySelectorAll. rewrite IH, (Hsame s).
  assert (Hlen : (0 <? length (d s))%nat = (0 <? length (d' s))%nat).
  { pose proof (Hsame s) as Hs.
    destruct (d s) as [|a [|b l]], (d' s) as [|a' [|b' l']]; done. }
  by rewrite Hlen.
Qed.

Lemma extractProfileData_frame d d' :
  sameFirstTwo d d' -> extractProfileData d = extractProfileData d'.
Proof.
  intros Hsame.
  unfold extractProfileData, extractIndustry, industryText, extractName,
    extractHeadline, extractCompany, extractLocation, extractAbout,
    extractExperience.
  rewrite (experienceLoop_frame d d' _ Hsame).
  by rewrite !(firstText_frame d d' _ _ _ Hsame).
Qed.

Lemma experienceLoop_first d pre selector post :
  (forall s, In s pre -> d s = []) ->
  experienceLoop d (pre ++ selector :: post)
  = match d selector with
    | [] => experienceLoop d post
    | [e1] => trim (textContent e1)
    | e1 :: e2 :: _ =>
        trim (textContent e1) ++ js "; " ++ trim (textContent e2)
    end.
Proof.
  intros Hpre. induction pre as [|s pre IH]; simpl.
  - unfold querySelectorAll. by destruct (d selector) as [|e1 [|e2 more]].
  - unfold querySelectorAll. rewrite (Hpre s) by by left. simpl.
    apply IH. intros s' Hs'. apply Hpre. by right.
Qed.

End FrameFacts.

(** X4. Extraction reads at most the first two nodes a selector finds:
    two pages with the same address whose documents agree on the first
    two nodes of every selector get the same answer to a profile
    request. *)
Theorem profile_depends_on_first_two_nodes `{Engine} (page page' : Content.Page) :
  Content.href page = Content.href page' ->
  Session.sameFirstTwo (Content.document page) (Content.document page') ->
  Content.getProfileDataForMessage page
  = Content.getProfileDataForMessage page'
  /\ Content.extractProfileData (Content.document page)
     = Content.extractProfileData (Content.document page').
Proof.
  intros Hhref Hsame. split; [|by apply extractProfileData_frame].
  unfold Content.getProfileDataForMessage, Content.isProfilePage.
  rewrite Hhref, !(sameFirstTwo_querySelector _ _ _ Hsame).
  by rewrite (extractProfileData_frame _ _ Hsame).
Qed.

(** Replacing the third experience entry of a page changes nothing. *)
Lemma third_job_is_not_read :
  @Content.getProfileDataForMessage Samples.sampleEngine Session.threeJobsPage
  = @Content.getProfileDataForMessage Samples.sampleEngine
      (Session.otherTail Session.threeJobsPage)
  /\ @Content.extractProfileData Samples.sampleEngine
       (Content.document Session.threeJobsPage)
     = @Content.extractProfileData Samples.sampleEngine
         (Content.document (Session.otherTail Session.threeJobsPage)).
Proof.
  apply (@profile_depends_on_first_two_nodes Samples.sampleEngine
           Session.threeJobsPage (Session.otherTail Session.threeJobsPage)).
  - reflexivity.
  - intros selector. cbn.
    repeat destruct (str_eqb selector _); reflexivity.
Defined.

(** X5. The experience field is decided by the first selector of its
    list that finds any node, whatever the node holds: the trimmed text
    of that selector's first node, joined by a semicolon and a space
    with that of its second node when there is one. A blank first node
    is not skipped, so the field can be empty, or begin or end with the
    separator, while a later selector has text. *)
Theorem extractExperience_first_selector_with_nodes
        (d : Content.DOM) (pre post : list jsstring) (selector : jsstring)
        (e1 : Content.Element) (more : list Content.Element) :
  Content.experienceSelectors = pre ++ selector :: post ->
  (forall s, In s pre -> d s = []) ->
  d selector = e1 :: more ->
  Content.extractExperience d
  = Ok (match more with
        | [] => trim (Content.textContent e1)
        | e2 :: _ =>
            trim (Content.textContent e1) ++ js "; "
            ++ trim (Content.textContent e2)
        end).
Proof.
  intros Hsels Hpre Hd. unfold Content.extractExperience.
  rewrite Hsels, (experienceLoop_first d pre selector post Hpre), Hd.
  by destruct more.
Qed.

(** A blank node under the first selector hides the text under the
    third. *)
Lemma blank_experience_node_wins :
  Content.extractExperience (Content.document Session.blankExperiencePage)
  = Ok [].
Proof.
  apply (extractExperience_first_selector_with_nodes
           (Content.document Session.blankExperiencePage)
           [] (List.tl Content.experienceSelectors)
           (js ".experience-section .pv-entity__summary-info")
           {| Content.textContent := js "   " |} []);
    [reflexivity | intros s [] | reflexivity].
Defined.

(** ** content.js: the listener over a run of messages *)

Section SessionFacts.

Import Content Session.

Context `{Engine}.

Lemma getProfileDataForMessage_cases page :
  getProfileDataForMessage page = failure (js "Not a LinkedIn profile page")
  \/ exists profileData,
       getProfileDataForMessage page
       = JObj [ ("success", JBool true);
                ("profileData", profileData) ]%string.
Proof.
  unfold getProfileDataForMessage.
  destruct (isProfilePage page); simpl; [|by left]. right.
  destruct (extractProfileData_total (document page))
    as (n & h & c & l & a & e & i & -> & _).
  eauto.
Qed.

(** One message to a consistent script. *)
Lemma onMessage_step page st request :
  consistent st ->
  exists st' r,
    onMessage page st request = (st', [r])
    /\ consistent st'
    /\ (isContentScriptReady st = true -> isContentScriptReady st' = true)
    /\ r <> failure (js "Assistant not initialized")
    /\ (action request <> JStr (js "ping") ->
        isContentScriptReady st' = true).
Proof.
  intros Hwf. unfold onMessage.
  destruct (isStr (js "ping") (action request)) eqn:Hp.
  { apply isStr_true in Hp. eexists _, _. split; [done|].
    split; [done|]. split; [done|]. split; [done|]. by intros []. }
  set (st1 := if negb (isContentScriptReady st)
              then initializeContentScript st else st).
  assert (Hready : isContentScriptReady st1 = true).
  { unfold st1, initializeContentScript.
    by destruct (isContentScriptReady st) eqn:Hst. }
  assert (Ha : is_Some (linkedinAssistant st1)).
  { unfold st1, initializeContentScript.
    destruct (isContentScriptReady st) eqn:Hst; simpl; [by apply Hwf | by eexists]. }
  destruct Ha as [assistant Ha]. rewrite Ha.
  destruct (isStr (js "getProfileData") (action request)).
  { eexists _, _. split; [done|]. split; [by intros _; eexists|].
    split; [done|]. split; [|done].
    destruct (getProfileDataForMessage_cases page) as [-> | [pd ->]];
      [by vm_compute | done]. }
  destruct (isStr (js "settingsUpdated") (action request)).
  { eexists _, _. split; [done|]. split; [by intros _; eexists|].
    split; [done|]. split; [done|]. done. }
  eexists _, _. split; [done|]. split; [by intros _; eexists|].
  split; [done|]. split; [by vm_compute | done].
Qed.

End SessionFacts.

(** X6. The listener over any run of messages, started in a
    consistent state (a ready script has its assistant; the initial
    state is one): every message gets exactly one answer; the state
    stays consistent; a ready script stays ready; the answer
    [Assistant not initialized] is never sent; and after a run with a
    message other than a ping the script is ready. *)
Theorem listener_run_invariant `{Engine} (st : Content.ContentState)
        (inbox : list (Content.Page * Request)) :
  Session.consistent st ->
  length (Session.deliverAll st inbox).2 = length inbox
  /\ Session.consistent (Session.deliverAll st inbox).1
  /\ (Content.isContentScriptReady st = true ->
      Content.isContentScriptReady (Session.deliverAll st inbox).1 = true)
  /\ ~ In (failure (js "Assistant not initialized"))
          (Session.deliverAll st inbox).2
  /\ (Exists (fun m => action m.2 <> JStr (js "ping")) inbox ->
      Content.isContentScriptReady (Session.deliverAll st inbox).1 = true).
Proof.
  revert st. induction inbox as [|[page request] rest IH]; intros st Hwf.
  { simpl. split; [done|]. split; [done|]. split; [done|].
    split; [tauto|]. intros Hex. by inversion Hex. }
  destruct (onMessage_step page st request Hwf)
    as (st1 & r & Hstep & Hwf1 & Hkeep & Hr & Hready).
  destruct (IH st1 Hwf1) as (Hlen & Hwf2 & Hkeep2 & Hnever & Hex2).
  simpl. rewrite Hstep.
  destruct (Session.deliverAll st1 rest) as [st2 answers] eqn:Hrest.
  simpl in *. split; [by rewrite Hlen|]. split; [done|].
  split; [by auto|]. split.
  - intros [Heq | Hin]; [by apply Hr | by apply Hnever].
  - intros Hex. apply Exists_cons in Hex as [Hnp | Hex]; [|by auto].
    apply Hkeep2. by apply Hready.
Qed.

(** A fresh script that gets a ping and then a profile request. *)
Lemma fresh_script_ping_then_request :
  length (@Session.deliverAll Samples.sampleEngine Content.initialState
            [ (Samples.aboutHiPage, toRequest Background.ping);
              (Samples.aboutHiPage, toRequest Popup.getProfileData) ]).2
  = 2%nat
  /\ Session.consistent
       (@Session.deliverAll Samples.sampleEngine Content.initialState
          [ (Samples.aboutHiPage, toRequest Background.ping);
            (Samples.aboutHiPage, toRequest Popup.getProfileData) ]).1
  /\ (Content.isContentScriptReady Content.initialState = true ->
      Content.isContentScriptReady
        (@Session.deliverAll Samples.sampleEngine Content.initialState
           [ (Samples.aboutHiPage, toRequest Background.ping);
             (Samples.aboutHiPage, toRequest Popup.getProfileData) ]).1
      = true)
  /\ ~ In (failure (js "Assistant not initialized"))
          (@Session.deliverAll Samples.sampleEngine Content.initialState
             [ (Samples.aboutHiPage, toRequest Background.ping);
               (Samples.aboutHiPage, toRequest Popup.getProfileData) ]).2
  /\ (Exists (fun m => action m.2 <> JStr (js "ping"))
             [ (Samples.aboutHiPage, toRequest Background.ping);
               (Samples.aboutHiPage, toRequest Popup.getProfileData) ] ->
      Content.isContentScriptReady
        (@Session.deliverAll Samples.sampleEngine Content.initialState
           [ (Samples.aboutHiPage, toRequest Background.ping);
             (Samples.aboutHiPage, toRequest Popup.getProfileData) ]).1
      = true).
Proof.
  apply (@listener_run_invariant Samples.sampleEngine Content.initialState).
  unfold Session.consistent. simpl. discriminate.
Defined.

(** ** The prompt, for every profile *)

Lemma includes_skip (a s p : jsstring) :
  includes s p = true -> includes (a ++ s) p = true.
Proof.
  rewrite !includes_infix. intros (x & y & ->).
  exists (a ++ x), y. by rewrite <- app_assoc.
Qed.

Lemma includes_start (p b : jsstring) : includes (p ++ b) p = true.
Proof. apply includes_infix. by exists [], b. Qed.

Lemma Ok_inj {A} (a b : A) : Ok a = Ok b -> a = b.
Proof. congruence. Qed.

Lemma bind_Ok {A B} (f : A -> Res B) (a : A) : mbind f (Ok a) = f a.
Proof. reflexivity. Qed.

Lemma bind_Throw {A B} (f : A -> Res B) (e : Exn) : mbind f (Throw e) = Throw e.
Proof. reflexivity. Qed.

Section PromptFacts.

Import Background.

Context `{Engine}.

(** Walk down the template to the piece that begins with [lit]. *)
Ltac skip_to lit :=
  let target := constr:(js lit) in
  repeat match goal with
         | |- includes (?a ++ _) _ = true =>
             tryif constr_eq a target then fail else apply includes_skip
         end.

(** What [createPrompt] builds once the first name and the three texts
    are known. *)
Lemma createPrompt_includes profileData name firstName ht ct it prompt :
  getProp "name" profileData = Ok name ->
  splitFirst (if truthy name then name else JStr (js "there"))
  = Ok firstName ->
  toStr (optChain "headline" profileData) = Ok ht ->
  toStr (optChain "company" profileData) = Ok ct ->
  toStr (optChain "industry" profileData) = Ok it ->
  createPrompt profileData = Ok prompt ->
  includes prompt (js "Hi " ++ firstName ++ js ",") = true
  /\ includes prompt
       (js "(headline: " ++ ht ++ js "; company: " ++ ct
        ++ js "; industry: " ++ it ++ js ").") = true.
Proof.
  intros Hname Hfirst Hh Hc Hi. unfold createPrompt.
  assert (Hget : forall k, getProp k profileData = Ok (optChain k profileData)).
  { intros k. destruct profileData; try done; discriminate Hname. }
  rewrite Hname. cbn [mbind res_bind]. rewrite Hfirst. cbn [mbind res_bind].
  rewrite !Hget. cbn [mbind res_bind]. rewrite Hh, Hc, Hi. cbn [mbind res_bind].
  intros Hp. apply Ok_inj in Hp. subst prompt. split.
  - skip_to "Hi "%string. apply includes_infix. eexists [], _.
    rewrite <- !app_assoc. reflexivity.
  - change (js " Mention ONE specific fact about their work, company, or field (headline: ")
      with (js " Mention ONE specific fact about their work, company, or field "
            ++ js "(headline: ").
    rewrite <- (app_assoc _ (js "(headline: ")).
    skip_to "(headline: "%string. apply includes_infix. eexists [], _.
    rewrite <- !app_assoc. reflexivity.
Qed.

Lemma getProp_not_nullish k v :
  v <> JUndefined -> v <> JNull -> getProp k v = Ok (optChain k v).
Proof. by destruct v. Qed.

(** Reading a prompt back: what must have held for it to be built. *)
Lemma createPrompt_Ok_inv profileData prompt :
  createPrompt profileData = Ok prompt ->
  profileData <> JUndefined /\ profileData <> JNull
  /\ exists firstName ht ct it,
       splitFirst (if truthy (optChain "name" profileData)
                   then optChain "name" profileData
                   else JStr (js "there")) = Ok firstName
       /\ toStr (optChain "headline" profileData) = Ok ht
       /\ toStr (optChain "company" profileData) = Ok ct
       /\ toStr (optChain "industry" profileData) = Ok it
       /\ includes prompt (js "Hi " ++ firstName ++ js ",") = true
       /\ includes prompt
            (js "(headline: " ++ ht ++ js "; company: " ++ ct
             ++ js "; industry: " ++ it ++ js ").") = true.
Proof.
  intros Hp.
  assert (Hu : profileData <> JUndefined) by (intros ->; discriminate Hp).
  assert (Hnull : profileData <> JNull) by (intros ->; discriminate Hp).
  split; [done|]. split; [done|].
  pose proof (getProp_not_nullish "name" profileData Hu Hnull) as Hname.
  pose proof Hp as Hq. unfold createPrompt in Hq.
  rewrite Hname in Hq. cbn [mbind res_bind] in Hq.
  destruct (splitFirst _) as [firstName|e] eqn:Hfirst; [|discriminate Hq].
  cbn [mbind res_bind] in Hq.
  rewrite !(getProp_not_nullish _ profileData Hu Hnull) in Hq.
  cbn [mbind res_bind] in Hq.
  destruct (toStr (optChain "headline" profileData)) as [ht|e] eqn:Hh;
    [|discriminate Hq].
  cbn [mbind res_bind] in Hq.
  destruct (toStr (optChain "company" profileData)) as [ct|e] eqn:Hc;
    [|discriminate Hq].
  cbn [mbind res_bind] in Hq.
  destruct (toStr (optChain "industry" profileData)) as [it|e] eqn:Hi;
    [|discriminate Hq].
  clear Hq. exists firstName, ht, ct, it.
  repeat (split; [done|]).
  by apply (createPrompt_includes profileData (optChain "name" profileData)
              firstName ht ct it prompt).
Qed.

(** And the way there: the prompt is built whenever the name can be
    split and the three fields print. *)
Lemma createPrompt_Ok_intro profileData firstName ht ct it :
  profileData <> JUndefined -> profileData <> JNull ->
  splitFirst (if truthy (optChain "name" profileData)
              then optChain "name" profileData
              else JStr (js "there")) = Ok firstName ->
  toStr (optChain "headline" profileData) = Ok ht ->
  toStr (optChain "company" profileData) = Ok ct ->
  toStr (optChain "industry" profileData) = Ok it ->
  exists prompt, createPrompt profileData = Ok prompt.
Proof.
  intros Hu Hnull Hfirst Hh Hc Hi. unfold createPrompt.
  rewrite (getProp_not_nullish "name" profileData Hu Hnull).
  cbn [mbind res_bind]. rewrite Hfirst. cbn [mbind res_bind].
  rewrite !(getProp_not_nullish _ profileData Hu Hnull).
  cbn [mbind res_bind]. rewrite Hh, Hc, Hi. cbn [mbind res_bind]. eauto.
Qed.

Lemma createPrompt_reads_four_fields profileData profileData' :
  (forall k, In k ["name"; "headline"; "company"; "industry"]%string ->
             getProp k profileData = getProp k profileData') ->
  createPrompt profileData = createPrompt profileData'.
Proof.
  intros Hsame. unfold createPrompt.
  rewrite (Hsame "name"%string), (Hsame "headline"%string),
    (Hsame "company"%string), (Hsame "industry"%string);
    simpl; tauto.
Qed.

End PromptFacts.

(** X7. The greeting of the prompt, for every profile. A profile that
    is [undefined] or [null] makes [createPrompt] throw. A name that is
    a non-empty string is greeted by what precedes its first space; a
    name that is missing or falsy is greeted as [there]; a truthy name
    that is not a string makes [createPrompt] throw, [split] not being
    a function of it. Whenever the prompt is built it quotes the three
    texts of the headline, company and industry, a missing field as
    [undefined]. *)
Theorem createPrompt_greeting `{Engine} (profileData : JsVal) :
  (profileData = JUndefined \/ profileData = JNull ->
   Background.createPrompt profileData = Throw (Error (nullishRead "name")))
  /\ (forall n prompt,
        optChain "name" profileData = JStr n -> n <> [] ->
        Background.createPrompt profileData = Ok prompt ->
        includes prompt (js "Hi " ++ split_space_0 n ++ js ",") = true)
  /\ (forall prompt,
        truthy (optChain "name" profileData) = false ->
        Background.createPrompt profileData = Ok prompt ->
        includes prompt (js "Hi there,") = true)
  /\ (profileData <> JUndefined -> profileData <> JNull ->
      truthy (optChain "name" profileData) = true ->
      (forall n, optChain "name" profileData <> JStr n) ->
      Background.createPrompt profileData
      = Throw (Error (notAFunction "split")))
  /\ (forall ht ct it,
        profileData <> JUndefined -> profileData <> JNull ->
        (truthy (optChain "name" profileData) = false
         \/ exists n, optChain "name" profileData = JStr n) ->
        Background.toStr (optChain "headline" profileData) = Ok ht ->
        Background.toStr (optChain "company" profileData) = Ok ct ->
        Background.toStr (optChain "industry" profileData) = Ok it ->
        exists prompt,
          Background.createPrompt profileData = Ok prompt
          /\ includes prompt
               (js "(headline: " ++ ht ++ js "; company: " ++ ct
                ++ js "; industry: " ++ it ++ js ").") = true)
  /\ Background.toStr JUndefined = Ok (js "undefined").
Proof.
  split; [|split; [|split; [|split; [|split]]]].
  - by intros [-> | ->].
  - intros n prompt Hn Hne Hp.
    apply createPrompt_Ok_inv in Hp
      as (_ & _ & first & ht & ct & it & Hfirst & _ & _ & _ & Hhi & _).
    rewrite Hn in Hfirst. destruct n as [|c n]; [done|].
    simpl in Hfirst. injection Hfirst as <-. exact Hhi.
  - intros prompt Hfalsy Hp.
    apply createPrompt_Ok_inv in Hp
      as (_ & _ & first & ht & ct & it & Hfirst & _ & _ & _ & Hhi & _).
    rewrite Hfalsy in Hfirst. injection Hfirst as <-. exact Hhi.
  - intros Hu Hnull Htruthy Hns. unfold Background.createPrompt.
    rewrite (getProp_not_nullish "name" profileData Hu Hnull).
    cbn [mbind res_bind]. rewrite Htruthy.
    destruct (optChain "name" profileData) as [| | | |n| |] eqn:Hn;
      try done.
    by destruct (Hns n).
  - intros ht ct it Hu Hnull Hname Hh Hc Hi.
    assert (Hfirst : exists firstName,
               Background.splitFirst
                 (if truthy (optChain "name" profileData)
                  then optChain "name" profileData
                  else JStr (js "there")) = Ok firstName).
    { destruct Hname as [-> | [n ->]]; [by eexists|].
      destruct (truthy (JStr n)); by eexists. }
    destruct Hfirst as [firstName Hfirst].
    destruct (createPrompt_Ok_intro profileData firstName ht ct it
                Hu Hnull Hfirst Hh Hc Hi) as [prompt Hp].
    exists prompt. split; [done|].
    apply createPrompt_Ok_inv in Hp
      as (_ & _ & first & ht' & ct' & it' & _ & Hh' & Hc' & Hi' & _ & Hq).
    congruence.
  - reflexivity.
Qed.

(** ** The generation client: what it reads and how it fails *)

(** X8. What reaches the API. The request is built from the profile's
    name, headline, company and industry and from nothing else: two
    requests whose profiles agree on these four fields are answered
    alike, whatever their user context, user role and other profile
    fields. *)
Theorem generation_reads_four_fields `{Engine} (net : Background.Network)
        (data data' profileData profileData' : JsVal) :
  Background.getProp "profileData" data = Ok profileData ->
  Background.getProp "profileData" data' = Ok profileData' ->
  (forall k, In k ["name"; "headline"; "company"; "industry"]%string ->
             Background.getProp k profileData
             = Background.getProp k profileData') ->
  Background.createPrompt profileData = Background.createPrompt profileData'
  /\ Background.handleGenerateMessage net data
     = Background.handleGenerateMessage net data'.
Proof.
  intros Hd Hd' Hsame.
  pose proof (createPrompt_reads_four_fields _ _ Hsame) as Hprompt.
  split; [done|]. unfold Background.handleGenerateMessage.
  rewrite Hd, Hd'. cbn [mbind res_bind]. by rewrite Hprompt.
Qed.

(** The recruiter's request for Ada's profile is answered as the
    graduate's. *)
Lemma user_context_is_not_sent :
  @Background.createPrompt Samples.sampleEngine Samples.adaProfile
  = @Background.createPrompt Samples.sampleEngine
      (optChain "profileData" Cases.adaDataElsewhere)
  /\ @Background.handleGenerateMessage Samples.sampleEngine
       (Samples.apiAnswers Samples.blockedBody) Samples.adaData
     = @Background.handleGenerateMessage Samples.sampleEngine
         (Samples.apiAnswers Samples.blockedBody) Cases.adaDataElsewhere.
Proof.
  apply (@generation_reads_four_fields Samples.sampleEngine
           (Samples.apiAnswers Samples.blockedBody)
           Samples.adaData Cases.adaDataElsewhere
           Samples.adaProfile
           (optChain "profileData" Cases.adaDataElsewhere));
    [reflexivity | reflexivity |].
  intros k [<- | [<- | [<- | [<- | []]]]]; reflexivity.
Defined.

(** X9. How a generation fails once the key is loaded and the prompt
    is built. A [fetch] that rejects, and a body that does not parse as
    JSON, give a failure with the error's own message. A status
    outside 2xx with a body that parses gives a failure whose message
    is [Google Gemini API error: ] followed by the body's
    [error.message] when that is a non-empty string and by the status
    text otherwise. None of these rejects the promise. *)
Theorem generation_transport_failures `{Engine} (net : Background.Network)
        (data profileData : JsVal) (key prompt : jsstring) :
  Background.loadApiKey net = Some key -> key <> [] ->
  Background.getProp "profileData" data = Ok profileData ->
  Background.createPrompt profileData = Ok prompt ->
  (forall e,
      Background.fetch net (Background.apiUrl key) prompt = Throw e ->
      Background.handleGenerateMessage net data
      = Ok (failure (errorMessage e)))
  /\ (forall response e,
         Background.fetch net (Background.apiUrl key) prompt = Ok response ->
         Background.json response = Throw e ->
         Background.handleGenerateMessage net data
         = Ok (failure (errorMessage e)))
  /\ (forall response body,
         Background.fetch net (Background.apiUrl key) prompt = Ok response ->
         Background.ok response = false ->
         Background.json response = Ok body ->
         Background.handleGenerateMessage net data
         = Ok (failure (Background.apiErrorMessage body response))
         /\ (forall err m,
                Background.error body = Some err ->
                Background.api_message err = Some m -> m <> [] ->
                Background.apiErrorMessage body response
                = js "Google Gemini API error: " ++ m)
         /\ (Background.error body = None ->
             Background.apiErrorMessage body response
             = js "Google Gemini API error: "
               ++ Background.statusText response)).
Proof.
  intros Hkey Hne Hdata Hprompt.
  unfold Background.handleGenerateMessage, Background.callGemini.
  rewrite Hkey. destruct key as [|c key]; [done|].
  rewrite Hdata. cbn [mbind res_bind]. rewrite Hprompt. cbn [mbind res_bind].
  split; [|split].
  - by intros e ->.
  - intros response e -> Hjson. cbn [mbind res_bind]. rewrite Hjson.
    by destruct (Background.ok response).
  - intros response body -> Hok Hjson. cbn [mbind res_bind].
    rewrite Hok, Hjson. split; [done|]. unfold Background.apiErrorMessage.
    split.
    + intros [em] m -> Hm Hmne. simpl in Hm. subst em. by destruct m.
    + by intros ->.
Qed.

(** An invalid key: the API answers 400 with its reason. *)
Lemma invalid_key_is_reported :
  @Background.handleGenerateMessage Samples.sampleEngine
     (Cases.apiRefuses (js "Bad Request") (Ok Cases.invalidKeyBody))
     Samples.adaData
  = Ok (failure (js "Google Gemini API error: API key not valid")).
Proof.
  destruct (@generation_transport_failures Samples.sampleEngine
              (Cases.apiRefuses (js "Bad Request") (Ok Cases.invalidKeyBody))
              Samples.adaData Samples.adaProfile (js "test-key")
              (match @Background.createPrompt Samples.sampleEngine
                       Samples.adaProfile with
               | Ok p => p
               | Throw _ => []
               end))
    as (_ & _ & Hstatus); [reflexivity | discriminate | reflexivity
                           | reflexivity |].
  destruct (Hstatus {| Background.ok := false;
                       Background.statusText := js "Bad Request";
                       Background.json := Ok Cases.invalidKeyBody |}
                    Cases.invalidKeyBody)
    as (Hfail & Hmsg & _); [reflexivity | reflexivity | reflexivity |].
  rewrite Hfail.
  rewrite (Hmsg {| Background.api_message := Some (js "API key not valid") |}
                (js "API key not valid"));
    [reflexivity | reflexivity | reflexivity | discriminate].
Defined.

Section GenerationEdges.

Import Background.

Context `{Engine}.
Variable chrome : Chrome.

(** X10. Before the [try]. Without a key ([loadApiKey] resolved to
    [null] or to an empty string) every request is answered with the
    failure that names the [.env] file, whatever its data, and nothing
    is fetched. With a key, data that is [undefined] or [null], and a
    profile the prompt cannot be built from, reject the promise of
    [handleGenerateMessage]: the prompt is built outside its [try]. The
    listener's [catch] then answers with a failure that carries the
    error's message, so the popup is answered all the same. *)
Theorem generation_before_the_try (net : Network) (data : JsVal) :
  (loadApiKey net = None \/ loadApiKey net = Some [] ->
   handleGenerateMessage net data
   = Ok (failure (js "API Key not loaded. Please check your .env file and reload the extension.")))
  /\ (forall key e,
         loadApiKey net = Some key -> key <> [] ->
         (profileData ← getProp "profileData" data;
          createPrompt profileData) = Throw e ->
         handleGenerateMessage net data = Throw e
         /\ forall request w,
              network chrome = net ->
              action request = JStr (js "generateGeminiMessage") ->
              Js.data request = data ->
              makes (onMessage chrome request) w
                    [SendResponse (failure (errorMessage e))] (Ok tt)).
Proof.
  split.
  - unfold handleGenerateMessage. by intros [-> | ->].
  - intros key e Hkey Hne Hthrow.
    assert (Hrej : handleGenerateMessage net data = Throw e).
    { unfold handleGenerateMessage. rewrite Hkey.
      destruct key as [|c key]; [done|].
      destruct (getProp "profileData" data) as [profileData|e'];
        cbn [mbind res_bind] in *; [|by injection Hthrow as ->].
      destruct (createPrompt profileData) as [prompt|e'];
        cbn [mbind res_bind] in *; [discriminate Hthrow | by injection Hthrow as ->]. }
    split; [done|].
    intros request w Hnet Haction Hdata. unfold onMessage.
    apply isStr_true in Haction. rewrite Haction, Hnet, Hdata, Hrej.
    by split.
Qed.

End GenerationEdges.

(** A request without data, with the key loaded: the listener answers
    with the engine's message. *)
Lemma request_without_data_is_answered :
  makes (@Background.onMessage Samples.sampleEngine
           (Cases.workerWith (Samples.apiAnswers Samples.blockedBody))
           (toRequest Cases.generateWithoutData))
        Samples.emptyWorld
        [Background.SendResponse
           (failure (js "Cannot read properties of undefined (reading 'profileData')"))]
        (Ok tt).
Proof.
  apply (proj2 (proj2 (@generation_before_the_try Samples.sampleEngine
                         (Cases.workerWith
                            (Samples.apiAnswers Samples.blockedBody))
                         (Samples.apiAnswers Samples.blockedBody) JUndefined)
                      (js "test-key")
                      (Error (@nullishRead Samples.sampleEngine "profileData"))
                      eq_refl ltac:(discriminate) eq_refl));
    reflexivity.
Defined.

(** ** From the page to the prompt *)

Lemma profile_page_prompt `{Engine} (page : Content.Page) :
  Content.isProfilePage page = true ->
  exists profile name prompt,
    Content.getProfileDataForMessage page
    = JObj [ ("success", JBool true); ("profileData", profile) ]%string
    /\ Content.extractName (Content.document page) = Ok name
    /\ optChain "name" profile = JStr name
    /\ Background.createPrompt profile = Ok prompt
    /\ split_space_0 name <> []
    /\ Forall (fun c => c <> 32) (split_space_0 name)
    /\ includes prompt (js "Hi " ++ split_space_0 name ++ js ",") = true.
Proof.
  intros Hpage. unfold Content.getProfileDataForMessage. rewrite Hpage.
  destruct (extractProfileData_total (Content.document page))
    as (n & h & c & l & a & e & i & Hdata & Hn & _).
  rewrite Hdata. cbn [negb].
  destruct (extractName_shape (Content.document page))
    as (name & Hname & Hne & Htrim).
  assert (n = name) as -> by congruence.
  set (profile := JObj [ ("name", JStr name); ("headline", JStr h);
                         ("company", JStr c); ("location", JStr l);
                         ("about", JStr a); ("experience", JStr e);
                         ("industry", JStr i) ]%string).
  assert (Hfirst : Background.splitFirst
                     (if truthy (optChain "name" profile)
                      then optChain "name" profile
                      else JStr (js "there"))
                   = Ok (split_space_0 name)).
  { change (optChain "name" profile) with (JStr name).
    by destruct name. }
  destruct (createPrompt_Ok_intro profile (split_space_0 name) h c i)
    as [prompt Hprompt]; try done.
  exists profile, name, prompt.
  split; [done|]. split; [done|]. split; [done|]. split; [done|].
  split.
  { destruct (trim_ends name) as [Hhead _]. rewrite Htrim in Hhead.
    destruct name as [|x name]; [done|].
    apply (split_space_0_nonempty (x :: name) x); [done|]. by apply Hhead. }
  split; [apply split_space_0_no_space|].
  pose proof Hprompt as Hinv.
  apply createPrompt_Ok_inv in Hinv
    as (_ & _ & first & ht & ct & it & Hfirst' & _ & _ & _ & Hhi & _).
  rewrite Hfirst in Hfirst'. by injection Hfirst' as <-.
Qed.

Lemma handleGenerateMessage_resolves `{Engine} (net : Background.Network)
      (data profile : JsVal) (prompt : jsstring) :
  Background.getProp "profileData" data = Ok profile ->
  Background.createPrompt profile = Ok prompt ->
  exists r, Background.handleGenerateMessage net data = Ok r
            /\ hasBoolSuccess r = true.
Proof.
  intros Hdata Hprompt.
  destruct (Background.handleGenerateMessage net data) as [r|err] eqn:Hgen.
  - exists r. split; [done|].
    by apply (handleGenerateMessage_has_success net _ r Hgen).
  - exfalso. revert Hgen. unfold Background.handleGenerateMessage.
    destruct (Background.loadApiKey net) as [[|k key]|]; try done.
    rewrite Hdata. cbn [mbind res_bind]. rewrite Hprompt.
    cbn [mbind res_bind].
    by destruct (Background.callGemini net (k :: key) prompt).
Qed.

(** X11. What the content script extracts, the worker can always
    use. For every profile page: the profile in the script's answer
    makes [createPrompt] succeed; the prompt greets the part of the
    extracted name before its first space, which is never empty; and a
    generation request that carries this profile is always resolved
    with a result that has a boolean [success], whatever the network
    does. *)
Theorem extracted_profile_builds_prompt `{Engine} (page : Content.Page)
        (net : Background.Network) (userContext userRole : JsVal) :
  Content.isProfilePage page = true ->
  exists profile name prompt,
    Content.getProfileDataForMessage page
    = JObj [ ("success", JBool true); ("profileData", profile) ]%string
    /\ Content.extractName (Content.document page) = Ok name
    /\ optChain "name" profile = JStr name
    /\ Background.createPrompt profile = Ok prompt
    /\ split_space_0 name <> []
    /\ Forall (fun c => c <> 32) (split_space_0 name)
    /\ includes prompt (js "Hi " ++ split_space_0 name ++ js ",") = true
    /\ exists r,
         Background.handleGenerateMessage net
           (JObj [ ("profileData", profile);
                   ("userContext", userContext);
                   ("userRole", userRole) ]%string)
         = Ok r
         /\ hasBoolSuccess r = true.
Proof.
  intros Hpage.
  destruct (profile_page_prompt page Hpage)
    as (profile & name & prompt & H1 & H2 & H3 & H4 & H5 & H6 & H7).
  exists profile, name, prompt. repeat (split; [done|]).
  by apply (handleGenerateMessage_resolves net _ profile prompt).
Qed.

(** The sample profile page: its prompt greets [Ada]. *)
Lemma sample_page_prompt_greets_Ada :
  exists profile name prompt,
    @Content.getProfileDataForMessage Samples.sampleEngine Samples.aboutHiPage
    = JObj [ ("success", JBool true); ("profileData", profile) ]%string
    /\ @Content.extractName Samples.sampleEngine
         (Content.document Samples.aboutHiPage) = Ok name
    /\ optChain "name" profile = JStr name
    /\ @Background.createPrompt Samples.sampleEngine profile = Ok prompt
    /\ split_space_0 name <> []
    /\ Forall (fun c => c <> 32) (split_space_0 name)
    /\ includes prompt (js "Hi " ++ split_space_0 name ++ js ",") = true
    /\ exists r,
         @Background.handleGenerateMessage Samples.sampleEngine
           (Samples.apiAnswers Samples.blockedBody)
           (JObj [ ("profileData", profile);
                   ("userContext", JStr (js "CS grad"));
                   ("userRole", JStr (js "developer")) ]%string)
         = Ok r
         /\ hasBoolSuccess r = true.
Proof.
  apply (@extracted_profile_builds_prompt Samples.sampleEngine
           Samples.aboutHiPage (Samples.apiAnswers Samples.blockedBody)
           (JStr (js "CS grad")) (JStr (js "developer"))).
  reflexivity.
Defined.

(** ** sendMessageToTab: the guard and the live script *)

Section BridgePaths.

Import Background.

Context `{Engine}.
Variable chrome : Chrome.

Ltac run_worker :=
  unfold handleIconClick, sendMessageToTab, probeAndDeliver, injectAndRetry,
    tryCatch, throw, mbind, async_bind, mret, async_ret, chrome_tabs_get,
    chrome_tabs_sendMessage, chrome_scripting_executeScript, sleep,
    chrome_tabs_reload, chrome_tabs_update, call, lift, notOnLinkedIn, makes;
  simpl.

(** A tab that passes the guard is probed. *)
Lemma passed_guard_is_probed tabId message w tab u :
  tabs_get chrome (history w) tabId = Ok (Some tab) ->
  tab_url tab = Some u ->
  includes u (js "linkedin.com") = true ->
  exists calls r,
    makes (sendMessageToTab chrome tabId message) w
          (TabsGet tabId :: TabsSendMessage tabId ping :: calls) (Ok r).
Proof.
  intros Hget Hurl Hin.
  destruct (sendMessageToTab_traces chrome tabId message w)
    as (calls & r & Hmakes & Htrace).
  assert (Hhead : exists rest, calls = TabsGet tabId :: rest
                               /\ (rest = [] \/ exists rest',
                                      rest = TabsSendMessage tabId ping :: rest')).
  { simpl in Htrace.
    destruct Htrace as [<-|[<-|[<-|[<-|[<-|[<-|[]]]]]]]; eauto 6. }
  destruct Hhead as (rest & -> & [-> | [rest' ->]]); [|by eauto].
  exfalso. revert Hmakes. run_worker. rewrite Hget, Hurl, Hin. simpl.
  intros [Hh _]. revert Hh.
  repeat match goal with
         | |- context [match ?x with _ => _ end] =>
             lazymatch x with
             | context [match _ with _ => _ end] => fail
             | _ => destruct x; simpl
             end
         end.
  all: rewrite <- ?app_assoc; intros Hh; apply app_inv_head in Hh;
    discriminate Hh.
Qed.

End BridgePaths.

(** X12. The guard of [sendMessageToTab]. A tab that cannot be looked
    up, a lookup that finds no tab, a tab on another site and a tab
    whose address the worker may not read are all refused after the
    lookup alone: nothing is sent to the tab and nothing is injected.
    The first and the last are reported with the error's own message,
    the others as [Tab not accessible or not on LinkedIn]. A tab whose
    address contains [linkedin.com] is always probed. *)
Theorem bridge_refuses_without_probing `{Engine} (chrome : Background.Chrome)
        (tabId : N) (message : JsVal) (w : Background.World) :
  (forall e,
      Background.tabs_get chrome (Background.history w) tabId = Throw e ->
      makes (Background.sendMessageToTab chrome tabId message) w
            [Background.TabsGet tabId] (Ok (failure (errorMessage e))))
  /\ (Background.tabs_get chrome (Background.history w) tabId = Ok None ->
      makes (Background.sendMessageToTab chrome tabId message) w
            [Background.TabsGet tabId]
            (Ok (failure (js "Tab not accessible or not on LinkedIn"))))
  /\ (forall tab u,
         Background.tabs_get chrome (Background.history w) tabId
         = Ok (Some tab) ->
         Background.tab_url tab = Some u ->
         includes u (js "linkedin.com") = false ->
         makes (Background.sendMessageToTab chrome tabId message) w
               [Background.TabsGet tabId]
               (Ok (failure (js "Tab not accessible or not on LinkedIn"))))
  /\ (forall tab,
         Background.tabs_get chrome (Background.history w) tabId
         = Ok (Some tab) ->
         Background.tab_url tab = None ->
         makes (Background.sendMessageToTab chrome tabId message) w
               [Background.TabsGet tabId]
               (Ok (failure (nullishRead "includes"))))
  /\ (forall tab u,
         Background.tabs_get chrome (Background.history w) tabId
         = Ok (Some tab) ->
         Background.tab_url tab = Some u ->
         includes u (js "linkedin.com") = true ->
         exists calls r,
           makes (Background.sendMessageToTab chrome tabId message) w
                 (Background.TabsGet tabId
                  :: Background.TabsSendMessage tabId Background.ping
                  :: calls) (Ok r)).
Proof.
  split; [|split; [|split; [|split]]].
  - intros e Hget. unfold Background.sendMessageToTab, Background.tryCatch,
      Background.chrome_tabs_get, Background.call, makes, mbind,
      Background.async_bind. simpl. by rewrite Hget.
  - intros Hget. unfold Background.sendMessageToTab, Background.tryCatch,
      Background.chrome_tabs_get, Background.call, makes, mbind,
      Background.async_bind. simpl. by rewrite Hget.
  - intros tab u Hget Hurl Hin.
    unfold Background.sendMessageToTab, Background.tryCatch,
      Background.chrome_tabs_get, Background.call, makes, mbind,
      Background.async_bind, Background.lift, Background.notOnLinkedIn.
    simpl. by rewrite Hget, Hurl, Hin.
  - intros tab Hget Hurl.
    unfold Background.sendMessageToTab, Background.tryCatch,
      Background.chrome_tabs_get, Background.call, makes, mbind,
      Background.async_bind, Background.lift, Background.notOnLinkedIn.
    simpl. by rewrite Hget, Hurl.
  - apply passed_guard_is_probed.
Qed.

(** A tab on another site is refused after the lookup. *)
Lemma tab_elsewhere_is_refused :
  makes (@Background.sendMessageToTab Samples.sampleEngine Cases.elsewhere 7
           Popup.getProfileData)
        Samples.emptyWorld [Background.TabsGet 7]
        (Ok (failure (js "Tab not accessible or not on LinkedIn"))).
Proof.
  apply (proj1 (proj2 (proj2 (@bridge_refuses_without_probing
                                Samples.sampleEngine Cases.elsewhere 7
                                Popup.getProfileData Samples.emptyWorld)))
               (Cases.newsTab 7) (js "https://news.example.org/"));
    reflexivity.
Defined.

(** ** The worker and a content script together *)

Section WorkerAndScript.

Import Content Background Session.

Context `{Engine}.
Variable chrome : Chrome.

Ltac run_worker :=
  unfold handleIconClick, sendMessageToTab, probeAndDeliver, injectAndRetry,
    tryCatch, throw, mbind, async_bind, mret, async_ret, chrome_tabs_get,
    chrome_tabs_sendMessage, chrome_scripting_executeScript, sleep,
    chrome_tabs_reload, chrome_tabs_update, call, lift, notOnLinkedIn, makes;
  simpl.

Lemma hostsScript_ping tabId page st h :
  hostsScript chrome tabId page st ->
  tabs_sendMessage chrome h tabId ping
  = Ok (JObj [("ready"%string, JBool (isContentScriptReady st))]).
Proof.
  intros Hhost. destruct (Hhost h ping) as (r & -> & Hr).
  unfold Content.onMessage in Hr. simpl in Hr. by injection Hr as <-.
Qed.

(** The inject-and-retry path: the probe rejects or reports not ready,
    the injection resolves. *)
Lemma unready_probe_then_injection tabId message w tab u :
  tabs_get chrome (history w) tabId = Ok (Some tab) ->
  tab_url tab = Some u ->
  includes u (js "linkedin.com") = true ->
  match tabs_sendMessage chrome (history w ++ [TabsGet tabId]) tabId ping with
  | Ok pong => truthy (optChain "ready" pong) = false
  | Throw _ => True
  end ->
  scripting_executeScript chrome
    (history w ++ [TabsGet tabId; TabsSendMessage tabId ping])
    tabId [js "content.js"] = Ok tt ->
  makes (sendMessageToTab chrome tabId message) w
        [TabsGet tabId; TabsSendMessage tabId ping;
         ExecuteScript tabId [js "content.js"]; SetTimeout 1500;
         TabsSendMessage tabId message]
        (Ok match tabs_sendMessage chrome
                    (history w ++ [TabsGet tabId; TabsSendMessage tabId ping;
                                   ExecuteScript tabId [js "content.js"];
                                   SetTimeout 1500])
                    tabId message with
            | Ok r => r
            | Throw _ =>
                failure (js "Failed to inject content script. Please refresh the page.")
            end).
Proof.
  intros Hget Hurl Hin Hping Hinject. run_worker.
  rewrite Hget, Hurl, Hin. simpl.
  destruct (tabs_sendMessage chrome (history w ++ [TabsGet tabId]) tabId ping)
    as [pong|e]; simpl.
  - rewrite Hping. simpl. rewrite <- ?app_assoc. simpl. rewrite Hinject.
    simpl. rewrite <- ?app_assoc. simpl.
    destruct (tabs_sendMessage chrome _ tabId message); simpl;
      rewrite <- ?app_assoc; by simpl.
  - rewrite <- ?app_assoc. simpl. rewrite Hinject.
    simpl. rewrite <- ?app_assoc. simpl.
    destruct (tabs_sendMessage chrome _ tabId message); simpl;
      rewrite <- ?app_assoc; by simpl.
Qed.

Lemma worker_reaches_script tabId page st message w tab u :
  tabs_get chrome (history w) tabId = Ok (Some tab) ->
  tab_url tab = Some u ->
  includes u (js "linkedin.com") = true ->
  hostsScript chrome tabId page st ->
  (isContentScriptReady st = false ->
   scripting_executeScript chrome
     (history w ++ [TabsGet tabId; TabsSendMessage tabId ping])
     tabId [js "content.js"] = Ok tt) ->
  exists r,
    (Content.onMessage page st (toRequest message)).2 = [r]
    /\ makes (sendMessageToTab chrome tabId message) w
             (if isContentScriptReady st
              then [TabsGet tabId; TabsSendMessage tabId ping;
                    TabsSendMessage tabId message]
              else [TabsGet tabId; TabsSendMessage tabId ping;
                    ExecuteScript tabId [js "content.js"]; SetTimeout 1500;
                    TabsSendMessage tabId message])
             (Ok r).
Proof.
  intros Hget Hurl Hin Hhost Hinject.
  destruct (isContentScriptReady st) eqn:Hst.
  - destruct (Hhost (history w ++ [TabsGet tabId; TabsSendMessage tabId ping])
                    message) as (r & Hsend & Hr).
    exists r. split; [done|].
    apply (ready_probe_then_delivery chrome tabId message w tab u
             (JObj [("ready"%string, JBool true)]) r); try done.
    by rewrite (hostsScript_ping tabId page st _ Hhost), Hst.
  - destruct (Hhost (history w ++ [TabsGet tabId; TabsSendMessage tabId ping;
                                   ExecuteScript tabId [js "content.js"];
                                   SetTimeout 1500])
                    message) as (r & Hsend & Hr).
    exists r. split; [done|].
    pose proof (unready_probe_then_injection tabId message w tab u
                  Hget Hurl Hin) as Hpath.
    rewrite (hostsScript_ping tabId page st _ Hhost), Hst, Hsend in Hpath.
    by apply Hpath; [|apply Hinject].
Qed.

End WorkerAndScript.

(** X13. The worker against a content script. On a LinkedIn tab that
    holds a content script, [sendMessageToTab] returns what the
    script's listener answers to the message. A ready script is reached
    by the lookup, the probe and the delivery, with no injection; a
    script that reports not ready is reached after one injection and
    the wait of 1500 ms. A profile request comes back as
    [getProfileDataForMessage] of the page. *)
Theorem worker_returns_the_scripts_answer `{Engine}
        (chrome : Background.Chrome) (tabId : N) (page : Content.Page)
        (st : Content.ContentState) (message : JsVal)
        (w : Background.World) (tab : Background.Tab) (u : jsstring) :
  Background.tabs_get chrome (Background.history w) tabId = Ok (Some tab) ->
  Background.tab_url tab = Some u ->
  includes u (js "linkedin.com") = true ->
  Session.hostsScript chrome tabId page st ->
  Session.consistent st ->
  (Content.isContentScriptReady st = false ->
   Background.scripting_executeScript chrome
     (Background.history w
      ++ [Background.TabsGet tabId;
          Background.TabsSendMessage tabId Background.ping])
     tabId [js "content.js"] = Ok tt) ->
  exists r,
    (Content.onMessage page st (toRequest message)).2 = [r]
    /\ makes (Background.sendMessageToTab chrome tabId message) w
             (if Content.isContentScriptReady st
              then [Background.TabsGet tabId;
                    Background.TabsSendMessage tabId Background.ping;
                    Background.TabsSendMessage tabId message]
              else [Background.TabsGet tabId;
                    Background.TabsSendMessage tabId Background.ping;
                    Background.ExecuteScript tabId [js "content.js"];
                    Background.SetTimeout 1500;
                    Background.TabsSendMessage tabId message])
             (Ok r)
    /\ (message = Popup.getProfileData ->
        r = Content.getProfileDataForMessage page).
Proof.
  intros Hget Hurl Hin Hhost Hwf Hinject.
  destruct (worker_reaches_script chrome tabId page st message w tab u
              Hget Hurl Hin Hhost Hinject) as (r & Hr & Hmakes).
  exists r. split; [done|]. split; [done|].
  intros ->. revert Hr. unfold Content.onMessage. simpl.
  unfold Session.consistent in Hwf.
  destruct (Content.isContentScriptReady st) eqn:Hst; simpl.
  - destruct (Hwf eq_refl) as [a ->]. by intros [= <-].
  - rewrite (initializeContentScript_ready st Hst). simpl. by intros [= <-].
Qed.

(** A running script on the sample page answers the worker's profile
    request. *)
Lemma worker_reads_sample_profile :
  exists r,
    (@Content.onMessage Samples.sampleEngine Samples.aboutHiPage
       (Content.initializeContentScript Content.initialState)
       (toRequest Popup.getProfileData)).2 = [r]
    /\ makes (@Background.sendMessageToTab Samples.sampleEngine
                (Samples.liveTab Samples.aboutHiPage) 7
                Popup.getProfileData)
             Samples.emptyWorld
             [Background.TabsGet 7;
              Background.TabsSendMessage 7 Background.ping;
              Background.TabsSendMessage 7 Popup.getProfileData]
             (Ok r)
    /\ (Popup.getProfileData = Popup.getProfileData ->
        r = @Content.getProfileDataForMessage Samples.sampleEngine
              Samples.aboutHiPage).
Proof.
  apply (@worker_returns_the_scripts_answer Samples.sampleEngine
           (Samples.liveTab Samples.aboutHiPage) 7 Samples.aboutHiPage
           (Content.initializeContentScript Content.initialState)
           Popup.getProfileData Samples.emptyWorld (Samples.linkedInTab 7)
           (js "https://www.linkedin.com/in/ada-lovelace/")).
  - reflexivity.
  - reflexivity.
  - reflexivity.
  - intros h m. simpl.
    destruct (@content_answers_once Samples.sampleEngine Samples.aboutHiPage
                (Content.initializeContentScript Content.initialState)
                (toRequest m)) as (r & Hr & _).
    exists r. by rewrite Hr.
  - intros _. by eexists.
  - discriminate.
Defined.

(** X14. The inject-and-retry path of [sendMessageToTab]. On a
    LinkedIn tab whose probe rejects or reports not ready, and whose
    injection resolves, the worker injects once, waits 1500 ms and
    delivers once. An answer to that delivery goes back unchanged. A
    delivery that rejects is reported as a failed injection, although
    the injection resolved, and the error of the delivery is dropped. *)
Theorem injection_then_one_delivery `{Engine} (chrome : Background.Chrome)
        (tabId : N) (message : JsVal) (w : Background.World)
        (tab : Background.Tab) (u : jsstring) :
  Background.tabs_get chrome (Background.history w) tabId = Ok (Some tab) ->
  Background.tab_url tab = Some u ->
  includes u (js "linkedin.com") = true ->
  match Background.tabs_sendMessage chrome
          (Background.history w ++ [Background.TabsGet tabId])
          tabId Background.ping with
  | Ok pong => truthy (optChain "ready" pong) = false
  | Throw _ => True
  end ->
  Background.scripting_executeScript chrome
    (Background.history w
     ++ [Background.TabsGet tabId;
         Background.TabsSendMessage tabId Background.ping])
    tabId [js "content.js"] = Ok tt ->
  exists r,
    makes (Background.sendMessageToTab chrome tabId message) w
          [Background.TabsGet tabId;
           Background.TabsSendMessage tabId Background.ping;
           Background.ExecuteScript tabId [js "content.js"];
           Background.SetTimeout 1500;
           Background.TabsSendMessage tabId message]
          (Ok r)
    /\ (forall answer,
           Background.tabs_sendMessage chrome
             (Background.history w
              ++ [Background.TabsGet tabId;
                  Background.TabsSendMessage tabId Background.ping;
                  Background.ExecuteScript tabId [js "content.js"];
                  Background.SetTimeout 1500])
             tabId message = Ok answer ->
           r = answer)
    /\ (forall e,
           Background.tabs_sendMessage chrome
             (Background.history w
              ++ [Background.TabsGet tabId;
                  Background.TabsSendMessage tabId Background.ping;
                  Background.ExecuteScript tabId [js "content.js"];
                  Background.SetTimeout 1500])
             tabId message = Throw e ->
           r = failure (js "Failed to inject content script. Please refresh the page.")).
Proof.
  intros Hget Hurl Hin Hping Hinject.
  eexists. split.
  - by apply (unready_probe_then_injection chrome tabId message w tab u).
  - split; [by intros answer -> | by intros e ->].
Qed.

(** A silent tab that accepts the injection: the rejected delivery is
    reported as a failed injection. *)
Lemma rejected_delivery_blames_injection :
  exists r,
    makes (@Background.sendMessageToTab Samples.sampleEngine
             (Samples.silentTab true) 7 Popup.getProfileData)
          Samples.emptyWorld
          [Background.TabsGet 7;
           Background.TabsSendMessage 7 Background.ping;
           Background.ExecuteScript 7 [js "content.js"];
           Background.SetTimeout 1500;
           Background.TabsSendMessage 7 Popup.getProfileData]
          (Ok r)
    /\ (forall answer,
           Background.tabs_sendMessage (Samples.silentTab true)
             (Background.history Samples.emptyWorld
              ++ [Background.TabsGet 7;
                  Background.TabsSendMessage 7 Background.ping;
                  Background.ExecuteScript 7 [js "content.js"];
                  Background.SetTimeout 1500])
             7 Popup.getProfileData = Ok answer ->
           r = answer)
    /\ (forall e,
           Background.tabs_sendMessage (Samples.silentTab true)
             (Background.history Samples.emptyWorld
              ++ [Background.TabsGet 7;
                  Background.TabsSendMessage 7 Background.ping;
                  Background.ExecuteScript 7 [js "content.js"];
                  Background.SetTimeout 1500])
             7 Popup.getProfileData = Throw e ->
           r = failure (js "Failed to inject content script. Please refresh the page.")).
Proof.
  apply (@injection_then_one_delivery Samples.sampleEngine
           (Samples.silentTab true) 7 Popup.getProfileData
           Samples.emptyWorld (Samples.linkedInTab 7)
           (js "https://www.linkedin.com/in/ada-lovelace/"));
    [reflexivity | reflexivity | reflexivity | exact I | reflexivity].
Defined.

(** ** The icon click *)

Section IconClick.

Import Content Background Session.

Context `{Engine}.
Variable chrome : Chrome.

Lemma handleIconClick_on_LinkedIn tab u w calls r :
  tab_url tab = Some u ->
  includes u (js "linkedin.com") = true ->
  makes (sendMessageToTab chrome (tab_id tab) showGenerateButton) w calls
        (Ok r) ->
  makes (handleIconClick chrome tab) w
        (calls ++ match r with
                  | JUndefined | JNull => []
                  | _ => if truthy (optChain "success" r) then []
                         else [TabsReload (tab_id tab)]
                  end)
        (Ok tt).
Proof.
  intros Hurl Hin [Hcalls Hres]. unfold handleIconClick. rewrite Hurl.
  destruct u as [|c u]; [done|]. rewrite Hin.
  unfold makes, tryCatch, mbind, async_bind.
  destruct (sendMessageToTab chrome (tab_id tab) showGenerateButton w)
    as [w1 r1] eqn:Hsend.
  simpl in Hcalls, Hres. subst r1.
  unfold lift, getProp, chrome_tabs_reload, call, mret, async_ret.
  destruct r as [| |b|q|s|items|props]; simpl;
    try (destruct (truthy (optChain "success" (JObj props))); simpl);
    rewrite ?app_nil_r, ?Hcalls, <- ?app_assoc; done.
Qed.

Lemma script_does_not_know_showGenerateButton page st r :
  consistent st ->
  (Content.onMessage page st (toRequest showGenerateButton)).2 = [r] ->
  r = failure (js "Unknown action").
Proof.
  intros Hwf Hr.
  destruct (content_answers_once page st (toRequest showGenerateButton))
    as (r' & Hr' & _ & _ & Hunknown).
  rewrite Hr in Hr'. injection Hr' as <-.
  apply Hunknown; try (simpl; discriminate). exact Hwf.
Qed.

End IconClick.

(** X15. The icon click. It never throws. On a tab whose address is
    absent or does not contain [linkedin.com], the tab is sent to
    [https://www.linkedin.com] and nothing else happens. On a LinkedIn
    tab, [showGenerateButton] goes through [sendMessageToTab], and the
    tab is reloaded exactly when the result is an object whose
    [success] is missing or falsy. The content script has no handler
    for [showGenerateButton] and answers it with a failure, so a click
    on a LinkedIn tab with a working content script always ends in a
    reload of the tab. *)
Theorem icon_click_redirects_or_reloads `{Engine}
        (chrome : Background.Chrome) (tab : Background.Tab)
        (w : Background.World) :
  ((forall u, Background.tab_url tab = Some u ->
              includes u (js "linkedin.com") = false) ->
   makes (Background.handleIconClick chrome tab) w
         [Background.TabsUpdate (Background.tab_id tab)
            (js "https://www.linkedin.com")]
         (Ok tt))
  /\ (forall u,
         Background.tab_url tab = Some u ->
         includes u (js "linkedin.com") = true ->
         exists calls r,
           makes (Background.sendMessageToTab chrome (Background.tab_id tab)
                    Background.showGenerateButton) w calls (Ok r)
           /\ makes (Background.handleIconClick chrome tab) w
                    (calls ++ match r with
                              | JUndefined | JNull => []
                              | _ => if truthy (optChain "success" r) then []
                                     else [Background.TabsReload
                                             (Background.tab_id tab)]
                              end)
                    (Ok tt))
  /\ (forall u page st,
         Background.tab_url tab = Some u ->
         includes u (js "linkedin.com") = true ->
         Background.tabs_get chrome (Background.history w)
           (Background.tab_id tab) = Ok (Some tab) ->
         Session.hostsScript chrome (Background.tab_id tab) page st ->
         Session.consistent st ->
         Content.isContentScriptReady st = true ->
         makes (Background.handleIconClick chrome tab) w
               [Background.TabsGet (Background.tab_id tab);
                Background.TabsSendMessage (Background.tab_id tab)
                  Background.ping;
                Background.TabsSendMessage (Background.tab_id tab)
                  Background.showGenerateButton;
                Background.TabsReload (Background.tab_id tab)]
               (Ok tt)).
Proof.
  split; [|split].
  - intros Hurl. unfold Background.handleIconClick.
    destruct (Background.tab_url tab) as [[|c u]|] eqn:Htab; [done| |done].
    by rewrite (Hurl (c :: u) eq_refl).
  - intros u Hurl Hin.
    destruct (sendMessageToTab_traces chrome (Background.tab_id tab)
                Background.showGenerateButton w) as (calls & r & Hmakes & _).
    exists calls, r. split; [done|].
    by apply (handleIconClick_on_LinkedIn chrome tab u).
  - intros u page st Hurl Hin Hget Hhost Hwf Hready.
    destruct (worker_reaches_script chrome (Background.tab_id tab) page st
                Background.showGenerateButton w tab u Hget Hurl Hin Hhost)
      as (r & Hr & Hmakes); [by rewrite Hready|].
    rewrite Hready in Hmakes.
    apply (script_does_not_know_showGenerateButton page st r Hwf) in Hr.
    subst r.
    apply (handleIconClick_on_LinkedIn chrome tab u w _ _ Hurl Hin Hmakes).
Qed.

(** A click on a tab of another site. *)
Lemma icon_click_elsewhere_redirects :
  makes (@Background.handleIconClick Samples.sampleEngine Cases.elsewhere
           (Cases.newsTab 7))
        Samples.emptyWorld
        [Background.TabsUpdate 7 (js "https://www.linkedin.com")]
        (Ok tt).
Proof.
  apply (proj1 (@icon_click_redirects_or_reloads Samples.sampleEngine
                  Cases.elsewhere (Cases.newsTab 7) Samples.emptyWorld)).
  intros u [= <-]. reflexivity.
Defined.

(** ** Installation and startup *)

Section Lifecycle.

Import Background Store.

Variable chrome : Chrome.

Ltac run_manager :=
  unfold handleInstallation, handleStartup, verifySettings,
    setDefaultSettings, handleUpdate, saveSettings, getSettings, tryCatch,
    mbind, async_bind, mret, async_ret, chrome_storage_sync_get,
    chrome_storage_sync_set, chrome_tabs_create, now, call, makes;
  simpl.

Lemma defaultSettings_settings date :
  defaultSettings date !! "settings"%string
  = Some (JObj [ ("messageLength", JStr (js "medium"));
                 ("tone", JStr (js "professional"));
                 ("autoGenerate", JBool false) ]%string).
Proof. by vm_compute. Qed.

Lemma defaultSettings_userContext date :
  defaultSettings date !! "userContext"%string = Some (JStr []).
Proof. by vm_compute. Qed.

Lemma defaultSettings_statistics date :
  defaultSettings date !! "statistics"%string
  = Some (JObj [ ("messagesGenerated", JNum 0);
                 ("extensionInstalled", JStr date) ]%string).
Proof. by vm_compute. Qed.

(** What startup does when storage works. *)
Lemma handleStartup_faultless w :
  faultless chrome ->
  handleStartup chrome w
  = if truthy (item "settings" (storage w))
    then ({| history := history w ++ [StorageGet None];
             storage := storage w |}, Ok tt)
    else ({| history :=
               history w
               ++ [StorageGet None;
                   StorageSet (defaultSettings
                                 (date_now chrome
                                    (history w ++ [StorageGet None])))];
             storage :=
               defaultSettings
                 (date_now chrome (history w ++ [StorageGet None]))
               ∪ storage w |}, Ok tt).
Proof.
  intros [Hget Hset]. run_manager. rewrite Hget. simpl.
  destruct (truthy (item "settings" (storage w))); simpl; [done|].
  rewrite Hset. simpl. by rewrite <- app_assoc.
Qed.

End Lifecycle.

(** X16. Installation. With reason [install] the four defaults are
    written and then the popup page is opened in a new tab: the stored
    context, role, settings and statistics are the defaults, whatever
    was stored before, and the other keys stay. When storage refuses
    the write, no tab is opened and the store stays as it was. A reason
    other than [install] and [update] makes no call at all. And
    [handleInstallation] never throws. *)
Theorem installation_writes_defaults (chrome : Background.Chrome)
        (reason previousVersion : JsVal) (w : Background.World) :
  (reason = JStr (js "install") ->
   Background.storage_set_fault chrome (Background.history w)
     (Background.defaultSettings
        (Background.date_now chrome (Background.history w))) = None ->
   makes (Background.handleInstallation chrome reason previousVersion) w
         [Background.StorageSet
            (Background.defaultSettings
               (Background.date_now chrome (Background.history w)));
          Background.TabsCreate
            (Background.runtime_getURL chrome (js "popup.html"))]
         (Ok tt)
   /\ (forall k v,
          Background.defaultSettings
            (Background.date_now chrome (Background.history w)) !! k = Some v ->
          Background.storage
            (Background.handleInstallation chrome reason previousVersion w).1
          !! k = Some v)
   /\ (forall k,
          Background.defaultSettings
            (Background.date_now chrome (Background.history w)) !! k = None ->
          Background.storage
            (Background.handleInstallation chrome reason previousVersion w).1
          !! k = Background.storage w !! k)
   /\ Background.storage
        (Background.handleInstallation chrome reason previousVersion w).1
      !! "userContext"%string = Some (JStr []))
  /\ (forall e,
         reason = JStr (js "install") ->
         Background.storage_set_fault chrome (Background.history w)
           (Background.defaultSettings
              (Background.date_now chrome (Background.history w))) = Some e ->
         makes (Background.handleInstallation chrome reason previousVersion) w
               [Background.StorageSet
                  (Background.defaultSettings
                     (Background.date_now chrome (Background.history w)))]
               (Ok tt)
         /\ Background.storage
              (Background.handleInstallation chrome reason previousVersion w).1
            = Background.storage w)
  /\ (reason <> JStr (js "install") -> reason <> JStr (js "update") ->
      Background.handleInstallation chrome reason previousVersion w
      = (w, Ok tt))
  /\ (Background.handleInstallation chrome reason previousVersion w).2
     = Ok tt.
Proof.
  split; [|split; [|split]].
  - intros -> Hset.
    unfold Background.handleInstallation, Background.setDefaultSettings,
      Background.tryCatch, mbind, Background.async_bind,
      Background.chrome_storage_sync_set, Background.chrome_tabs_create,
      Background.now, Background.call, makes.
    simpl. rewrite Hset. simpl. rewrite <- app_assoc.
    split; [done|]. split; [|split].
    + intros k v Hk. by apply lookup_union_Some_l.
    + intros k Hk. by rewrite lookup_union_r.
    + apply lookup_union_Some_l, defaultSettings_userContext.
  - intros e -> Hset.
    unfold Background.handleInstallation, Background.setDefaultSettings,
      Background.tryCatch, mbind, Background.async_bind,
      Background.chrome_storage_sync_set, Background.chrome_tabs_create,
      Background.now, Background.call, makes.
    simpl. by rewrite Hset.
  - intros Hi Hu. unfold Background.handleInstallation, Background.tryCatch.
    destruct (isStr (js "install") reason) eqn:Hinstall;
      [by apply isStr_true in Hinstall|].
    destruct (isStr (js "update") reason) eqn:Hupdate;
      [by apply isStr_true in Hupdate|].
    done.
  - unfold Background.handleInstallation, Background.tryCatch.
    by destruct (_ w) as [w' [[]|e]].
Qed.

(** A fresh installation on working storage. *)
Lemma fresh_install_opens_popup :
  makes (Background.handleInstallation (Samples.silentTab true)
           (JStr (js "install")) JUndefined)
        (Samples.worldWith Samples.legacyStore)
        [Background.StorageSet
           (Background.defaultSettings (js "2025-01-01T00:00:00.000Z"));
         Background.TabsCreate (js "chrome-extension://abc/popup.html")]
        (Ok tt).
Proof.
  apply (proj1 (installation_writes_defaults (Samples.silentTab true)
                  (JStr (js "install")) JUndefined
                  (Samples.worldWith Samples.legacyStore)));
    reflexivity.
Defined.

(** X17. Startup, on storage that works. A store whose [settings] is
    truthy is read and left alone. A store whose [settings] is missing
    or falsy gets the four defaults written over it, the stored context
    and role included, and keeps its other keys. Either way [settings]
    is truthy afterwards, so a second startup reads and changes
    nothing. *)
Theorem startup_restores_defaults_once (chrome : Background.Chrome)
        (w : Background.World) :
  Store.faultless chrome ->
  (truthy (Background.item "settings" (Background.storage w)) = true ->
   makes (Background.handleStartup chrome) w [Background.StorageGet None]
         (Ok tt)
   /\ Background.storage (Background.handleStartup chrome w).1
      = Background.storage w)
  /\ (truthy (Background.item "settings" (Background.storage w)) = false ->
      makes (Background.handleStartup chrome) w
            [Background.StorageGet None;
             Background.StorageSet
               (Background.defaultSettings
                  (Background.date_now chrome
                     (Background.history w ++ [Background.StorageGet None])))]
            (Ok tt)
      /\ Background.storage (Background.handleStartup chrome w).1
         !! "userContext"%string = Some (JStr [])
      /\ forall k,
           Background.defaultSettings
             (Background.date_now chrome
                (Background.history w ++ [Background.StorageGet None])) !! k
           = None ->
           Background.storage (Background.handleStartup chrome w).1 !! k
           = Background.storage w !! k)
  /\ truthy (Background.item "settings"
               (Background.storage (Background.handleStartup chrome w).1))
     = true
  /\ Background.storage
       (Background.handleStartup chrome
          (Background.handleStartup chrome w).1).1
     = Background.storage (Background.handleStartup chrome w).1.
Proof.
  intros Hok.
  assert (Hafter : truthy (Background.item "settings"
                     (Background.storage
                        (Background.handleStartup chrome w).1)) = true).
  { rewrite (handleStartup_faultless chrome w Hok).
    destruct (truthy (Background.item "settings" (Background.storage w)))
      eqn:Hs; simpl; [done|].
    unfold Background.item.
    by rewrite (lookup_union_Some_l _ _ _ _ (defaultSettings_settings _)). }
  split; [|split; [|split]].
  - intros Hs. unfold makes.
    rewrite (handleStartup_faultless chrome w Hok), Hs. by split.
  - intros Hs. unfold makes.
    rewrite (handleStartup_faultless chrome w Hok), Hs.
    split; [by split|]. simpl. split.
    + apply lookup_union_Some_l, defaultSettings_userContext.
    + intros k Hk. by rewrite lookup_union_r.
  - done.
  - rewrite (handleStartup_faultless chrome _ Hok), Hafter. done.
Qed.

(** Startup on a store from before [settings] existed; a second
    startup changes nothing. *)
Lemma second_startup_changes_nothing :
  Background.storage
    (Background.handleStartup (Samples.silentTab true)
       (Background.handleStartup (Samples.silentTab true)
          (Samples.worldWith Samples.legacyStore)).1).1
  = Background.storage
      (Background.handleStartup (Samples.silentTab true)
         (Samples.worldWith Samples.legacyStore)).1.
Proof.
  apply (startup_restores_defaults_once (Samples.silentTab true)
           (Samples.worldWith Samples.legacyStore)).
  split; reflexivity.
Defined.

(** ** Saving and reading settings *)

Section SettingsRoundTrip.

Import Background Store.

Variable chrome : Chrome.

Lemma list_to_map_assoc (props : list (string * JsVal)) (k : string) :
  (list_to_map props : gmap string JsVal) !! k = assoc k props.
Proof.
  induction props as [|[k' v] props IH]; simpl; [done|].
  destruct (String.eqb k k') eqn:Hk.
  - apply String.eqb_eq in Hk. subst. by rewrite lookup_insert_eq.
  - apply String.eqb_neq in Hk. rewrite lookup_insert_ne by done. exact IH.
Qed.

Lemma saveSettings_faultless newSettings w :
  faultless chrome ->
  saveSettings chrome newSettings w
  = ({| history :=
          history w
          ++ [StorageGet None;
              StorageSet (ownProps newSettings ∪ storage w)];
        storage := ownProps newSettings ∪ storage w |}, Ok tt).
Proof.
  intros [Hget Hset].
  unfold saveSettings, mbind, async_bind, chrome_storage_sync_get,
    chrome_storage_sync_set.
  simpl. rewrite Hget. simpl. rewrite Hset. simpl.
  rewrite <- app_assoc. simpl. f_equal. f_equal.
  by rewrite <- (assoc_L (∪)), map_union_idemp.
Qed.

End SettingsRoundTrip.

(** X18. Saving and reading back, on storage that works. After
    [saveSettings] of an object, [getSettings] returns every property
    of the object under its key and every other stored key as it was:
    the merge is shallow and nothing is removed. Saving [undefined],
    [null], a boolean or a number stores nothing new. *)
Theorem saved_settings_are_read_back (chrome : Background.Chrome)
        (newSettings : JsVal) (w : Background.World) :
  Store.faultless chrome ->
  exists stored,
    (Background.getSettings chrome
       (Background.saveSettings chrome newSettings w).1).2 = Ok stored
    /\ stored
       = Background.storage (Background.saveSettings chrome newSettings w).1
    /\ (forall props k,
           newSettings = JObj props ->
           stored !! k = match assoc k props with
                         | Some v => Some v
                         | None => Background.storage w !! k
                         end)
    /\ (forall k v, Background.storage w !! k = Some v ->
                    is_Some (stored !! k))
    /\ ((newSettings = JUndefined \/ newSettings = JNull
         \/ (exists b, newSettings = JBool b)
         \/ (exists q, newSettings = JNum q)) ->
        stored = Background.storage w).
Proof.
  intros Hok. rewrite (saveSettings_faultless chrome newSettings w Hok).
  destruct Hok as [Hget Hset].
  unfold Background.getSettings, Background.chrome_storage_sync_get. simpl.
  rewrite Hget. eexists. split; [done|]. split; [done|]. split; [|split].
  - intros props k ->. simpl. rewrite lookup_union, list_to_map_assoc.
    destruct (assoc k props), (Background.storage w !! k); done.
  - intros k v Hk. rewrite lookup_union, Hk.
    destruct (Background.ownProps newSettings !! k); by eexists.
  - intros [-> | [-> | [[b ->] | [q ->]]]]; simpl; apply (left_id_L ∅ (∪)).
Qed.

(** Saving a new role over the legacy store: the role is replaced,
    the unknown field stays. *)
Lemma saved_role_is_read_back :
  exists stored,
    (Background.getSettings (Samples.silentTab true)
       (Background.saveSettings (Samples.silentTab true)
          (JObj [("userRole"%string, JStr (js "engineer"))])
          (Samples.worldWith Samples.legacyStore)).1).2 = Ok stored
    /\ stored !! "userRole"%string = Some (JStr (js "engineer"))
    /\ stored !! "theme"%string = Some (JStr (js "dark")).
Proof.
  destruct (saved_settings_are_read_back (Samples.silentTab true)
              (JObj [("userRole"%string, JStr (js "engineer"))])
              (Samples.worldWith Samples.legacyStore))
    as (stored & Hread & _ & Hmerge & _); [split; reflexivity|].
  exists stored. split; [exact Hread|].
  split; rewrite (Hmerge _ _ eq_refl); reflexivity.
Defined.

(** ** The activity log *)

Section ActivityLog.

Import Background Store.

Context `{Engine}.
Variable chrome : Chrome.

Lemma item_filter_key (k : string) (m : gmap string JsVal) :
  item k (filter (fun kv => bool_decide (kv.1 ∈ [k])) m) = item k m.
Proof.
  unfold item. f_equal. apply option_eq. intros v.
  rewrite map_lookup_filter_Some. simpl. split; [by intros [? _]|].
  intros Hv. split; [done|]. apply bool_decide_pack. set_solver.
Qed.

Lemma assoc_putProp_eq k v props : assoc k (putProp k v props) = Some v.
Proof.
  induction props as [|[k' v'] props IH]; simpl.
  - by rewrite String.eqb_refl.
  - destruct (String.eqb k k') eqn:Hk; simpl.
    + by rewrite String.eqb_refl.
    + by rewrite Hk.
Qed.

Lemma assoc_putProp_ne k k' v props :
  k' <> k -> assoc k' (putProp k v props) = assoc k' props.
Proof.
  intros Hne. induction props as [|[k0 v0] props IH]; simpl.
  - by apply String.eqb_neq in Hne as ->.
  - destruct (String.eqb k k0) eqn:Hk; simpl.
    + apply String.eqb_eq in Hk. subst k0.
      by apply String.eqb_neq in Hne as ->.
    + by rewrite IH.
Qed.

(** The statistics [logActivity] computes from the stored ones. *)
Lemma logActivity_faultless activityData w :
  faultless chrome ->
  logActivity chrome activityData w
  = match
      (type ← getProp "type" activityData;
       if isStr (js "messageGenerated") type
       then n ← orZeroPlusOne
                  (optChain "messagesGenerated"
                     (if truthy (item "statistics" (storage w))
                      then item "statistics" (storage w) else JObj []));
            counted ← assign "messagesGenerated" n
                        (if truthy (item "statistics" (storage w))
                         then item "statistics" (storage w) else JObj []);
            assign "lastMessageGenerated"
              (JStr (date_now chrome
                       (history w ++ [StorageGet (Some ["statistics"%string])])))
              counted
       else Ok (if truthy (item "statistics" (storage w))
                then item "statistics" (storage w) else JObj []))
    with
    | Ok stats =>
        ({| history :=
              history w
              ++ [StorageGet (Some ["statistics"%string]);
                  StorageSet {[ "statistics"%string := stats ]}];
            storage := <["statistics"%string := stats]> (storage w) |},
         Ok tt)
    | Throw _ =>
        ({| history := history w ++ [StorageGet (Some ["statistics"%string])];
            storage := storage w |}, Ok tt)
    end.
Proof.
  intros [Hget Hset].
  unfold logActivity, tryCatch, mbind, async_bind, res_bind, lift, now,
    mret, async_ret, chrome_storage_sync_get_keys, chrome_storage_sync_set.
  simpl. rewrite Hget. simpl. rewrite item_filter_key.
  set (stats := if truthy (item "statistics" (storage w))
                then item "statistics" (storage w) else JObj []).
  destruct (getProp "type" activityData) as [type|e]; simpl; [|done].
  destruct (isStr (js "messageGenerated") type); simpl.
  - destruct (orZeroPlusOne (optChain "messagesGenerated" stats))
      as [n|e]; simpl; [|done].
    destruct (assign "messagesGenerated" n stats) as [counted|e]; simpl;
      [|done].
    destruct (assign "lastMessageGenerated" _ counted) as [stats'|e]; simpl;
      [|done].
    rewrite Hset. rewrite <- app_assoc. simpl.
    by rewrite <- insert_union_singleton_l.
  - rewrite Hset. rewrite <- app_assoc. simpl.
    by rewrite <- insert_union_singleton_l.
Qed.


End ActivityLog.



Section Counting.

Import Background Store.

Context `{Engine}.
Variable chrome : Chrome.

Lemma Q_succ (k : Z) : ((k # 1) + 1 = (k + 1 # 1))%Q.
Proof. unfold Qplus. simpl. f_equal. lia. Qed.

(** One more message on a store that counted [k] of them. *)
Lemma logActivity_increment activityData w props (k : positive) :
  faultless chrome ->
  optChain "type" activityData = JStr (js "messageGenerated") ->
  storage w !! "statistics"%string = Some (JObj props) ->
  assoc "messagesGenerated" props = Some (JNum (Z.pos k # 1)) ->
  exists stats,
    storage (logActivity chrome activityData w).1 !! "statistics"%string
    = Some (JObj stats)
    /\ assoc "messagesGenerated" stats = Some (JNum (Z.pos (k + 1) # 1)).
Proof.
  intros Hfl Htype Hstats Hcount.
  assert (Hnn : getProp "type" activityData
                = Ok (JStr (js "messageGenerated"))).
  { rewrite <- Htype. apply getProp_not_nullish; intros ->;
      discriminate Htype. }
  rewrite (logActivity_faultless chrome activityData w Hfl), Hnn.
  unfold item. rewrite Hstats. simpl. unfold optChain. simpl.
  rewrite Hcount.
  change (orZeroPlusOne (default JUndefined (Some (JNum (Z.pos k # 1)))))
    with (Ok (JNum ((Z.pos k # 1) + 1)) : Res JsVal).
  rewrite Q_succ. simpl.
  eexists. rewrite lookup_insert_eq. split; [done|].
  rewrite assoc_putProp_ne by done. by rewrite assoc_putProp_eq.
Qed.

Lemma logActivity_first activityData w :
  faultless chrome ->
  optChain "type" activityData = JStr (js "messageGenerated") ->
  truthy (item "statistics" (storage w)) = false ->
  exists stats,
    storage (logActivity chrome activityData w).1 !! "statistics"%string
    = Some (JObj stats)
    /\ assoc "messagesGenerated" stats = Some (JNum (1 # 1)).
Proof.
  intros Hfl Htype Hfalsy.
  assert (Hnn : getProp "type" activityData
                = Ok (JStr (js "messageGenerated"))).
  { rewrite <- Htype. apply getProp_not_nullish; intros ->;
      discriminate Htype. }
  rewrite (logActivity_faultless chrome activityData w Hfl), Hnn, Hfalsy.
  simpl. eexists. by rewrite lookup_insert_eq.
Qed.

Lemma logActivities_count activityData w (n : nat) :
  faultless chrome ->
  optChain "type" activityData = JStr (js "messageGenerated") ->
  truthy (item "statistics" (storage w)) = false ->
  exists stats,
    storage (logActivities chrome activityData (S n) w) !! "statistics"%string
    = Some (JObj stats)
    /\ assoc "messagesGenerated" stats
       = Some (JNum (Z.pos (Pos.of_succ_nat n) # 1)).
Proof.
  intros Hfl Htype Hfalsy. induction n as [|n (stats & Hs & Hc)].
  - apply logActivity_first; done.
  - unfold logActivities in *. rewrite Nat.iter_succ.
    destruct (logActivity_increment activityData _ stats
                (Pos.of_succ_nat n) Hfl Htype Hs Hc) as (stats' & Hs' & Hc').
    exists stats'. split; [done|]. rewrite Hc'.
    by rewrite Pos.add_1_r.
Qed.

End Counting.

(** X20. The counter counts. On storage that works and a store with
    no statistics, [n] activities of type [messageGenerated], one after
    the other, leave [statistics.messagesGenerated] at [n], for every
    [n] from 1 up to the largest integer a JavaScript number counts
    exactly. *)
Theorem messages_are_counted `{Engine} (chrome : Background.Chrome)
        (activityData : JsVal) (w : Background.World) (n : nat) :
  Store.faultless chrome ->
  optChain "type" activityData = JStr (js "messageGenerated") ->
  truthy (Background.item "statistics" (Background.storage w)) = false ->
  (0 < n)%nat -> (Z.of_nat n < 2 ^ 53)%Z ->
  Store.messagesGenerated (Store.logActivities chrome activityData n w)
  = JNum (Z.of_nat n # 1).
Proof.
  intros Hfl Htype Hfalsy Hpos _. destruct n as [|n]; [lia|].
  destruct (logActivities_count chrome activityData w n Hfl Htype Hfalsy)
    as (stats & Hs & Hc).
  unfold Store.messagesGenerated, Background.item. rewrite Hs. simpl.
  unfold optChain. simpl. rewrite Hc. simpl.
  by rewrite Znat.Zpos_P_of_succ_nat, <- Nat2Z.inj_succ.
Qed.

(** Three messages from an empty store. *)
Lemma three_messages_counted :
  Store.messagesGenerated
    (@Store.logActivities Samples.sampleEngine (Samples.silentTab true)
       (JObj [("type"%string, JStr (js "messageGenerated"))]) 3
       Samples.emptyWorld)
  = JNum 3.
Proof.
  apply (@messages_are_counted Samples.sampleEngine (Samples.silentTab true)
           (JObj [("type"%string, JStr (js "messageGenerated"))])
           Samples.emptyWorld 3);
    [split; reflexivity | reflexivity | reflexivity | lia | reflexivity].
Defined.

(** ** The migration runs once *)

Section MigrationOnce.

Import Background Store.

Variable chrome : Chrome.

Lemma handleUpdate_truthy_statistics previousVersion w :
  truthy (item "statistics" (storage w)) = true ->
  storage_get_fault chrome (history w) = None ->
  handleUpdate chrome previousVersion w
  = ({| history := history w ++ [StorageGet None]; storage := storage w |},
     Ok tt).
Proof.
  intros Htruthy Hget.
  unfold handleUpdate, mbind, async_bind, chrome_storage_sync_get. simpl.
  by rewrite Hget, Htruthy.
Qed.

Lemma handleUpdate_leaves_statistics previousVersion w :
  faultless chrome ->
  truthy (item "statistics" (storage (handleUpdate chrome previousVersion w).1))
  = true.
Proof.
  intros [Hget Hset]. rewrite handleUpdate_storage.
  destruct (truthy (item "statistics" (storage w))) eqn:Hs; [done|].
  rewrite Hget, Hset. unfold item. by rewrite lookup_insert_eq.
Qed.

Lemma assign_truthy `{Engine} k v o o' : assign k v o = Ok o' -> truthy o' = true.
Proof. destruct o; simpl; try done; by intros [= <-]. Qed.

Lemma logActivity_leaves_statistics `{Engine} activityData w :
  faultless chrome ->
  activityData <> JUndefined -> activityData <> JNull ->
  truthy (item "statistics" (storage (logActivity chrome activityData w).1))
  = true.
Proof.
  intros Hfl Hu Hn.
  rewrite (logActivity_faultless chrome activityData w Hfl).
  rewrite (getProp_not_nullish "type" activityData Hu Hn).
  cbn [mbind res_bind].
  destruct (truthy (item "statistics" (storage w))) eqn:Hs.
  - destruct (isStr (js "messageGenerated") (optChain "type" activityData)).
    + destruct (orZeroPlusOne _) as [n|e]; cbn [mbind res_bind]; [|done].
      destruct (assign "messagesGenerated" n _) as [counted|e] eqn:Hc;
        cbn [mbind res_bind]; [|done].
      destruct (assign "lastMessageGenerated" _ counted) as [stats|e] eqn:Hl;
        [|done].
      simpl. unfold item. rewrite lookup_insert_eq. simpl.
      by apply assign_truthy in Hl.
    + simpl. unfold item at 1. by rewrite lookup_insert_eq.
  - destruct (isStr (js "messageGenerated") (optChain "type" activityData));
      simpl; unfold item; by rewrite lookup_insert_eq.
Qed.

End MigrationOnce.

(** X21. The migration runs once. On storage that works, after
    [handleUpdate] the stored [statistics] is truthy, so a second
    update reads the store and writes nothing. The same holds after
    any logged activity whose data is not [undefined] or [null]: the
    log leaves [statistics] truthy, an empty object at the least, and
    the next update does not reset the counter. *)
Theorem update_migrates_once `{Engine} (chrome : Background.Chrome)
        (previousVersion previousVersion' : JsVal) (w : Background.World) :
  Store.faultless chrome ->
  (makes (Background.handleUpdate chrome previousVersion')
         (Background.handleUpdate chrome previousVersion w).1
         [Background.StorageGet None] (Ok tt)
   /\ Background.storage
        (Background.handleUpdate chrome previousVersion'
           (Background.handleUpdate chrome previousVersion w).1).1
      = Background.storage (Background.handleUpdate chrome previousVersion w).1)
  /\ (forall activityData,
         activityData <> JUndefined -> activityData <> JNull ->
         makes (Background.handleUpdate chrome previousVersion)
               (Background.logActivity chrome activityData w).1
               [Background.StorageGet None] (Ok tt)
         /\ Background.storage
              (Background.handleUpdate chrome previousVersion
                 (Background.logActivity chrome activityData w).1).1
            = Background.storage
                (Background.logActivity chrome activityData w).1).
Proof.
  intros Hfl. split.
  - unfold makes.
    rewrite (handleUpdate_truthy_statistics chrome previousVersion'
               (Background.handleUpdate chrome previousVersion w).1);
      [done | by apply handleUpdate_leaves_statistics | apply Hfl].
  - intros activityData Hu Hn. unfold makes.
    rewrite (handleUpdate_truthy_statistics chrome previousVersion
               (Background.logActivity chrome activityData w).1);
      [done | by apply logActivity_leaves_statistics | apply Hfl].
Qed.

(** Two updates in a row over the legacy store. *)
Lemma second_update_writes_nothing :
  makes (Background.handleUpdate (Samples.silentTab true) (JStr (js "1.1.0")))
        (Background.handleUpdate (Samples.silentTab true) (JStr (js "1.0.0"))
           (Samples.worldWith Samples.legacyStore)).1
        [Background.StorageGet None] (Ok tt)
  /\ Background.storage
       (Background.handleUpdate (Samples.silentTab true) (JStr (js "1.1.0"))
          (Background.handleUpdate (Samples.silentTab true)
             (JStr (js "1.0.0"))
             (Samples.worldWith Samples.legacyStore)).1).1
     = Background.storage
         (Background.handleUpdate (Samples.silentTab true)
            (JStr (js "1.0.0"))
            (Samples.worldWith Samples.legacyStore)).1.
Proof.
  apply (@update_migrates_once Samples.sampleEngine (Samples.silentTab true)
           (JStr (js "1.0.0")) (JStr (js "1.1.0"))
           (Samples.worldWith Samples.legacyStore)).
  split; reflexivity.
Defined.

(** ** The key in the .env file *)

Section EnvFacts.

Import Content Env.

Lemma takeLine_split t :
  exists after,
    t = takeLine t ++ after
    /\ forallb (fun c => negb (isLineTerminator c)) (takeLine t) = true
    /\ endsLine after.
Proof.
  induction t as [|c t (after & Ht & Hno & Hend)]; simpl.
  - exists []. split; [done|]. split; [done|]. by left.
  - destruct (isLineTerminator c) eqn:Hc; simpl.
    + exists (c :: t). split; [done|]. split; [done|]. right. eauto.
    + exists after. rewrite Hc. simpl. split; [by f_equal|]. by split.
Qed.

Lemma takeLine_app key after :
  forallb (fun c => negb (isLineTerminator c)) key = true ->
  endsLine after ->
  takeLine (key ++ after) = key.
Proof.
  intros Hkey Hend. induction key as [|c key IH]; simpl.
  - destruct Hend as [-> | (c & a & -> & Hc)]; simpl; [done|]. by rewrite Hc.
  - simpl in Hkey. apply andb_true_iff in Hkey as [Hc Hkey].
    apply negb_true_iff in Hc. rewrite Hc. f_equal. by apply IH.
Qed.

(** A key line at the very start of the text is what the first test
    of [matchKey] sees. *)
Lemma KeyLineFrom_here b text key after :
  KeyLineFrom b text [] key after ->
  b = true
  /\ startsWith text keyPrefix = true
  /\ takeLine (drop 15 text) = key.
Proof.
  intros (-> & Hstart & Hne & Hno & Hend).
  destruct Hstart as [[_ ->] | (b0 & c & Hb & _)];
    [|by destruct b0].
  split; [done|]. split; [apply startsWith_prefix; eauto|].
  change (drop 15 (keyPrefix ++ key ++ after)) with (key ++ after).
  by apply takeLine_app.
Qed.

Lemma startsLine_cons b c before :
  startsLine b (c :: before) <-> startsLine (isLineTerminator c) before.
Proof.
  unfold startsLine. split.
  - intros [[Heq _] | (b0 & c' & Heq & Hc')]; [done|].
    destruct b0 as [|x b0]; simpl in Heq; injection Heq as -> Heq.
    + subst before. by left.
    + right. eauto.
  - intros [[-> Hc] | (b0 & c' & -> & Hc')]; right.
    + by exists [], c.
    + by exists (c :: b0), c'.
Qed.

Lemma KeyLineFrom_cons b c rest before key after :
  KeyLineFrom b (c :: rest) (c :: before) key after
  <-> KeyLineFrom (isLineTerminator c) rest before key after.
Proof.
  unfold KeyLineFrom. rewrite startsLine_cons. simpl. split.
  - intros (Heq & H). by injection Heq as ->.
  - intros (-> & H). done.
Qed.

Lemma KeyLineFrom_nil b before key after : ~ KeyLineFrom b [] before key after.
Proof.
  intros (Heq & _). destruct before; discriminate Heq.
Qed.

Lemma KeyLineFrom_head b c rest before key after :
  KeyLineFrom b (c :: rest) before key after ->
  before = [] \/ exists before', before = c :: before'.
Proof.
  intros (Heq & _). destruct before as [|x before]; [by left|].
  right. simpl in Heq. injection Heq as -> _. eauto.
Qed.

(** [matchKey] finds the leftmost key line, and finds none only when
    there is none. *)
Lemma matchKey_leftmost b text :
  match matchKey b text with
  | Some key =>
      exists before after,
        KeyLineFrom b text before key after
        /\ forall before' key' after',
             KeyLineFrom b text before' key' after' ->
             (length before <= length before')%nat
  | None => forall before key after, ~ KeyLineFrom b text before key after
  end.
Proof.
  revert b. induction text as [|c rest IH]; intros b.
  { simpl. intros before key after. apply KeyLineFrom_nil. }
  cbn [matchKey].
  destruct (b && startsWith (c :: rest) keyPrefix
            && nonEmpty (takeLine (drop 15 (c :: rest)))) eqn:Hcond.
  - apply andb_true_iff in Hcond as [Hcond Hne].
    apply andb_true_iff in Hcond as [-> Hprefix].
    apply startsWith_prefix in Hprefix as [t Ht].
    assert (Hdrop : drop 15 (c :: rest) = t).
    { rewrite Ht. reflexivity. }
    rewrite Hdrop in *.
    destruct (takeLine_split t) as (after & Hsplit & Hno & Hend).
    exists [], after. split.
    + split; [simpl; by rewrite Ht, Hsplit at 1|].
      split; [by left|]. split; [by destruct (takeLine t)|]. by split.
    + intros before' key' after' _. simpl. lia.
  - assert (Hrest : forall before key after,
               KeyLineFrom b (c :: rest) before key after ->
               exists before',
                 before = c :: before'
                 /\ KeyLineFrom (isLineTerminator c) rest before' key after).
    { intros before key after Hk.
      destruct (KeyLineFrom_head _ _ _ _ _ _ Hk) as [-> | [before' ->]].
      - exfalso. destruct Hk as (Hk1 & Hk2 & Hk3 & Hk4).
        destruct (KeyLineFrom_here b (c :: rest) key after) as (-> & Hp & Ht).
        { done. }
        rewrite Hp, Ht in Hcond. by destruct key.
      - exists before'. split; [done|]. by apply KeyLineFrom_cons in Hk. }
    specialize (IH (isLineTerminator c)).
    destruct (matchKey (isLineTerminator c) rest) as [key|].
    + destruct IH as (before & after & Hk & Hmin).
      exists (c :: before), after. split; [by apply KeyLineFrom_cons|].
      intros before' key' after' Hk'.
      destruct (Hrest _ _ _ Hk') as (before'' & -> & Hk'').
      simpl. apply le_n_S. by apply (Hmin before'' key' after').
    + intros before key after Hk.
      destruct (Hrest _ _ _ Hk) as (before' & -> & Hk').
      by apply (IH before' key after).
Qed.

End EnvFacts.

(** X22. The key that [loadApiKey] reads from the [.env] text. The
    match is the leftmost place where a line starts with
    [GEMINI_API_KEY=] and at least one character follows on the line,
    and its group is the rest of that line: lines before it that do not
    fit (a name that is indented, an empty value) are passed over, and
    a text with no such line gives no match. A key on a line of a
    Windows file comes without the carriage return. *)
Theorem matchKey_finds_first_key_line (text : jsstring) :
  (forall key,
      Env.matchKey true text = Some key
      <-> exists before after,
            Env.KeyLine text before key after
            /\ forall before' key' after',
                 Env.KeyLine text before' key' after' ->
                 (length before <= length before')%nat)
  /\ (Env.matchKey true text = None
      <-> forall before key after, ~ Env.KeyLine text before key after)
  /\ (forall key,
         key <> [] ->
         forallb (fun c => negb (Content.isLineTerminator c)) key = true ->
         Env.matchKey true (Env.keyPrefix ++ key ++ [13; 10])
         = Some key).
Proof.
  pose proof (matchKey_leftmost true text) as Hspec.
  split; [|split].
  - intros key. split.
    + intros Hm. by rewrite Hm in Hspec.
    + intros (before & after & Hk & Hmin).
      destruct (Env.matchKey true text) as [key0|].
      * destruct Hspec as (before0 & after0 & Hk0 & Hmin0).
        assert (Hlen : length before0 = length before).
        { apply Nat.le_antisymm; [by apply (Hmin0 _ _ _ Hk)
                                 | by apply (Hmin _ _ _ Hk0)]. }
        destruct Hk as (Heq & _ & Hne & Hno & Hend).
        destruct Hk0 as (Heq0 & _ & Hne0 & Hno0 & Hend0).
        rewrite Heq in Heq0.
        apply app_inj_1 in Heq0 as [_ Heq0]; [|done].
        apply app_inv_head in Heq0.
        f_equal.
        rewrite <- (takeLine_app key0 after0 Hno0 Hend0), <- Heq0.
        by apply takeLine_app.
      * exfalso. by apply (Hspec before key after).
  - split.
    + intros Hm. by rewrite Hm in Hspec.
    + intros Hnone. destruct (Env.matchKey true text) as [key|]; [|done].
      destruct Hspec as (before & after & Hk & _).
      exfalso. by apply (Hnone before key after).
  - intros key Hne Hno. clear Hspec.
    pose proof (matchKey_leftmost true
                  (Env.keyPrefix ++ key
                   ++ [13; 10]))
      as Hcr.
    destruct (Env.matchKey true (Env.keyPrefix ++ key ++ [13; 10]))
      as [key0|].
    + destruct Hcr as (before0 & after0 & Hk0 & Hmin0).
      assert (Hk : Env.KeyLineFrom true
                     (Env.keyPrefix ++ key
                      ++ [13; 10])
                     [] key ([13; 10])).
      { split; [done|]. split; [by left|]. split; [done|]. split; [done|].
        right. by exists 13, [10]. }
      pose proof (Hmin0 _ _ _ Hk) as Hlen. simpl in Hlen.
      destruct before0; [|simpl in Hlen; lia].
      destruct (KeyLineFrom_here _ _ _ _ Hk0) as (_ & _ & <-).
      destruct (KeyLineFrom_here _ _ _ _ Hk) as (_ & _ & Ht).
      by rewrite Ht.
    + exfalso. apply (Hcr [] key ([13; 10])).
      split; [done|]. split; [by left|]. split; [done|]. split; [done|].
      right. by exists 13, [10].
Qed.

Section KeyCache.

Import Env.

Lemma loadApiKey_cached c k fetched :
  loadApiKey (Some (c :: k)) fetched = (Some (c :: k), Some (c :: k)).
Proof. reflexivity. Qed.

Lemma loadAll_cached c k fetches :
  loadAll (Some (c :: k)) fetches = Some (c :: k).
Proof.
  unfold loadAll. induction fetches as [|f fetches IH]; simpl; [done|].
  exact IH.
Qed.

Lemma matchKey_single_line key :
  key <> [] ->
  forallb (fun c => negb (Content.isLineTerminator c)) key = true ->
  matchKey true (keyPrefix ++ key) = Some key.
Proof.
  intros Hne Hno.
  assert (Hk : KeyLineFrom true (keyPrefix ++ key) [] key []).
  { split; [by rewrite app_nil_r|]. split; [by left|].
    split; [done|]. split; [done|]. by left. }
  pose proof (matchKey_leftmost true (keyPrefix ++ key)) as Hspec.
  destruct (matchKey true (keyPrefix ++ key)) as [key0|].
  - destruct Hspec as (before0 & after0 & Hk0 & Hmin0).
    pose proof (Hmin0 _ _ _ Hk) as Hlen. simpl in Hlen.
    destruct before0; [|simpl in Hlen; lia].
    destruct (KeyLineFrom_here _ _ _ _ Hk0) as (_ & _ & <-).
    destruct (KeyLineFrom_here _ _ _ _ Hk) as (_ & _ & Ht).
    by rewrite Ht.
  - exfalso. by apply (Hspec [] key []).
Qed.

End KeyCache.

(** X23. The key cache. Once [geminiApiKey] holds a non-empty key,
    [loadApiKey] returns it without fetching, whatever has become of
    the file, and any number of later calls leave it in place. A call
    that fails (the fetch rejects, the status is not 2xx, the body
    cannot be read, no line fits) resolves to [null] and leaves the
    variable as it was. A file whose only line is [GEMINI_API_KEY=]
    followed by a key gives the key trimmed. A key of white space only
    is stored as the empty string: the call resolves to it, the next
    call fetches again, and [handleGenerateMessage] answers that the
    key is not loaded. *)
Theorem loadApiKey_caches_the_key (geminiApiKey : option jsstring)
        (fetched : Res Env.EnvFile) :
  (forall c k later,
      geminiApiKey = Some (c :: k) ->
      Env.loadApiKey geminiApiKey fetched = (geminiApiKey, Some (c :: k))
      /\ Env.fetches geminiApiKey = false
      /\ Env.loadAll geminiApiKey later = geminiApiKey)
  /\ ((Env.loadApiKey geminiApiKey fetched).2 = None ->
      (Env.loadApiKey geminiApiKey fetched).1 = geminiApiKey)
  /\ (forall key,
         Env.fetches geminiApiKey = true ->
         fetched = Ok {| Env.env_ok := true;
                         Env.env_text := Ok (Env.keyPrefix ++ key) |} ->
         key <> [] ->
         forallb (fun c => negb (Content.isLineTerminator c)) key = true ->
         Env.loadApiKey geminiApiKey fetched
         = (Some (trim key), Some (trim key)))
  /\ (forall `{Engine} fetch data,
         (Env.loadApiKey geminiApiKey fetched).2 = None
         \/ (Env.loadApiKey geminiApiKey fetched).2 = Some [] ->
         Env.fetches (Env.loadApiKey geminiApiKey fetched).1 = true
         /\ Background.handleGenerateMessage
              (Env.networkWith (Env.loadApiKey geminiApiKey fetched).2 fetch)
              data
            = Ok (failure (js "API Key not loaded. Please check your .env file and reload the extension."))).
Proof.
  split; [|split; [|split]].
  - intros c k later ->. split; [done|]. split; [done|].
    apply loadAll_cached.
  - unfold Env.loadApiKey.
    destruct geminiApiKey as [[|c k]|]; try done.
    all: destruct fetched as [[okay [text|e]]|e]; simpl; try done.
    all: destruct okay; simpl; try done.
    all: destruct (Env.matchKey true text) as [[|g group]|]; simpl; done.
  - intros key Hfetch -> Hne Hno. unfold Env.loadApiKey.
    assert (Hm := matchKey_single_line key Hne Hno).
    destruct geminiApiKey as [[|c k]|]; try done;
      cbn [Env.env_ok Env.env_text negb]; rewrite Hm; by destruct key.
  - intros H fetch data Hfalsy.
    assert (Hcache : Env.fetches (Env.loadApiKey geminiApiKey fetched).1
                     = true).
    { revert Hfalsy. unfold Env.loadApiKey.
      destruct geminiApiKey as [[|c k]|].
      2: { simpl. by intros [|]. }
      all: destruct fetched as [[okay [text|e]]|e]; simpl; try done.
      all: destruct okay; simpl; try done.
      all: destruct (Env.matchKey true text) as [[|g group]|]; simpl;
        try done.
      all: intros [Hf | Hf]; [done|]; injection Hf as Hf; by rewrite Hf. }
    split; [done|]. unfold Background.handleGenerateMessage. simpl.
    by destruct Hfalsy as [-> | ->].
Qed.

(** A file with one key line, read by a worker that has no key yet. *)
Lemma env_file_key_is_trimmed :
  Env.loadApiKey None
    (Ok {| Env.env_ok := true;
           Env.env_text := Ok (js "GEMINI_API_KEY= AIza-demo ") |})
  = (Some (js "AIza-demo"), Some (js "AIza-demo")).
Proof.
  apply (proj1 (proj2 (proj2 (loadApiKey_caches_the_key None
           (Ok {| Env.env_ok := true;
                  Env.env_text := Ok (js "GEMINI_API_KEY= AIza-demo ") |}))))
           (js " AIza-demo "));
    [reflexivity | reflexivity | discriminate | reflexivity].
Defined.

(** ** The heartbeat *)

Section Heartbeat.

Import KeepAlive.

(** The variable holds the one interval that is set, or none is. *)
Lemma handle_keeps_one w e :
  active (timers w) = match keepAliveInterval w with
                      | Some id => [id]
                      | None => []
                      end ->
  active (timers (handle w e))
  = match keepAliveInterval (handle w e) with
    | Some id => [id]
    | None => []
    end.
Proof.
  intros Hinv. destruct e; simpl.
  - unfold keepServiceWorkerAlive.
    destruct (keepAliveInterval w) as [id|] eqn:Hk; simpl.
    + by rewrite Hk.
    + by rewrite Hinv.
  - unfold stopKeepAlive.
    destruct (keepAliveInterval w) as [id|] eqn:Hk; simpl.
    + rewrite Hinv. simpl. by rewrite Pos.eqb_refl.
    + by rewrite Hk.
Qed.

Lemma run_keeps_one w events :
  active (timers w) = match keepAliveInterval w with
                      | Some id => [id]
                      | None => []
                      end ->
  active (timers (run w events))
  = match keepAliveInterval (run w events) with
    | Some id => [id]
    | None => []
    end.
Proof.
  revert w. unfold run. induction events as [|e events IH]; intros w Hinv.
  - done.
  - simpl. apply IH. by apply handle_keeps_one.
Qed.

End Heartbeat.

(** X24. The heartbeat. Whatever messages and suspensions a started
    worker sees, in whatever order, at most one heartbeat interval is
    set at any time, and [keepAliveInterval] holds it exactly when one
    is set; after a message one is set; after a suspension none is. So
    messages never stack intervals, and a suspension leaves no interval
    behind. *)
Theorem heartbeat_is_single (first : positive)
        (events : list KeepAlive.Event) :
  (length (KeepAlive.active
             (KeepAlive.timers
                (KeepAlive.run (KeepAlive.started first) events))) <= 1)%nat
  /\ (KeepAlive.active
        (KeepAlive.timers (KeepAlive.run (KeepAlive.started first) events))
      = match KeepAlive.keepAliveInterval
                (KeepAlive.run (KeepAlive.started first) events) with
        | Some id => [id]
        | None => []
        end)
  /\ (forall earlier,
         events = earlier ++ [KeepAlive.Message] ->
         exists id,
           KeepAlive.active
             (KeepAlive.timers
                (KeepAlive.run (KeepAlive.started first) events)) = [id])
  /\ (forall earlier,
         events = earlier ++ [KeepAlive.Suspend] ->
         KeepAlive.active
           (KeepAlive.timers (KeepAlive.run (KeepAlive.started first) events))
         = []).
Proof.
  assert (Hinv : forall evs,
             KeepAlive.active
               (KeepAlive.timers (KeepAlive.run (KeepAlive.started first) evs))
             = match KeepAlive.keepAliveInterval
                       (KeepAlive.run (KeepAlive.started first) evs) with
               | Some id => [id]
               | None => []
               end).
  { intros evs. exact (run_keeps_one (KeepAlive.started first) evs eq_refl). }
  split; [|split; [done|split]].
  - rewrite Hinv. destruct (KeepAlive.keepAliveInterval _); simpl; lia.
  - intros earlier ->. rewrite Hinv.
    unfold KeepAlive.run. rewrite fold_left_app. simpl.
    unfold KeepAlive.keepServiceWorkerAlive.
    destruct (KeepAlive.keepAliveInterval (fold_left _ earlier _)) as [id|]
      eqn:Hk; simpl; [rewrite Hk|]; eauto.
  - intros earlier ->. rewrite Hinv.
    unfold KeepAlive.run. rewrite fold_left_app. simpl.
    unfold KeepAlive.stopKeepAlive.
    destruct (KeepAlive.keepAliveInterval (fold_left _ earlier _)) as [id|]
      eqn:Hk; simpl; [done | by rewrite Hk].
Qed.

(** ** The tests for LinkedIn agree *)

Section Guards.

Import Content Background Title.

Lemma profile_address_includes_linkedin u :
  profilePattern_test u = true -> includes u (js "linkedin.com") = true.
Proof.
  intros Hm. apply profilePattern_test_testToEnd in Hm as (pre & m & -> & Hm).
  apply Matches_profilePattern in Hm as [Hp _].
  apply startsWith_prefix in Hp as [b ->].
  apply includes_skip.
  change (js "linkedin.com/in/") with (js "linkedin.com" ++ js "/in/").
  rewrite <- app_assoc. apply includes_start.
Qed.

Lemma bridge_starts_with_lookup `{Engine} chrome tabId message w :
  exists calls r,
    makes (sendMessageToTab chrome tabId message) w (TabsGet tabId :: calls)
          (Ok r).
Proof.
  destruct (sendMessageToTab_traces chrome tabId message w)
    as (calls & r & Hmakes & Htrace).
  simpl in Htrace.
  destruct Htrace as [<-|[<-|[<-|[<-|[<-|[<-|[]]]]]]]; eauto.
Qed.

End Guards.

(** X25. The three tests for LinkedIn agree on profile pages.
    [handleTabUpdate] sets at most one title, and only for a tab that
    has finished loading and has an address: the LinkedIn title when
    the address contains [linkedin.com], the other title when it does
    not. An address that matches the profile pattern, the one the
    content script and the popup go by, always contains
    [linkedin.com]: so such a tab passes the guard of
    [sendMessageToTab], gets the LinkedIn title, and an icon click on
    it starts with the lookup of the tab and never redirects it. *)
Theorem linkedin_tests_agree `{Engine} (tabId : N) (changeInfo : JsVal)
        (tab : Background.Tab) :
  (length (Title.handleTabUpdate tabId changeInfo tab) <= 1)%nat
  /\ (forall u,
         Background.tab_url tab = Some u -> u <> [] ->
         optChain "status" changeInfo = JStr (js "complete") ->
         Title.handleTabUpdate tabId changeInfo tab
         = [if includes u (js "linkedin.com")
            then Title.onLinkedInTitle else Title.elsewhereTitle])
  /\ (optChain "status" changeInfo <> JStr (js "complete")
      \/ Background.tab_url tab = None \/ Background.tab_url tab = Some [] ->
      Title.handleTabUpdate tabId changeInfo tab = [])
  /\ (forall u,
         Background.tab_url tab = Some u ->
         Content.profilePattern_test u = true ->
         includes u (js "linkedin.com") = true
         /\ Background.notOnLinkedIn (Some tab) = Ok false
         /\ (optChain "status" changeInfo = JStr (js "complete") ->
             Title.handleTabUpdate tabId changeInfo tab
             = [Title.onLinkedInTitle])
         /\ forall chrome w,
              exists calls,
                makes (Background.handleIconClick chrome tab) w
                      (Background.TabsGet (Background.tab_id tab) :: calls)
                      (Ok tt)).
Proof.
  assert (Hcomplete : forall u,
             Background.tab_url tab = Some u -> u <> [] ->
             optChain "status" changeInfo = JStr (js "complete") ->
             Title.handleTabUpdate tabId changeInfo tab
             = [if includes u (js "linkedin.com")
                then Title.onLinkedInTitle else Title.elsewhereTitle]).
  { intros u Hurl Hne Hstatus. unfold Title.handleTabUpdate.
    rewrite Hstatus, Hurl.
    destruct changeInfo; try discriminate Hstatus;
      destruct u as [|c u]; try done;
      by destruct (includes (c :: u) (js "linkedin.com")). }
  split; [|split; [done|split]].
  - unfold Title.handleTabUpdate. repeat case_match; simpl; lia.
  - unfold Title.handleTabUpdate. intros [Hstatus | [-> | ->]].
    + destruct (isStr (js "complete") (optChain "status" changeInfo)) eqn:Hs;
        [by apply isStr_true in Hs|].
      by destruct changeInfo.
    + by repeat case_match.
    + by repeat case_match.
  - intros u Hurl Hprofile.
    pose proof (profile_address_includes_linkedin u Hprofile) as Hin.
    assert (Hne : u <> []) by (by intros ->).
    split; [done|]. split; [|split].
    + unfold Background.notOnLinkedIn. by rewrite Hurl, Hin.
    + intros Hstatus. by rewrite (Hcomplete u Hurl Hne Hstatus), Hin.
    + intros chrome w.
      destruct (bridge_starts_with_lookup chrome (Background.tab_id tab)
                  Background.showGenerateButton w) as (calls & r & Hmakes).
      eexists.
      apply (handleIconClick_on_LinkedIn chrome tab u w _ r Hurl Hin Hmakes).
Qed.

(** The tab of the sample profile gets the LinkedIn title. *)
Lemma profile_tab_gets_linkedin_title :
  Title.handleTabUpdate 7 (JObj [("status"%string, JStr (js "complete"))])
    (Samples.linkedInTab 7)
  = [Title.onLinkedInTitle].
Proof.
  apply (proj1 (proj2 (proj2
           (proj2 (proj2 (proj2
              (@linkedin_tests_agree Samples.sampleEngine 7
                 (JObj [("status"%string, JStr (js "complete"))])
                 (Samples.linkedInTab 7))))
              (js "https://www.linkedin.com/in/ada-lovelace/")
              eq_refl eq_refl))));
    reflexivity.
Defined.

(** ** popup.js: the state of the page *)

Section PopupFacts.

Import Content Background PopupUi.

Context `{Engine}.
Variable env : Surroundings.

Lemma checkCurrentTab_eq s :
  checkCurrentTab env s = (s, Ok (activeTabIsProfile env s)).
Proof.
  unfold checkCurrentTab, attempt, queryActiveTab, activeTabIsProfile,
    mbind, pop_bind.
  destruct (tabs_query env (history (world s))) as [[t|]|e]; try done.
  by destruct (tab_url t) as [[|c u]|].
Qed.

(** [updateUI], spelled out. *)
Lemma updateUI_eq s :
  updateUI env s
  = ({| ui :=
          let can := nonEmpty (trim (userContextValue (ui s)))
                     && nonEmpty (trim (userRoleValue (ui s)))
                     && activeTabIsProfile env s in
          let u1 := setGenerateDisabled (negb can) (ui s) in
          if negb (nonEmpty (trim (userContextValue (ui s))))
             || negb (nonEmpty (trim (userRoleValue (ui s))))
          then setActionsDisplay (js "none") (setPreview fillPlaceholder u1)
          else if negb (activeTabIsProfile env s)
          then setActionsDisplay (js "none")
                 (setPreview navigatePlaceholder u1)
          else setPreview clickPlaceholder u1;
        world := world s |}, Ok tt).
Proof.
  unfold updateUI, mbind, pop_bind, getUi. rewrite checkCurrentTab_eq.
  destruct s as [u w]. simpl.
  destruct (nonEmpty (trim (userContextValue u))),
    (nonEmpty (trim (userRoleValue u))),
    (activeTabIsProfile env {| ui := u; world := w |}); reflexivity.
Qed.

Lemma setGenerateLoading_false_eq s :
  setGenerateLoading env false s
  = if replaceable (messagePreviewValue (ui s))
    then updateUI env {| ui := setGenerateSpinner false (ui s);
                         world := world s |}
    else ({| ui := setGenerateDisabled false
                     (setGenerateSpinner false (ui s));
             world := world s |}, Ok tt).
Proof.
  unfold setGenerateLoading, mbind, pop_bind, modify, getUi, replaceable.
  destruct s as [u w]. simpl.
  by destruct (negb (nonEmpty (messagePreviewValue u)) || _ || _ || _).
Qed.

End PopupFacts.

(** X26. [updateUI] and the placeholders. [updateUI] never throws,
    shows no status and makes no recorded call. It leaves one of three
    placeholders in the preview. The generate button ends up enabled
    exactly when the preview invites to click it, which is exactly when
    the context and the role hold more than white space and the active
    tab has an address that matches the profile pattern; whenever the
    button ends up disabled the message actions are hidden. And
    [setGenerateLoading(false)] recognises each of the three
    placeholders as replaceable, and neither of the two error texts. *)
Theorem updateUI_sets_a_placeholder `{Engine} (env : PopupUi.Surroundings)
        (s : PopupUi.PopupState) :
  (PopupUi.updateUI env s).2 = Ok tt
  /\ PopupUi.world (PopupUi.updateUI env s).1 = PopupUi.world s
  /\ PopupUi.statuses (PopupUi.ui (PopupUi.updateUI env s).1)
     = PopupUi.statuses (PopupUi.ui s)
  /\ In (PopupUi.messagePreviewValue (PopupUi.ui (PopupUi.updateUI env s).1))
        PopupUi.placeholders
  /\ (PopupUi.generateDisabled (PopupUi.ui (PopupUi.updateUI env s).1) = false
      <-> PopupUi.messagePreviewValue (PopupUi.ui (PopupUi.updateUI env s).1)
          = PopupUi.clickPlaceholder)
  /\ (PopupUi.generateDisabled (PopupUi.ui (PopupUi.updateUI env s).1) = false
      <-> trim (PopupUi.userContextValue (PopupUi.ui s)) <> []
          /\ trim (PopupUi.userRoleValue (PopupUi.ui s)) <> []
          /\ PopupUi.activeTabIsProfile env s = true)
  /\ (PopupUi.generateDisabled (PopupUi.ui (PopupUi.updateUI env s).1) = true
      -> PopupUi.messageActionsDisplay
           (PopupUi.ui (PopupUi.updateUI env s).1) = js "none")
  /\ Forall (fun p => PopupUi.replaceable p = true) PopupUi.placeholders
  /\ PopupUi.replaceable PopupUi.sorryText = false
  /\ PopupUi.replaceable PopupUi.couldNotConnectText = false.
Proof.
  rewrite updateUI_eq. cbn [fst snd PopupUi.ui PopupUi.world].
  assert (Hdistinct : PopupUi.fillPlaceholder <> PopupUi.clickPlaceholder
                      /\ PopupUi.navigatePlaceholder
                         <> PopupUi.clickPlaceholder).
  { split; by vm_compute. }
  destruct Hdistinct as [Hfill Hnav].
  destruct (trim (PopupUi.userContextValue (PopupUi.ui s))) as [|c uc];
    [|destruct (trim (PopupUi.userRoleValue (PopupUi.ui s))) as [|r ur];
      [|destruct (PopupUi.activeTabIsProfile env s)]];
    cbn [nonEmpty negb orb andb PopupUi.setActionsDisplay PopupUi.setPreview
         PopupUi.setGenerateDisabled PopupUi.statuses
         PopupUi.messagePreviewValue PopupUi.generateDisabled
         PopupUi.messageActionsDisplay].
  all: split; [done|]; split; [done|]; split; [done|].
  all: split; [unfold PopupUi.placeholders; simpl; tauto|].
  all: split; [split; [done | (done || by intros ?)]|].
  all: split; [split; [done | by intros (? & ? & ?)]|].
  all: split; [done|].
  all: split; [repeat constructor; by vm_compute|].
  all: split; by vm_compute.
Qed.

(** ** popup.js: a click on Generate *)

Section GenerateClick.

Import Content Background PopupUi.

Context `{Engine}.
Variable env : Surroundings.

Ltac pop_red :=
  cbn [fst snd ui world statuses addStatus setPreview setActionsDisplay
       setGenerateDisabled setGenerateSpinner setSaveLoading
       userContextValue userRoleValue messagePreviewValue generateDisabled
       generateLoading saveLoading messageActionsDisplay].

Lemma updateUI_keeps s :
  (updateUI env s).2 = Ok tt
  /\ world (updateUI env s).1 = world s
  /\ statuses (ui (updateUI env s).1) = statuses (ui s)
  /\ generateLoading (ui (updateUI env s).1) = generateLoading (ui s)
  /\ saveLoading (ui (updateUI env s).1) = saveLoading (ui s).
Proof.
  rewrite updateUI_eq. cbn [fst snd ui world].
  repeat split; repeat case_match; reflexivity.
Qed.

Lemma setGenerateLoading_false_keeps s :
  (setGenerateLoading env false s).2 = Ok tt
  /\ world (setGenerateLoading env false s).1 = world s
  /\ statuses (ui (setGenerateLoading env false s).1) = statuses (ui s)
  /\ generateLoading (ui (setGenerateLoading env false s).1) = false.
Proof.
  rewrite setGenerateLoading_false_eq.
  destruct (replaceable (messagePreviewValue (ui s))); [|done].
  destruct (updateUI_keeps {| ui := setGenerateSpinner false (ui s);
                              world := world s |})
    as (-> & -> & -> & -> & _).
  done.
Qed.

(** The statuses the [try] block shows: one or two when it completes,
    none before it throws. *)
Lemma generateBody_statuses s :
  exists added,
    statuses (ui (generateBody env s).1) = statuses (ui s) ++ added
    /\ match (generateBody env s).2 with
       | Ok _ => (1 <= length added <= 2)%nat
       | Throw _ => added = []
       end
    /\ (messageActionsDisplay (ui (generateBody env s).1) = js "none"
        \/ (messageActionsDisplay (ui (generateBody env s).1) = js "flex"
            /\ (generateBody env s).2 = Ok tt
            /\ last added
               = Some (js "Message generated successfully!", js "success"))).
Proof.
  unfold generateBody, setGenerateLoading, sendMessageToBackground, showStatus,
    queryActiveTab, attempt, api, raise, modify, getUi, mbind, pop_bind, mret,
    pop_ret.
  destruct s as [u w]. pop_red.
  destruct (negb (nonEmpty (trim (userContextValue u)))
            || negb (nonEmpty (trim (userRoleValue u)))); pop_red.
  { eexists. split; [reflexivity|]. split; [simpl; lia | by left]. }
  destruct (tabs_query env (history w)) as [[t|]|e]; pop_red.
  2: { eexists. split; [reflexivity|]. split; [simpl; lia | by left]. }
  2: { exists []. rewrite app_nil_r. split; [done|]. split; [done | by left]. }
  destruct (tab_id t =? 0); pop_red.
  { eexists. split; [reflexivity|]. split; [simpl; lia | by left]. }
  destruct (Popup.profileResponse (browser env) (tab_id t) w)
    as [w1 [profileResponse|e]]; pop_red.
  2: { exists []. rewrite app_nil_r. split; [done|]. split; [done | by left]. }
  destruct (negb (truthy profileResponse)
            || negb (truthy (optChain "success" profileResponse))); pop_red.
  { destruct (errorOr _ profileResponse) as [text|e]; pop_red.
    - eexists. split; [reflexivity|]. split; [simpl; lia | by left].
    - exists []. rewrite app_nil_r. split; [done|]. split; [done | by left]. }
  destruct (runtime_sendMessage env (history w1) _) as [geminiResponse|e];
    pop_red.
  - destruct (truthy geminiResponse
              && truthy (optChain "success" geminiResponse)); pop_red.
    + destruct (asValue _) as [text|e]; pop_red.
      * eexists. split; [reflexivity|]. split; [simpl; lia | by right].
      * exists []. rewrite app_nil_r. split; [done|].
        split; [done | by left].
    + destruct (errorOr _ geminiResponse) as [text|e]; pop_red.
      * eexists. split; [reflexivity|]. split; [simpl; lia | by left].
      * exists []. rewrite app_nil_r. split; [done|].
        split; [done | by left].
  - destruct (includes (errorMessage e) _); pop_red.
    all: cbn [truthy andb errorOr optChain field default]; pop_red.
    all: eexists; rewrite <- app_assoc; (split; [reflexivity|]);
      (split; [simpl; lia | by left]).
Qed.

(** The [try] block on a form with a blank field. *)
Lemma generateBody_blank s :
  trim (userContextValue (ui s)) = [] \/ trim (userRoleValue (ui s)) = [] ->
  generateBody env s
  = ({| ui := addStatus (js "Please fill in your context and role.")
                (js "error")
                (setPreview []
                   (setActionsDisplay (js "none")
                      (setGenerateDisabled true
                         (setGenerateSpinner true (ui s)))));
        world := world s |}, Ok tt).
Proof.
  intros Hblank.
  unfold generateBody, setGenerateLoading, showStatus, modify, getUi, mbind,
    pop_bind.
  destruct s as [u w]. pop_red.
  assert (Hc : negb (nonEmpty (trim (userContextValue u)))
               || negb (nonEmpty (trim (userRoleValue u))) = true).
  { cbn [ui] in Hblank. destruct Hblank as [-> | ->]; [done|].
    apply orb_true_r. }
  by rewrite Hc.
Qed.

(** The [try] and [catch] together. *)
Lemma generate_attempt_statuses s (handler := fun error : Exn =>
    if includes (errorMessage error) (js "Receiving end does not exist")
    then _ ← showStatus
               (js "Connection failed. Please refresh the LinkedIn page.")
               (js "error");
         modify (setPreview couldNotConnectText)
    else showStatus (js "An unexpected error occurred: "
                     ++ errorMessage error) (js "error")) :
  (attempt (generateBody env) handler s).2 = Ok tt
  /\ exists added,
       statuses (ui (attempt (generateBody env) handler s).1)
       = statuses (ui s) ++ added
       /\ (1 <= length added <= 2)%nat
       /\ (messageActionsDisplay (ui (attempt (generateBody env) handler s).1)
           = js "flex" ->
           last added
           = Some (js "Message generated successfully!", js "success")).
Proof.
  destruct (generateBody_statuses s) as (added & Hadded & Hres & Hflex).
  unfold attempt.
  destruct (generateBody env s) as [s1 [[]|e]] eqn:Hbody; cbn [fst snd] in *.
  - split; [done|]. exists added. split; [done|]. split; [done|].
    intros Hf. destruct Hflex as [Hnone | (_ & _ & Hlast)]; [|done].
    rewrite Hnone in Hf. by vm_compute in Hf.
  - subst added. rewrite app_nil_r in Hadded. unfold handler.
    destruct (includes (errorMessage e) _);
      unfold showStatus, modify, mbind, pop_bind; pop_red.
    all: split; [done|]; eexists; rewrite Hadded; (split; [reflexivity|]);
      (split; [simpl; lia|]).
    all: intros Hf; destruct Hflex as [Hnone | (_ & Hok & _)];
      [rewrite Hnone in Hf; by vm_compute in Hf | discriminate Hok].
Qed.

Lemma setGenerateLoading_false_actions s :
  messageActionsDisplay (ui (setGenerateLoading env false s).1) = js "flex" ->
  messageActionsDisplay (ui s) = js "flex".
Proof.
  rewrite setGenerateLoading_false_eq.
  destruct (replaceable (messagePreviewValue (ui s))); [|done].
  rewrite updateUI_eq. pop_red.
  repeat case_match; pop_red; try done; intros Hf; by vm_compute in Hf.
Qed.

End GenerateClick.

(** X27. A click on Generate always reports. Whatever the page, the
    tab, the content script and the worker do,
    [PopupManager.handleGenerateMessage] completes without throwing,
    leaves the spinner off, and shows one status or two, never none.
    With a context or a role that is blank it makes no call at all,
    shows [Please fill in your context and role.], and leaves the
    button disabled, the actions hidden and the first placeholder in
    the preview. The copy and regenerate actions are on display at the
    end only after a success, with the success status as the one on
    display. *)
Theorem generate_click_always_reports `{Engine}
        (env : PopupUi.Surroundings) (s : PopupUi.PopupState) :
  (PopupUi.handleGenerateMessage env s).2 = Ok tt
  /\ PopupUi.generateLoading
       (PopupUi.ui (PopupUi.handleGenerateMessage env s).1) = false
  /\ (exists added,
         PopupUi.statuses (PopupUi.ui (PopupUi.handleGenerateMessage env s).1)
         = PopupUi.statuses (PopupUi.ui s) ++ added
         /\ (1 <= length added <= 2)%nat
         /\ (PopupUi.messageActionsDisplay
               (PopupUi.ui (PopupUi.handleGenerateMessage env s).1)
             = js "flex" ->
             PopupUi.shown
               (PopupUi.ui (PopupUi.handleGenerateMessage env s).1)
             = Some (js "Message generated successfully!", js "success")))
  /\ (trim (PopupUi.userContextValue (PopupUi.ui s)) = []
      \/ trim (PopupUi.userRoleValue (PopupUi.ui s)) = [] ->
      PopupUi.world (PopupUi.handleGenerateMessage env s).1 = PopupUi.world s
      /\ PopupUi.statuses
           (PopupUi.ui (PopupUi.handleGenerateMessage env s).1)
         = PopupUi.statuses (PopupUi.ui s)
           ++ [(js "Please fill in your context and role.", js "error")]
      /\ PopupUi.messagePreviewValue
           (PopupUi.ui (PopupUi.handleGenerateMessage env s).1)
         = PopupUi.fillPlaceholder
      /\ PopupUi.generateDisabled
           (PopupUi.ui (PopupUi.handleGenerateMessage env s).1) = true
      /\ PopupUi.messageActionsDisplay
           (PopupUi.ui (PopupUi.handleGenerateMessage env s).1) = js "none").
Proof.
  unfold PopupUi.handleGenerateMessage, PopupUi.finally.
  destruct (generate_attempt_statuses env s) as (Hok & added & Hadded & Hlen & Hflex).
  split; [|split; [|split]].
  - destruct (PopupUi.attempt _ _ s) as [s1 r]. exact Hok.
  - destruct (PopupUi.attempt _ _ s) as [s1 r]. cbn [fst].
    apply setGenerateLoading_false_keeps.
  - exists added.
    destruct (PopupUi.attempt _ _ s) as [s1 r]. cbn [fst snd] in *.
    destruct (setGenerateLoading_false_keeps env s1) as (_ & _ & Hst & _).
    split; [by rewrite Hst|]. split; [done|].
    intros Hf. apply setGenerateLoading_false_actions in Hf.
    unfold PopupUi.shown. rewrite Hst, Hadded.
    rewrite last_app, (Hflex Hf). done.
  - intros Hblank. unfold PopupUi.attempt.
    rewrite (generateBody_blank env s Hblank). cbn [fst snd].
    rewrite setGenerateLoading_false_eq.
    cbn [PopupUi.ui PopupUi.world PopupUi.messagePreviewValue
         PopupUi.addStatus PopupUi.setPreview].
    change (PopupUi.replaceable []) with true. cbn iota.
    rewrite updateUI_eq.
    cbn [fst snd PopupUi.ui PopupUi.world PopupUi.userContextValue
         PopupUi.userRoleValue PopupUi.setGenerateSpinner PopupUi.addStatus
         PopupUi.setPreview PopupUi.setActionsDisplay
         PopupUi.setGenerateDisabled].
    assert (Hc : negb (nonEmpty (trim (PopupUi.userContextValue (PopupUi.ui s))))
                 || negb (nonEmpty (trim (PopupUi.userRoleValue (PopupUi.ui s))))
                 = true).
    { destruct Hblank as [-> | ->]; [done | apply orb_true_r]. }
    assert (Hcan : nonEmpty (trim (PopupUi.userContextValue (PopupUi.ui s)))
                   && nonEmpty (trim (PopupUi.userRoleValue (PopupUi.ui s)))
                   = false).
    { destruct Hblank as [-> | ->]; [done | apply andb_false_r]. }
    rewrite Hc, Hcan. done.
Qed.

(** ** From the click to the message *)

Section EndToEnd.

Import Content Background PopupUi Session.

Context `{Engine}.
Variable env : Surroundings.

Ltac pop_red :=
  cbn [fst snd ui world statuses addStatus setPreview setActionsDisplay
       setGenerateDisabled setGenerateSpinner setSaveLoading
       userContextValue userRoleValue messagePreviewValue generateDisabled
       generateLoading saveLoading messageActionsDisplay].





End EndToEnd.



(** ** popup.js: saving the form *)

Section FormSubmit.

Import Content Background PopupUi.

Context `{Engine}.
Variable env : Surroundings.

Ltac pop_red :=
  cbn [fst snd ui world statuses addStatus setPreview setActionsDisplay
       setGenerateDisabled setGenerateSpinner setSaveLoading
       userContextValue userRoleValue messagePreviewValue generateDisabled
       generateLoading saveLoading messageActionsDisplay].

Lemma handleFormSubmit_blank s :
  trim (userContextValue (ui s)) = [] \/ trim (userRoleValue (ui s)) = [] ->
  handleFormSubmit env s
  = ({| ui := setSaveLoading false
                (addStatus (js "Please fill in all required fields")
                   (js "error") (setSaveLoading true (ui s)));
        world := world s |}, Ok tt).
Proof.
  intros Hblank.
  unfold handleFormSubmit, finally, attempt, setLoading, showStatus, modify,
    getUi, mbind, pop_bind.
  destruct s as [u w]. pop_red. cbn [ui] in Hblank.
  assert (Hc : negb (nonEmpty (trim (userContextValue u)))
               || negb (nonEmpty (trim (userRoleValue u))) = true).
  { destruct Hblank as [-> | ->]; [done | apply orb_true_r]. }
  by rewrite Hc.
Qed.

(** A filled form whose write storage accepts. *)
Lemma handleFormSubmit_saved s :
  trim (userContextValue (ui s)) <> [] ->
  trim (userRoleValue (ui s)) <> [] ->
  storage_set_fault (browser env) (history (world s))
    (settingsItems (trim (userContextValue (ui s)))
       (trim (userRoleValue (ui s)))
       (date_now (browser env) (history (world s)))) = None ->
  (handleFormSubmit env s).2 = Ok tt
  /\ statuses (ui (handleFormSubmit env s).1)
     = statuses (ui s) ++ [(savedStatus, js "success")]
  /\ saveLoading (ui (handleFormSubmit env s).1) = false
  /\ storage (world (handleFormSubmit env s).1)
     = settingsItems (trim (userContextValue (ui s)))
         (trim (userRoleValue (ui s)))
         (date_now (browser env) (history (world s)))
       ∪ storage (world s)
  /\ history (world (handleFormSubmit env s).1)
     = history (world s)
       ++ [StorageSet (settingsItems (trim (userContextValue (ui s)))
                         (trim (userRoleValue (ui s)))
                         (date_now (browser env) (history (world s))))]
       ++ notice env s
            (settingsItems (trim (userContextValue (ui s)))
               (trim (userRoleValue (ui s)))
               (date_now (browser env) (history (world s))))
            (settingsUpdated (trim (userContextValue (ui s)))
               (trim (userRoleValue (ui s)))
               (date_now (browser env) (history (world s)))).
Proof.
  intros Hc Hr Hset.
  unfold handleFormSubmit, finally, setLoading, showStatus, attempt,
    queryActiveTab, api, modify, getUi, now, chrome_storage_sync_set,
    chrome_tabs_sendMessage, call, mbind, pop_bind, mret, pop_ret, notice.
  destruct s as [u w]. pop_red. cbn [ui world] in *.
  assert (Hfilled : negb (nonEmpty (trim (userContextValue u)))
                    || negb (nonEmpty (trim (userRoleValue u))) = false).
  { destruct (trim (userContextValue u)); [done|].
    by destruct (trim (userRoleValue u)). }
  rewrite Hfilled. cbn beta iota. pop_red. rewrite Hset.
  cbn beta iota. pop_red. rewrite updateUI_eq. cbn beta iota. pop_red.
  cbn [history storage].
  destruct (tabs_query env _) as [[t|]|e]; cbn beta iota; pop_red.
  - destruct (tab_url t) as [[|c url]|]; cbn beta iota; pop_red.
    2: destruct (includes (c :: url) (js "linkedin.com")); cbn beta iota;
         pop_red.
    2: destruct (tabs_sendMessage (browser env) _ (tab_id t) _);
         cbn beta iota; pop_red.
    all: cbn [history storage]; rewrite ?app_nil_r, <- ?app_assoc.
    all: repeat split; repeat case_match; pop_red; reflexivity.
  - rewrite ?app_nil_r. repeat split; repeat case_match; pop_red; reflexivity.
  - rewrite ?app_nil_r. repeat split; repeat case_match; pop_red; reflexivity.
Qed.

(** A filled form whose write storage refuses. *)
Lemma handleFormSubmit_refused s e :
  trim (userContextValue (ui s)) <> [] ->
  trim (userRoleValue (ui s)) <> [] ->
  storage_set_fault (browser env) (history (world s))
    (settingsItems (trim (userContextValue (ui s)))
       (trim (userRoleValue (ui s)))
       (date_now (browser env) (history (world s)))) = Some e ->
  handleFormSubmit env s
  = ({| ui := setSaveLoading false
                (addStatus (js "Error saving settings. Please try again.")
                   (js "error") (setSaveLoading true (ui s)));
        world :=
          {| history :=
               history (world s)
               ++ [StorageSet
                     (settingsItems (trim (userContextValue (ui s)))
                        (trim (userRoleValue (ui s)))
                        (date_now (browser env) (history (world s))))];
             storage := storage (world s) |} |}, Ok tt).
Proof.
  intros Hc Hr Hset.
  unfold handleFormSubmit, finally, setLoading, showStatus, attempt,
    queryActiveTab, api, modify, getUi, now, chrome_storage_sync_set,
    chrome_tabs_sendMessage, call, mbind, pop_bind, mret, pop_ret.
  destruct s as [u w]. pop_red. cbn [ui world] in *.
  assert (Hfilled : negb (nonEmpty (trim (userContextValue u)))
                    || negb (nonEmpty (trim (userRoleValue u))) = false).
  { destruct (trim (userContextValue u)); [done|].
    by destruct (trim (userRoleValue u)). }
  rewrite Hfilled. cbn beta iota. pop_red. by rewrite Hset.
Qed.

Lemma settingsItems_lookup userContext userRole date :
  settingsItems userContext userRole date !! "userContext"%string
  = Some (JStr userContext)
  /\ settingsItems userContext userRole date !! "userRole"%string
     = Some (JStr userRole)
  /\ settingsItems userContext userRole date !! "timestamp"%string
     = Some (JStr date)
  /\ settingsItems userContext userRole date !! "settings"%string = None.
Proof. repeat split; by vm_compute. Qed.

End FormSubmit.

(** X29. Saving the form. [handleFormSubmit] never throws and leaves
    the save button released. A blank context or role is refused with
    a status and no call. Otherwise the trimmed context, the trimmed
    role and a timestamp are written, and nothing else: the popup never
    writes [settings]. When storage accepts the write the success
    status is shown and, when the active tab is on LinkedIn, the
    content script is sent the same three values, which its listener
    takes as the assistant's settings; when storage refuses, the error
    status is shown and nothing is sent. And because [settings] is not
    among the keys written, a save into a store without [settings] is
    undone by the next startup: [handleStartup] writes the defaults
    over it and the saved context is empty again. *)
Theorem form_submit_saves_three_keys `{Engine} (env : PopupUi.Surroundings)
        (s : PopupUi.PopupState) :
  (trim (PopupUi.userContextValue (PopupUi.ui s)) = []
   \/ trim (PopupUi.userRoleValue (PopupUi.ui s)) = [] ->
   PopupUi.handleFormSubmit env s
   = ({| PopupUi.ui :=
           PopupUi.setSaveLoading false
             (PopupUi.addStatus (js "Please fill in all required fields")
                (js "error") (PopupUi.setSaveLoading true (PopupUi.ui s)));
         PopupUi.world := PopupUi.world s |}, Ok tt))
  /\ (trim (PopupUi.userContextValue (PopupUi.ui s)) <> [] ->
      trim (PopupUi.userRoleValue (PopupUi.ui s)) <> [] ->
      Background.storage_set_fault (PopupUi.browser env)
        (Background.history (PopupUi.world s))
        (PopupUi.settingsItems
           (trim (PopupUi.userContextValue (PopupUi.ui s)))
           (trim (PopupUi.userRoleValue (PopupUi.ui s)))
           (Background.date_now (PopupUi.browser env)
              (Background.history (PopupUi.world s)))) = None ->
      (PopupUi.handleFormSubmit env s).2 = Ok tt
      /\ PopupUi.saveLoading (PopupUi.ui (PopupUi.handleFormSubmit env s).1)
         = false
      /\ PopupUi.statuses (PopupUi.ui (PopupUi.handleFormSubmit env s).1)
         = PopupUi.statuses (PopupUi.ui s)
           ++ [(PopupUi.savedStatus, js "success")]
      /\ Background.storage
           (PopupUi.world (PopupUi.handleFormSubmit env s).1)
         !! "userContext"%string
         = Some (JStr (trim (PopupUi.userContextValue (PopupUi.ui s))))
      /\ Background.storage
           (PopupUi.world (PopupUi.handleFormSubmit env s).1)
         !! "userRole"%string
         = Some (JStr (trim (PopupUi.userRoleValue (PopupUi.ui s))))
      /\ (forall k, k <> "userContext"%string -> k <> "userRole"%string ->
                    k <> "timestamp"%string ->
                    Background.storage
                      (PopupUi.world (PopupUi.handleFormSubmit env s).1) !! k
                    = Background.storage (PopupUi.world s) !! k)
      /\ sent (Background.history
                 (PopupUi.world (PopupUi.handleFormSubmit env s).1))
         = sent (Background.history (PopupUi.world s))
           ++ sent (PopupUi.notice env s
                      (PopupUi.settingsItems
                         (trim (PopupUi.userContextValue (PopupUi.ui s)))
                         (trim (PopupUi.userRoleValue (PopupUi.ui s)))
                         (Background.date_now (PopupUi.browser env)
                            (Background.history (PopupUi.world s))))
                      (PopupUi.settingsUpdated
                         (trim (PopupUi.userContextValue (PopupUi.ui s)))
                         (trim (PopupUi.userRoleValue (PopupUi.ui s)))
                         (Background.date_now (PopupUi.browser env)
                            (Background.history (PopupUi.world s)))))
      /\ (Store.faultless (PopupUi.browser env) ->
          truthy (Background.item "settings"
                    (Background.storage (PopupUi.world s))) = false ->
          Background.storage
            (Background.handleStartup (PopupUi.browser env)
               (PopupUi.world (PopupUi.handleFormSubmit env s).1)).1
          !! "userContext"%string = Some (JStr [])))
  /\ (forall e,
         trim (PopupUi.userContextValue (PopupUi.ui s)) <> [] ->
         trim (PopupUi.userRoleValue (PopupUi.ui s)) <> [] ->
         Background.storage_set_fault (PopupUi.browser env)
           (Background.history (PopupUi.world s))
           (PopupUi.settingsItems
              (trim (PopupUi.userContextValue (PopupUi.ui s)))
              (trim (PopupUi.userRoleValue (PopupUi.ui s)))
              (Background.date_now (PopupUi.browser env)
                 (Background.history (PopupUi.world s)))) = Some e ->
         (PopupUi.handleFormSubmit env s).2 = Ok tt
         /\ PopupUi.saveLoading
              (PopupUi.ui (PopupUi.handleFormSubmit env s).1) = false
         /\ PopupUi.statuses (PopupUi.ui (PopupUi.handleFormSubmit env s).1)
            = PopupUi.statuses (PopupUi.ui s)
              ++ [(js "Error saving settings. Please try again.", js "error")]
         /\ Background.storage
              (PopupUi.world (PopupUi.handleFormSubmit env s).1)
            = Background.storage (PopupUi.world s)
         /\ sent (Background.history
                    (PopupUi.world (PopupUi.handleFormSubmit env s).1))
            = sent (Background.history (PopupUi.world s)))
  /\ (forall page st userContext userRole date,
         Session.consistent st ->
         (Content.onMessage page st
            (toRequest (PopupUi.settingsUpdated userContext userRole date))).2
         = [success]
         /\ Content.linkedinAssistant
              (Content.onMessage page st
                 (toRequest
                    (PopupUi.settingsUpdated userContext userRole date))).1
            = Some {| Content.settings :=
                        JObj [ ("userContext", JStr userContext);
                               ("userRole", JStr userRole);
                               ("timestamp", JStr date) ]%string |}).
Proof.
  split; [apply handleFormSubmit_blank|]. split; [|split].
  - intros Hc Hr Hset.
    destruct (handleFormSubmit_saved env s Hc Hr Hset)
      as (Hok & Hst & Hload & Hstore & Hhist).
    destruct (settingsItems_lookup
                (trim (PopupUi.userContextValue (PopupUi.ui s)))
                (trim (PopupUi.userRoleValue (PopupUi.ui s)))
                (Background.date_now (PopupUi.browser env)
                   (Background.history (PopupUi.world s))))
      as (Hl1 & Hl2 & Hl3 & Hl4).
    split; [done|]. split; [done|]. split; [done|].
    split; [by rewrite Hstore; apply lookup_union_Some_l|].
    split; [by rewrite Hstore; apply lookup_union_Some_l|].
    split.
    { intros k Hk1 Hk2 Hk3. rewrite Hstore. apply lookup_union_r.
      unfold PopupUi.settingsItems.
      rewrite lookup_insert_ne by done. rewrite lookup_insert_ne by done.
      by rewrite lookup_singleton_ne. }
    split.
    { rewrite Hhist. unfold sent. by rewrite !omap_app. }
    intros Hfl Hfalsy.
    rewrite (handleStartup_faultless (PopupUi.browser env) _ Hfl).
    assert (Hstill : truthy (Background.item "settings"
                       (Background.storage
                          (PopupUi.world (PopupUi.handleFormSubmit env s).1)))
                     = false).
    { rewrite Hstore. unfold Background.item.
      rewrite lookup_union_r by done. exact Hfalsy. }
    rewrite Hstill. cbn [fst Background.storage].
    apply lookup_union_Some_l, defaultSettings_userContext.
  - intros e Hc Hr Hset.
    rewrite (handleFormSubmit_refused env s e Hc Hr Hset).
    cbn [fst snd PopupUi.ui PopupUi.world Background.history
         Background.storage].
    split; [done|]. split; [done|]. split; [done|]. split; [done|].
    unfold sent. rewrite omap_app. simpl. by rewrite app_nil_r.
  - intros page st userContext userRole date Hwf.
    unfold Content.onMessage. simpl.
    unfold Session.consistent in Hwf.
    destruct (Content.isContentScriptReady st) eqn:Hst; simpl.
    + by destruct (Hwf eq_refl) as [a ->].
    + by rewrite (initializeContentScript_ready st Hst).
Qed.

(** The filled form, saved into an empty store on a LinkedIn tab: the
    script is told, and the next startup empties the context. *)
Lemma saved_context_is_lost_at_startup :
  Background.storage
    (PopupUi.world
       (PopupUi.handleFormSubmit
          (Demo.surroundings Samples.aboutHiPage Samples.noNetwork)
          (Demo.start Demo.filled)).1)
  !! "userContext"%string = Some (JStr (js "CS grad"))
  /\ Background.storage
       (Background.handleStartup
          (PopupUi.browser
             (Demo.surroundings Samples.aboutHiPage Samples.noNetwork))
          (PopupUi.world
             (PopupUi.handleFormSubmit
                (Demo.surroundings Samples.aboutHiPage Samples.noNetwork)
                (Demo.start Demo.filled)).1)).1
     !! "userContext"%string = Some (JStr []).
Proof.
  destruct (proj1 (proj2 (@form_submit_saves_three_keys Samples.sampleEngine
                            (Demo.surroundings Samples.aboutHiPage
                               Samples.noNetwork)
                            (Demo.start Demo.filled))))
    as (_ & _ & _ & Hsaved & _ & _ & _ & Hlost);
    [discriminate | discriminate | reflexivity |].
  split; [exact Hsaved|]. apply Hlost; [split; reflexivity | reflexivity].
Defined.

(** ** popup.js: the input listeners *)

(** X30. Typing is not debounced. The listeners of the two text
    areas call [debounce] anew at every [input] event, so the function
    made has a [timeout] variable of its own that is not yet set, and
    its [clearTimeout] clears nothing: after [n] events, [n] more
    timeouts are pending than before, and every timeout that was
    pending still is. Each of them runs [updateUI] when its 500 ms are
    over, so [n] keystrokes cost [n] updates. *)
Theorem input_events_are_not_debounced (n : nat) (t : PopupUi.Timeouts) :
  exists added,
    PopupUi.pending (PopupUi.onInputs n t) = PopupUi.pending t ++ added
    /\ length added = n
    /\ length (PopupUi.pending (PopupUi.onInputs n t))
       = (length (PopupUi.pending t) + n)%nat
    /\ forall id, In id (PopupUi.pending t) ->
                  In id (PopupUi.pending (PopupUi.onInputs n t)).
Proof.
  assert (Hadded : exists added,
             PopupUi.pending (PopupUi.onInputs n t)
             = PopupUi.pending t ++ added
             /\ length added = n).
  { induction n as [|n (added & Hp & Hlen)].
    - exists []. simpl. by rewrite app_nil_r.
    - unfold PopupUi.onInputs in *. rewrite Nat.iter_succ.
      unfold PopupUi.onInput at 1. simpl. rewrite Hp.
      eexists. rewrite <- app_assoc. split; [reflexivity|].
      rewrite length_app. simpl. lia. }
  destruct Hadded as (added & Hp & Hlen).
  exists added. split; [done|]. split; [done|]. split.
  - rewrite Hp, length_app. lia.
  - intros id Hin. rewrite Hp. apply in_or_app. by left.
Qed.
